(** * SMB.FALH ebook generator: page estimator, layout colours and the
      generation pipeline

    A shallow embedding of
      - [src/services/pdf.ts]   ([estimatePageCount], the colour handling of
        [createPDF] and [addText]),
      - [src/services/gemini.ts] (the wrappers around [ai.models.generateContent]),
      - [src/components/EbookGenerator.tsx] ([handleGenerate], [handleRefine],
        [addFAQ]),
    followed by the properties established about them.

    Conventions.  A JavaScript string is a [string]: one [ascii] per UTF-16
    code unit, restricted to the code units U+0000..U+00FF.  [String.length]
    is the [.length] of the source.  JavaScript numbers that the handlers use
    are integers, [NaN] or an infinity ([JS.number]).  The offsets computed by
    the estimator are rationals ([Q]): every sum and product there is a
    multiple of 1/8 far below 2^53, which binary64 holds exactly; the two
    quotients passed to [Math.ceil] are rounded, but an exact quotient that is
    not an integer is at least 1/1896 away from the next one, much more than
    the rounding error for any string length JavaScript allows, so the
    ceiling of the rounded quotient is the ceiling of the exact one. *)

From Stdlib Require Import String Ascii List ZArith QArith Qround Lia Bool.
Import ListNotations.

Local Open Scope string_scope.
Local Open Scope Z_scope.

(* ================================================================== *)
(** * JavaScript primitives used by the sources                        *)
(* ================================================================== *)

Module JS.

(** A JavaScript number as far as the orchestrator needs it.  The sign of
    zero is not represented. *)
Inductive number : Type :=
| NaN
| Infinity (negative : bool)
| Int (z : Z).

(** Truthiness of a string: only the empty string is falsy. *)
Definition truthy (s : string) : bool :=
  match s with
  | EmptyString => false
  | String _ _ => true
  end.

(** Truthiness of an optional string property ([undefined] is falsy). *)
Definition truthy_opt (s : option string) : bool :=
  match s with
  | None => false
  | Some s => truthy s
  end.

(** [a || b] on strings where [a] may be [undefined]. *)
Definition or_else (a : option string) (b : string) : string :=
  match a with
  | Some s => if truthy s then s else b
  | None => b
  end.

Definition LF : ascii := ascii_of_nat 10.

(** White space and line terminators among the code units below U+0100. *)
Definition isWhiteSpace (c : ascii) : bool :=
  let n := N_of_ascii c in
  ((n =? 9) || (n =? 10) || (n =? 11) || (n =? 12) || (n =? 13)
   || (n =? 32) || (n =? 160))%N.

Fixpoint trimStart (s : string) : string :=
  match s with
  | EmptyString => EmptyString
  | String c s' => if isWhiteSpace c then trimStart s' else s
  end.

Fixpoint trimEnd (s : string) : string :=
  match s with
  | EmptyString => EmptyString
  | String c s' =>
      match trimEnd s' with
      | EmptyString => if isWhiteSpace c then EmptyString else String c EmptyString
      | t => String c t
      end
  end.

(** [s.trim()] *)
Definition trim (s : string) : string := trimEnd (trimStart s).

(** [s.slice(start, end)] for non-negative literal indices. *)
Definition slice (s : string) (start end_ : nat) : string :=
  substring start (end_ - start) s.

(** [s.split('\n\n')]: the separator is searched left to right, matches do
    not overlap, and a string without separator gives a single piece. *)
Definition cons_head (c : ascii) (ps : list string) : list string :=
  match ps with
  | [] => [String c EmptyString]
  | p :: ps' => String c p :: ps'
  end.

Fixpoint split (s : string) : list string :=
  match s with
  | EmptyString => [EmptyString]
  | String c s' =>
      match s' with
      | EmptyString => [String c EmptyString]
      | String c' s'' =>
          if Ascii.eqb c LF && Ascii.eqb c' LF
          then EmptyString :: split s''
          else cons_head c (split s')
      end
  end.

(** Value of a digit in radixes up to 36. *)
Definition digitValue (c : ascii) : option Z :=
  let n := Z.of_N (N_of_ascii c) in
  if (48 <=? n) && (n <=? 57) then Some (n - 48)
  else if (97 <=? n) && (n <=? 122) then Some (n - 87)
  else if (65 <=? n) && (n <=? 90) then Some (n - 55)
  else None.

(** Value of a hexadecimal digit. *)
Definition hexValue (c : ascii) : option Z :=
  match digitValue c with
  | Some d => if d <? 16 then Some d else None
  | None => None
  end.

(** The longest prefix of radix-[R] digits, as a number; [acc] is [None]
    as long as no digit was read. *)
Fixpoint digits (R : Z) (s : string) (acc : option Z) : option Z :=
  match s with
  | EmptyString => acc
  | String c s' =>
      match digitValue c with
      | Some d =>
          if d <? R
          then digits R s' (Some (match acc with Some a => a * R + d | None => d end))
          else acc
      | None => acc
      end
  end.

(** [parseInt(string, radix)], [radix = None] when the argument is left out.
    Integers beyond 2^53 are kept exact. *)
Definition parseInt (string : string) (radix : option Z) : number :=
  let inputString := trimStart string in
  let sign :=
    match inputString with
    | String c _ => if Ascii.eqb c "-" then -1 else 1
    | EmptyString => 1
    end in
  let inputString :=
    match inputString with
    | String c rest => if Ascii.eqb c "+" || Ascii.eqb c "-" then rest else inputString
    | EmptyString => inputString
    end in
  let R := match radix with Some r => r | None => 0 end in
  if negb (R =? 0) && ((R <? 2) || (R >? 36)) then NaN
  else
    let stripPrefix := (R =? 0) || (R =? 16) in
    let R := if R =? 0 then 10 else R in
    let '(inputString, R) :=
      if stripPrefix then
        match inputString with
        | String c0 (String x rest) =>
            if Ascii.eqb c0 "0" && (Ascii.eqb x "x" || Ascii.eqb x "X")
            then (rest, 16) else (inputString, R)
        | _ => (inputString, R)
        end
      else (inputString, R) in
    match digits R inputString None with
    | None => NaN
    | Some mathInt => Int (sign * mathInt)
    end.

(** [a < b] on numbers; [a > b] is [ltb b a]. *)
Definition ltb (a b : number) : bool :=
  match a, b with
  | NaN, _ | _, NaN => false
  | Infinity na, Infinity nb => na && negb nb
  | Infinity na, Int _ => na
  | Int _, Infinity nb => negb nb
  | Int x, Int y => x <? y
  end.

(** [a * b] on numbers. *)
Definition mul (a b : number) : number :=
  match a, b with
  | NaN, _ | _, NaN => NaN
  | Int x, Int y => Int (x * y)
  | Infinity n, Int z | Int z, Infinity n =>
      if z =? 0 then NaN else Infinity (xorb n (z <? 0))
  | Infinity n, Infinity m => Infinity (xorb n m)
  end.

(** [Math.ceil(a / n)] for a number [a] and an array length [n]. *)
Definition ceil_div (a : number) (n : nat) : number :=
  match a with
  | NaN => NaN
  | Infinity negative => Infinity negative
  | Int z =>
      match n with
      | O => if z =? 0 then NaN else Infinity (z <? 0)
      | S _ => Int (- ((- z) / Z.of_nat n))
      end
  end.

(** [Math.max(k, b)] for an integer [k]. *)
Definition max_int (k : Z) (b : number) : number :=
  match b with
  | NaN => NaN
  | Infinity negative => if negative then Int k else Infinity false
  | Int z => Int (Z.max k z)
  end.

(** What [throw] carries: an [Error] built by the code or the backend, or
    a [TypeError] raised by a property read on [undefined]. *)
Inductive exn : Type :=
| Error (message : string)
| TypeError (message : string).

Definition message (e : exn) : string :=
  match e with
  | Error m => m
  | TypeError m => m
  end.

(** The message of a read of property [p] on [undefined]. *)
Definition cannot_read (p : string) : exn :=
  TypeError ("Cannot read properties of undefined (reading '" ++ p ++ "')").

(** A string of one code unit, for the letters outside ASCII. *)
Definition cu (n : nat) : string := String (ascii_of_nat n) EmptyString.

End JS.

(* ================================================================== *)
(** * src/services/pdf.ts                                              *)
(* ================================================================== *)

Module Pdf.
Import JS.

Record DataPoint : Type := { label : string; value : Q }.

Record Chart : Type := {
  chart_type : string;
  chart_data : list DataPoint;
  chart_title : string
}.

(** [title] is declared a string; [handleGenerate] stores the outline's
    chapter title unchecked, so it is [None] ([undefined]) when the plan
    carries none. *)
Record Chapter : Type := {
  title : option string;
  content : string;
  image : option string;
  chart : option Chart
}.

Inductive Font : Type := helvetica | times | courier.
Inductive Quality : Type := standard | high | ultra.

Record PDFOptions : Type := {
  primaryColor : string;
  font : Font;
  headerText : option string;
  footerText : option string;
  logo : option string;
  watermark : option string;
  quality : Quality;
  noCompression : bool
}.

Local Open Scope Q_scope.

Definition margin : Q := 20.
Definition pageWidth : Q := 210.
Definition maxLineWidth : Q := pageWidth - margin * 2.
Definition lineHeight : Q := 7.
Definition pageHeight : Q := 297.
Definition contentHeightPerPage : Q := pageHeight - margin * 2 - 20.

(** [Math.ceil((p.length * 0.25) / maxLineWidth)] *)
Definition lines (p : string) : Z :=
  Qceiling ((inject_Z (Z.of_nat (String.length p)) * 0.25) / maxLineWidth).

(** What one paragraph adds to [currentY]: [lines * lineHeight + 5]. *)
Definition paragraphHeight (p : string) : Q :=
  inject_Z (lines p) * lineHeight + 5.

(** [paragraphs.forEach(p => { currentY += ... })] *)
Definition flow (paragraphs : list string) (currentY : Q) : Q :=
  fold_left (fun currentY p => currentY + paragraphHeight p) paragraphs currentY.

(** The value of [currentY] at the end of the body of [chapters.forEach]. *)
Definition chapterY (chapter : Chapter) : Q :=
  let currentY := 0 in
  let currentY := currentY + 20 in
  let currentY :=
    if truthy_opt (image chapter)
    then currentY + ((maxLineWidth * 9) / 16 + 10)
    else currentY in
  flow (split (content chapter)) currentY.

(** [Math.ceil(currentY / contentHeightPerPage)] *)
Definition pagesOf (currentY : Q) : Z :=
  Qceiling (currentY / contentHeightPerPage).

(** What the body of [chapters.forEach] adds to [totalPages]. *)
Definition chapterPages (chapter : Chapter) : Z :=
  (pagesOf (chapterY chapter)
   + match chart chapter with Some _ => 1 | None => 0 end)%Z.

Definition estimatePageCount (chapters : list Chapter) (options : PDFOptions) : Z :=
  fold_left (fun totalPages chapter => (totalPages + chapterPages chapter)%Z)
            chapters 2%Z.

(** ** Text colour in [createPDF]

    [doc.setTextColor(r, g, b)] is recorded as the triple it receives. *)
Definition TextColor : Type := (number * number * number)%type.

(** The three [parseInt(color.slice(..), 16)] of [createPDF] and [addText]. *)
Definition hexChannels (color : string) : TextColor :=
  let r := parseInt (slice color 1 3) (Some 16%Z) in
  let g := parseInt (slice color 3 5) (Some 16%Z) in
  let b := parseInt (slice color 5 7) (Some 16%Z) in
  (r, g, b).

(** Colour set by [addText] for its optional [color] argument. *)
Definition addText_color (color : option string) : TextColor :=
  match color with
  | Some c => if truthy c then hexChannels c else (Int 0, Int 0, Int 0)
  | None => (Int 0, Int 0, Int 0)
  end.

(** Colour set for the title page: no test precedes the parse. *)
Definition titlePage_color (options : PDFOptions) : TextColor :=
  hexChannels (primaryColor options).

(** Updates of single fields ([{...chapter, content}] and the like). *)
Definition with_content (c : Chapter) (s : string) : Chapter :=
  {| title := title c; content := s; image := image c; chart := chart c |}.
Definition with_image (c : Chapter) (i : option string) : Chapter :=
  {| title := title c; content := content c; image := i; chart := chart c |}.
Definition with_chart (c : Chapter) (g : option Chart) : Chapter :=
  {| title := title c; content := content c; image := image c; chart := g |}.

End Pdf.

(* ================================================================== *)
(** * Asynchronous code: state, exceptions and unfinished loops         *)
(* ================================================================== *)

Module Async.
Import JS.

(** Outcome of an [async] function run with a bound on the iterations of
    its [while] loop: a value, a thrown exception, or [Pending] when the
    bound was reached with the loop still running. *)
Inductive result (A : Type) : Type :=
| Ok (a : A)
| Throw (e : exn)
| Pending.

Arguments Ok {A} a.
Arguments Throw {A} e.
Arguments Pending {A}.

Definition M (S A : Type) : Type := S -> result A * S.

Definition ret {S A} (a : A) : M S A := fun s => (Ok a, s).

Definition bind {S A B} (c : M S A) (k : A -> M S B) : M S B :=
  fun s =>
    match c s with
    | (Ok a, s') => k a s'
    | (Throw e, s') => (Throw e, s')
    | (Pending, s') => (Pending, s')
    end.

Definition throw {S A} (e : exn) : M S A := fun s => (Throw e, s).

Definition pending {S A} : M S A := fun s => (Pending, s).

(** [try { body } catch (e) { handler }]: the effects of [body] up to the
    throw stay. *)
Definition try_catch {S A} (body : M S A) (handler : exn -> M S A) : M S A :=
  fun s =>
    match body s with
    | (Throw e, s') => handler e s'
    | r => r
    end.

(** A state update that returns nothing. *)
Definition modify {S} (f : S -> S) : M S unit := fun s => (Ok tt, f s).

(** Run a computation on a component of the state. *)
Definition zoom {S T A} (get : S -> T) (put : T -> S -> S) (c : M T A) : M S A :=
  fun s =>
    let (r, t') := c (get s) in (r, put t' s).

Module Notations.
Notation "x <- c ;; k" := (bind c (fun x => k))
  (at level 61, c at next level, right associativity).
Notation "c ;; k" := (bind c (fun _ => k))
  (at level 61, right associativity).
End Notations.

End Async.

(* ================================================================== *)
(** * src/services/gemini.ts                                           *)
(* ================================================================== *)

Module Gemini.
Import JS Async Async.Notations.

(** [EbookOutline] as [JSON.parse] delivers it: an object on which every
    property of the interface may be missing.  Parsed values that are not
    objects, or whose properties have other types, are outside the model. *)
Record SectionPlan : Type := { section_title : option string }.

Record ChapterPlan : Type := {
  plan_title : option string;
  sections : option (list SectionPlan)
}.

Record EbookOutline : Type := {
  outline_title : option string;
  chapters : option (list ChapterPlan)
}.

Inductive Action : Type := rewrite | simplify | enrich | formal | storytelling.

(** The argument of [ai.models.generateContent]: which prompt template is
    filled, and the values that fill it. *)
Inductive Request : Type :=
| OutlinePrompt (type topic : string) (targetPages chaptersCount : number)
| ChapterPrompt (chapterTitle ebookTitle : option string)
                (sectionsList : list (option string)) (targetWords : number)
| ImagePrompt (prompt : option string) (style : string)
| RefinePrompt (action : Action) (text : string)
| MarketingPrompt (ebookTitle : option string) (topic : string)
| FAQPrompt (chapterContent : string).

Record InlineData : Type := { mimeType : string; data : string }.
Record Part : Type := { inlineData : option InlineData }.

(** [response.text] and [response.candidates?.[0]?.content?.parts]. *)
Record GenerateContentResponse : Type := {
  text : option string;
  parts : option (list Part)
}.

Definition msg_plan : string :=
  "Erreur lors de la g" ++ cu 233 ++ "n" ++ cu 233 ++ "ration du plan.".
Definition msg_image : string :=
  cu 201 ++ "chec de la g" ++ cu 233 ++ "n" ++ cu 233 ++ "ration de l'image".

Section Backend.

(** The generation backend: each call answers or rejects, and may depend on
    everything that was asked before ([World]). *)
Variable World : Type.
Variable generateContent :
  Request -> World -> (exn + GenerateContentResponse) * World.

(** [JSON.parse] on the text of an outline answer; [None] is a [SyntaxError]. *)
Variable JSON_parse : string -> option EbookOutline.

(** The backend together with the requests sent to it so far. *)
Record Net : Type := { world : World; calls : list Request }.

Definition Call (A : Type) : Type := M Net A.

Definition ai_generateContent (req : Request) : Call GenerateContentResponse :=
  fun n =>
    let (r, w') := generateContent req (world n) in
    (match r with inl e => Throw e | inr response => Ok response end,
     {| world := w'; calls := calls n ++ [req] |}).

(** The request that [generateOutline] sends. *)
Definition outline_request (topic type : string) (targetPages : number)
           (isPrototype : bool) : Request :=
  let chaptersCount :=
    if isPrototype then Int 2 else max_int 10 (ceil_div targetPages 5) in
  OutlinePrompt type topic targetPages chaptersCount.

Definition generateOutline (topic type : string) (targetPages : number)
           (isPrototype : bool) : Call EbookOutline :=
  response <- ai_generateContent
                (outline_request topic type targetPages isPrototype) ;;
  match JSON_parse (or_else (text response) "{}") with
  | Some o => ret o
  | None => throw (Error msg_plan)
  end.

Definition generateChapterContent (ebookTitle chapterTitle : option string)
           (sections : list (option string)) (targetChapterPages : number)
           (isPrototype : bool) : Call string :=
  let targetWords :=
    if isPrototype then Int 300 else mul targetChapterPages (Int 450) in
  response <- ai_generateContent
                (ChapterPrompt chapterTitle ebookTitle sections targetWords) ;;
  ret (or_else (text response) EmptyString).

(** The first part that carries inline data, as a data URL. *)
Fixpoint first_inline (ps : list Part) : option string :=
  match ps with
  | [] => None
  | part :: ps' =>
      match inlineData part with
      | Some d => Some ("data:" ++ mimeType d ++ ";base64," ++ data d)
      | None => first_inline ps'
      end
  end.

Definition generateImage (prompt : option string) (style : string) : Call string :=
  response <- ai_generateContent (ImagePrompt prompt style) ;;
  match first_inline (match parts response with Some ps => ps | None => [] end) with
  | Some url => ret url
  | None => throw (Error msg_image)
  end.

Definition refineText (text_ : string) (action : Action) : Call string :=
  response <- ai_generateContent (RefinePrompt action text_) ;;
  ret (or_else (text response) text_).

(** The bundle that [generateMarketingAssets] parses is opaque here: its
    caller does not wait for it. *)
Definition generateMarketingAssets (topic : string) (ebookTitle : option string)
  : Call unit :=
  _ <- ai_generateContent (MarketingPrompt ebookTitle topic) ;;
  ret tt.

Definition generateFAQ (chapterContent : string) : Call string :=
  response <- ai_generateContent (FAQPrompt chapterContent) ;;
  ret (or_else (text response) EmptyString).

End Backend.

Arguments world {World} n.
Arguments calls {World} n.

End Gemini.

(* ================================================================== *)
(** * src/components/EbookGenerator.tsx                                *)
(* ================================================================== *)

Module Generator.
Import JS Async Async.Notations Pdf Gemini.

Inductive GenerationState : Type :=
| S_idle | S_outline | S_content | S_pdf | S_done | S_error | S_splitting | S_refining.

Inductive Tab : Type := T_create | T_editor | T_design | T_marketing | T_history.

(** An entry of the history; [id] and [date] come from the clock and are
    left out. *)
Record HistoryEntry : Type := {
  entry_title : option string;
  entry_chapters : list Chapter;
  entry_pages : number
}.

(** The [useState] cells that the three handlers read or write. *)
Record UI : Type := {
  activeTab : Tab;
  topic : string;
  ebookType : string;
  imageStyle : string;
  isPrototype : bool;
  targetPages : Z;
  customPages : string;
  state : GenerationState;
  error : option string;
  pdfOptions : PDFOptions;
  outline : option EbookOutline;
  currentChapterIndex : nat;
  generatedChapters : list Chapter;
  marketingAssets : option string;
  estimatedPages : Z;
  fileSizeMB : Q;
  history : list HistoryEntry
}.

Definition msg_pages : string :=
  "Le nombre de pages doit " ++ cu 234 ++ "tre compris entre 10 et 200.".
Definition msg_generic : string := "Une erreur est survenue.".

(** The text that [addFAQ] puts between the content and the answer. *)
Definition faq_heading : string :=
  String LF (String LF "### Foire Aux Questions") ++ String LF EmptyString.

(** [s.replace(/[^a-z0-9]/gi, '_').toLowerCase()] *)
Definition file_char (c : ascii) : ascii :=
  let n := N_of_ascii c in
  if ((48 <=? n) && (n <=? 57))%N then c
  else if ((97 <=? n) && (n <=? 122))%N then c
  else if ((65 <=? n) && (n <=? 90))%N then ascii_of_N (n + 32)
  else "_"%char.

Fixpoint file_stem (s : string) : string :=
  match s with
  | EmptyString => EmptyString
  | String c s' => String (file_char c) (file_stem s')
  end.

(** Updates of one cell of the state. *)
Definition with_activeTab (v : Tab) (u : UI) : UI :=
  {| activeTab := v; topic := topic u; ebookType := ebookType u;
     imageStyle := imageStyle u; isPrototype := isPrototype u;
     targetPages := targetPages u; customPages := customPages u;
     state := state u; error := error u; pdfOptions := pdfOptions u;
     outline := outline u; currentChapterIndex := currentChapterIndex u;
     generatedChapters := generatedChapters u;
     marketingAssets := marketingAssets u; estimatedPages := estimatedPages u;
     fileSizeMB := fileSizeMB u; history := history u |}.

Definition with_state (v : GenerationState) (u : UI) : UI :=
  {| activeTab := activeTab u; topic := topic u; ebookType := ebookType u;
     imageStyle := imageStyle u; isPrototype := isPrototype u;
     targetPages := targetPages u; customPages := customPages u;
     state := v; error := error u; pdfOptions := pdfOptions u;
     outline := outline u; currentChapterIndex := currentChapterIndex u;
     generatedChapters := generatedChapters u;
     marketingAssets := marketingAssets u; estimatedPages := estimatedPages u;
     fileSizeMB := fileSizeMB u; history := history u |}.

Definition with_error (v : option string) (u : UI) : UI :=
  {| activeTab := activeTab u; topic := topic u; ebookType := ebookType u;
     imageStyle := imageStyle u; isPrototype := isPrototype u;
     targetPages := targetPages u; customPages := customPages u;
     state := state u; error := v; pdfOptions := pdfOptions u;
     outline := outline u; currentChapterIndex := currentChapterIndex u;
     generatedChapters := generatedChapters u;
     marketingAssets := marketingAssets u; estimatedPages := estimatedPages u;
     fileSizeMB := fileSizeMB u; history := history u |}.

Definition with_outline (v : option EbookOutline) (u : UI) : UI :=
  {| activeTab := activeTab u; topic := topic u; ebookType := ebookType u;
     imageStyle := imageStyle u; isPrototype := isPrototype u;
     targetPages := targetPages u; customPages := customPages u;
     state := state u; error := error u; pdfOptions := pdfOptions u;
     outline := v; currentChapterIndex := currentChapterIndex u;
     generatedChapters := generatedChapters u;
     marketingAssets := marketingAssets u; estimatedPages := estimatedPages u;
     fileSizeMB := fileSizeMB u; history := history u |}.

Definition with_currentChapterIndex (v : nat) (u : UI) : UI :=
  {| activeTab := activeTab u; topic := topic u; ebookType := ebookType u;
     imageStyle := imageStyle u; isPrototype := isPrototype u;
     targetPages := targetPages u; customPages := customPages u;
     state := state u; error := error u; pdfOptions := pdfOptions u;
     outline := outline u; currentChapterIndex := v;
     generatedChapters := generatedChapters u;
     marketingAssets := marketingAssets u; estimatedPages := estimatedPages u;
     fileSizeMB := fileSizeMB u; history := history u |}.

Definition with_generatedChapters (v : list Chapter) (u : UI) : UI :=
  {| activeTab := activeTab u; topic := topic u; ebookType := ebookType u;
     imageStyle := imageStyle u; isPrototype := isPrototype u;
     targetPages := targetPages u; customPages := customPages u;
     state := state u; error := error u; pdfOptions := pdfOptions u;
     outline := outline u; currentChapterIndex := currentChapterIndex u;
     generatedChapters := v;
     marketingAssets := marketingAssets u; estimatedPages := estimatedPages u;
     fileSizeMB := fileSizeMB u; history := history u |}.

Definition with_marketingAssets (v : option string) (u : UI) : UI :=
  {| activeTab := activeTab u; topic := topic u; ebookType := ebookType u;
     imageStyle := imageStyle u; isPrototype := isPrototype u;
     targetPages := targetPages u; customPages := customPages u;
     state := state u; error := error u; pdfOptions := pdfOptions u;
     outline := outline u; currentChapterIndex := currentChapterIndex u;
     generatedChapters := generatedChapters u;
     marketingAssets := v; estimatedPages := estimatedPages u;
     fileSizeMB := fileSizeMB u; history := history u |}.

Definition with_estimatedPages (v : Z) (u : UI) : UI :=
  {| activeTab := activeTab u; topic := topic u; ebookType := ebookType u;
     imageStyle := imageStyle u; isPrototype := isPrototype u;
     targetPages := targetPages u; customPages := customPages u;
     state := state u; error := error u; pdfOptions := pdfOptions u;
     outline := outline u; currentChapterIndex := currentChapterIndex u;
     generatedChapters := generatedChapters u;
     marketingAssets := marketingAssets u; estimatedPages := v;
     fileSizeMB := fileSizeMB u; history := history u |}.

Definition with_fileSizeMB (v : Q) (u : UI) : UI :=
  {| activeTab := activeTab u; topic := topic u; ebookType := ebookType u;
     imageStyle := imageStyle u; isPrototype := isPrototype u;
     targetPages := targetPages u; customPages := customPages u;
     state := state u; error := error u; pdfOptions := pdfOptions u;
     outline := outline u; currentChapterIndex := currentChapterIndex u;
     generatedChapters := generatedChapters u;
     marketingAssets := marketingAssets u; estimatedPages := estimatedPages u;
     fileSizeMB := v; history := history u |}.

Definition with_history (v : list HistoryEntry) (u : UI) : UI :=
  {| activeTab := activeTab u; topic := topic u; ebookType := ebookType u;
     imageStyle := imageStyle u; isPrototype := isPrototype u;
     targetPages := targetPages u; customPages := customPages u;
     state := state u; error := error u; pdfOptions := pdfOptions u;
     outline := outline u; currentChapterIndex := currentChapterIndex u;
     generatedChapters := generatedChapters u;
     marketingAssets := marketingAssets u; estimatedPages := estimatedPages u;
     fileSizeMB := fileSizeMB u; history := v |}.

Section Component.

Variable World : Type.
Variable generateContent :
  Request -> World -> (exn + GenerateContentResponse) * World.
Variable JSON_parse : string -> option EbookOutline.

(** [createPDF] as the handlers see it: the size in bytes of the blob, or
    the exception of the drawing library. *)
Variable createPDF : option string -> list Chapter -> PDFOptions -> exn + Z.

(** What a handler acts on: the backend, the component's state and the
    files handed to the browser for download. *)
Record Run : Type := {
  net : Net World;
  ui : UI;
  downloads : list string
}.

Definition Handler (A : Type) : Type := M Run A.

Definition call {A} (c : Call World A) : Handler A :=
  zoom net (fun n r => {| net := n; ui := ui r; downloads := downloads r |}) c.

Definition set_ui (f : UI -> UI) : Handler unit :=
  modify (fun r => {| net := net r; ui := f (ui r); downloads := downloads r |}).

Definition download (name : string) : Handler unit :=
  modify (fun r => {| net := net r; ui := ui r; downloads := downloads r ++ [name] |}).

Definition setActiveTab (v : Tab) : Handler unit := set_ui (with_activeTab v).
Definition setState (v : GenerationState) : Handler unit := set_ui (with_state v).
Definition setError (v : option string) : Handler unit := set_ui (with_error v).
Definition setOutline (v : option EbookOutline) : Handler unit := set_ui (with_outline v).
Definition setCurrentChapterIndex (v : nat) : Handler unit := set_ui (with_currentChapterIndex v).
Definition setGeneratedChapters (v : list Chapter) : Handler unit := set_ui (with_generatedChapters v).
Definition setMarketingAssets (v : option string) : Handler unit := set_ui (with_marketingAssets v).
Definition setEstimatedPages (v : Z) : Handler unit := set_ui (with_estimatedPages v).
Definition setFileSizeMB (v : Q) : Handler unit := set_ui (with_fileSizeMB v).
Definition setHistory (v : list HistoryEntry) : Handler unit := set_ui (with_history v).

(** A call whose promise is not awaited: the request leaves, a rejection
    reaches no handler.  The callback that the source chains on the promise
    with [.then] runs after the steps of the handler; it is not followed
    here, so [marketingAssets] is modelled up to its reset only. *)
Definition not_awaited (c : Call World unit) : Call World unit :=
  fun n => let (_, n') := c n in (Ok tt, n').

(** The chapter literal [{ title, content, image }]. *)
Definition mkChapter (t : option string) (c : string) (i : option string) : Chapter :=
  {| title := t; content := c; image := i; chart := None |}.

(** The [while] loop of [handleGenerate] ("Strict page count verification"),
    entered with [content] and [currentEstimated] as the [let]s before it
    left them; [fuel] bounds its iterations.  It returns the final
    [content]. *)
Fixpoint enrich_while (fuel : nat) (isPrototype : bool) (chapters : list Chapter)
         (chapterTitle : option string) (i : nat) (pagesPerChapter : number)
         (pdfOptions : PDFOptions) (content : string) (currentEstimated : Z)
  : Call World string :=
  if negb isPrototype
     && ltb (Int currentEstimated) (mul (Int (Z.of_nat i + 1)) pagesPerChapter)
     && (Z.of_nat (String.length content) <? 15000)
  then
    match fuel with
    | O => pending
    | S fuel' =>
        moreContent <- refineText World generateContent content enrich ;;
        let content := moreContent in
        let currentEstimated :=
          estimatePageCount (chapters ++ [mkChapter chapterTitle content None])
                            pdfOptions in
        enrich_while fuel' isPrototype chapters chapterTitle i pagesPerChapter
                     pdfOptions content currentEstimated
    end
  else ret content.

(** The block [let image; if (i % (isPrototype ? 1 : 3) === 0) { try {...}
    catch (e) {} }]; it returns [image]. *)
Definition illustrate (isPrototype : bool) (i : nat) (chapterTitle : option string)
           (imageStyle : string) : Call World (option string) :=
  if Z.of_nat i mod (if isPrototype then 1 else 3) =? 0
  then
    try_catch
      (image <- generateImage World generateContent chapterTitle imageStyle ;;
       ret (Some image))
      (fun _ => ret None)
  else ret None.

(** First half of the body of the [for] loop, for the plan [chapterOutline]
    at index [i]: from [setCurrentChapterIndex(i)] to the end of the [while]
    loop.  It returns [content]; [p] is the state the handler was created
    with and [chapters] the array filled so far. *)
Definition chapter_text (fuel : nat) (p : UI) (generatedOutline : EbookOutline)
           (pagesPerChapter : number) (chapterOutline : ChapterPlan) (i : nat)
           (chapters : list Chapter) : Handler string :=
  setCurrentChapterIndex i ;;
  sectionTitles <-
    match sections chapterOutline with
    | Some ss => ret (map section_title ss)
    | None => throw (cannot_read "map")
    end ;;
  content <- call (generateChapterContent World generateContent
                     (outline_title generatedOutline)
                     (plan_title chapterOutline)
                     sectionTitles pagesPerChapter (isPrototype p)) ;;
  let currentEstimated :=
    estimatePageCount
      (chapters ++ [mkChapter (plan_title chapterOutline) content None])
      (pdfOptions p) in
  call (enrich_while fuel (isPrototype p) chapters (plan_title chapterOutline) i
          pagesPerChapter (pdfOptions p) content currentEstimated).

(** The whole body of the [for] loop; it returns the array after
    [chapters.push]. *)
Definition chapter_body (fuel : nat) (p : UI) (generatedOutline : EbookOutline)
           (pagesPerChapter : number) (chapterOutline : ChapterPlan) (i : nat)
           (chapters : list Chapter) : Handler (list Chapter) :=
  content <- chapter_text fuel p generatedOutline pagesPerChapter chapterOutline
                          i chapters ;;
  image <- call (illustrate (isPrototype p) i (plan_title chapterOutline)
                   (imageStyle p)) ;;
  let chapters :=
    (chapters ++ [mkChapter (plan_title chapterOutline) content image])%list in
  setGeneratedChapters chapters ;;
  setEstimatedPages (estimatePageCount chapters (pdfOptions p)) ;;
  ret chapters.

(** The [for] loop of [handleGenerate], at index [i] with [plans] the
    chapter plans from [i] on. *)
Fixpoint for_chapters (fuel : nat) (p : UI) (generatedOutline : EbookOutline)
         (pagesPerChapter : number) (plans : list ChapterPlan) (i : nat)
         (chapters : list Chapter) : Handler (list Chapter) :=
  match plans with
  | [] => ret chapters
  | chapterOutline :: plans' =>
      chapters <- chapter_body fuel p generatedOutline pagesPerChapter
                               chapterOutline i chapters ;;
      for_chapters fuel p generatedOutline pagesPerChapter plans' (S i) chapters
  end.

(** The [try] block of [handleGenerate]. *)
Definition generate_body (fuel : nat) (p : UI) (finalTarget : number)
  : Handler unit :=
  generatedOutline <- call (generateOutline World generateContent JSON_parse
                              (topic p) (ebookType p) finalTarget (isPrototype p)) ;;
  setOutline (Some generatedOutline) ;;
  setState S_content ;;
  plans <- match Gemini.chapters generatedOutline with
           | Some l => ret l
           | None => throw (cannot_read "length")
           end ;;
  let pagesPerChapter := ceil_div finalTarget (List.length plans) in
  chapters <- for_chapters fuel p generatedOutline pagesPerChapter plans 0 [] ;;
  setState S_pdf ;;
  call (not_awaited (generateMarketingAssets World generateContent (topic p)
                       (outline_title generatedOutline))) ;;
  size <- match createPDF (outline_title generatedOutline) chapters (pdfOptions p) with
          | inr size => ret size
          | inl e => throw e
          end ;;
  setFileSizeMB (inject_Z size / (1024 * 1024))%Q ;;
  stem <- match outline_title generatedOutline with
          | Some t => ret (file_stem t)
          | None => throw (cannot_read "replace")
          end ;;
  download (stem ++ ".pdf") ;;
  let newEntry :=
    {| entry_title := outline_title generatedOutline;
       entry_chapters := chapters;
       entry_pages := finalTarget |} in
  setHistory (newEntry :: history p) ;;
  setState S_done ;;
  setActiveTab T_editor.

(** [customPages ? parseInt(customPages) : targetPages] *)
Definition finalTarget_of (p : UI) : number :=
  if truthy (customPages p) then parseInt (customPages p) None
  else Int (targetPages p).

Definition handleGenerate (fuel : nat) : Handler unit :=
  fun r =>
    let p := ui r in
    let finalTarget := finalTarget_of p in
    (if negb (truthy (trim (topic p))) then ret tt
     else if ltb finalTarget (Int 10) || ltb (Int 200) finalTarget then
       setError (Some msg_pages)
     else
       setState S_outline ;;
       setError None ;;
       setOutline None ;;
       setGeneratedChapters [] ;;
       setCurrentChapterIndex 0 ;;
       setMarketingAssets None ;;
       setEstimatedPages 0 ;;
       setFileSizeMB 0%Q ;;
       try_catch (generate_body fuel p finalTarget)
                 (fun err =>
                    setError (Some (or_else (Some (message err)) msg_generic)) ;;
                    setState S_error)) r.

(** [newChapters[index].content = v] on a copy of the array: the other
    chapters and the other properties stay.  The source assigns to the
    chapter object itself, which the entry that [handleGenerate] put in the
    history shares; [history] is modelled up to the end of [handleGenerate]
    only, and does not follow this assignment. *)
Fixpoint set_content_at (chapters : list Chapter) (index : nat) (v : string)
  : list Chapter :=
  match chapters, index with
  | [], _ => []
  | c :: cs, O => with_content c v :: cs
  | c :: cs, S k => c :: set_content_at cs k v
  end.

(** [generatedChapters[index].content], a [TypeError] past the end. *)
Definition content_at (chapters : list Chapter) (index : nat) : Handler string :=
  match nth_error chapters index with
  | Some c => ret (content c)
  | None => throw (cannot_read "content")
  end.

Definition handleRefine (index : nat) (action : Action) : Handler unit :=
  fun r =>
    let p := ui r in
    (setState S_refining ;;
     try_catch
       (text_ <- content_at (generatedChapters p) index ;;
        refined <- call (refineText World generateContent text_ action) ;;
        setGeneratedChapters (set_content_at (generatedChapters p) index refined))
       (fun _ => ret tt) ;;
     setState S_done) r.

Definition addFAQ (index : nat) : Handler unit :=
  fun r =>
    let p := ui r in
    (setState S_refining ;;
     try_catch
       (text_ <- content_at (generatedChapters p) index ;;
        faq <- call (generateFAQ World generateContent text_) ;;
        old <- content_at (generatedChapters p) index ;;
        setGeneratedChapters
          (set_content_at (generatedChapters p) index (old ++ faq_heading ++ faq)))
       (fun _ => ret tt) ;;
     setState S_done) r.

End Component.

Arguments net {World} r.
Arguments ui {World} r.
Arguments downloads {World} r.

End Generator.

(* ================================================================== *)
(** * Concrete inputs                                                   *)
(* ================================================================== *)

Module Samples.
Import JS Pdf Async Gemini Generator.

(** A chapter made of 43 blank-line separators (86 code units), and a
    longer content made of 87 letters. *)
Definition blank_line : string := String LF (String LF EmptyString).

Definition blank_chapter : Chapter :=
  {| title := Some "A";
     content := String.concat EmptyString (repeat blank_line 43);
     image := None; chart := None |}.

Definition letters : string := String.concat EmptyString (repeat "a" 87).

(** 40 separators, then 680 letters and one line feed. *)
Definition padded : string :=
  String.concat EmptyString (repeat blank_line 40)
  ++ String.concat EmptyString (repeat "a" 680) ++ String LF EmptyString.

(** The options that the component starts with. *)
Definition sample_options : PDFOptions :=
  {| primaryColor := "#4f46e5"; font := helvetica;
     headerText := Some "EbookAI SaaS Premium";
     footerText := Some "Confidentiel - 2026"; logo := None;
     watermark := Some EmptyString; quality := high; noCompression := true |}.

(** Options whose colour is not made of hexadecimal digits. *)
Definition bad_color_options : PDFOptions :=
  {| primaryColor := "#zzzzzz"; font := helvetica; headerText := None;
     footerText := None; logo := None; watermark := None; quality := high;
     noCompression := true |}.

(** The form with a topic typed in and the prototype mode switched off. *)
Definition sample_ui : UI :=
  {| activeTab := T_create; topic := "Productivity"; ebookType := "Business";
     imageStyle := "Business"; isPrototype := false; targetPages := 10;
     customPages := EmptyString; state := S_idle; error := None;
     pdfOptions := sample_options; outline := None; currentChapterIndex := 0;
     generatedChapters := []; marketingAssets := None; estimatedPages := 0;
     fileSizeMB := 0; history := [] |}.



(** An editor holding two chapters. *)
Definition two_chapters : list Chapter :=
  [ {| title := Some "One"; content := "First text."; image := None; chart := None |};
    {| title := Some "Two"; content := "Second text."; image := None; chart := None |} ].

Definition editor_ui : UI :=
  with_state S_done (with_generatedChapters two_chapters sample_ui).

(** The form in prototype mode. *)
Definition proto_ui : UI :=
  {| activeTab := T_create; topic := "Productivity"; ebookType := "Business";
     imageStyle := "Business"; isPrototype := true; targetPages := 10;
     customPages := EmptyString; state := S_idle; error := None;
     pdfOptions := sample_options; outline := None; currentChapterIndex := 0;
     generatedChapters := []; marketingAssets := None; estimatedPages := 0;
     fileSizeMB := 0; history := [] |}.

(** A backend without memory, before any request. *)
Definition start (u : UI) : Run unit :=
  {| net := {| world := tt; calls := [] |}; ui := u; downloads := [] |}.

Definition answer (t : option string) : exn + GenerateContentResponse :=
  inr {| text := t; parts := None |}.

Definition picture : exn + GenerateContentResponse :=
  inr {| text := None;
         parts := Some [ {| inlineData := None |};
                         {| inlineData := Some {| mimeType := "image/png";
                                                  data := "AAAA" |} |} ] |}.

(** JSON texts of an outline of two chapters and of an outline without
    chapter. *)
Definition q (s : string) : string := cu 34 ++ s ++ cu 34.

Definition two_json : string :=
  "{" ++ q "title" ++ ":" ++ q "T" ++ "," ++ q "chapters" ++ ":["
  ++ "{" ++ q "title" ++ ":" ++ q "One" ++ "," ++ q "sections" ++ ":[{"
  ++ q "title" ++ ":" ++ q "a" ++ "}]},"
  ++ "{" ++ q "title" ++ ":" ++ q "Two" ++ "," ++ q "sections" ++ ":[{"
  ++ q "title" ++ ":" ++ q "b" ++ "}]}]}".

Definition empty_json : string :=
  "{" ++ q "title" ++ ":" ++ q "T" ++ "," ++ q "chapters" ++ ":[]}".

Definition two_plans : list ChapterPlan :=
  [ {| plan_title := Some "One"; sections := Some [ {| section_title := Some "a" |} ] |};
    {| plan_title := Some "Two"; sections := Some [ {| section_title := Some "b" |} ] |} ].

(** [JSON.parse] on the texts that the backends below answer: the two
    outlines, the empty object, and a syntax error on ["ok"] and on any text
    that does not occur here. *)
Definition parse (s : string) : option EbookOutline :=
  if String.eqb s two_json then
    Some {| outline_title := Some "T"; chapters := Some two_plans |}
  else if String.eqb s empty_json then
    Some {| outline_title := Some "T"; chapters := Some [] |}
  else if String.eqb s "{}" then
    Some {| outline_title := None; chapters := None |}
  else None.

(** A backend that rejects every request. *)
Definition down (req : Request) (w : unit)
  : (exn + GenerateContentResponse) * unit :=
  (inl (Error "503"), w).

(** A backend whose answers carry no text. *)
Definition mute (req : Request) (w : unit)
  : (exn + GenerateContentResponse) * unit :=
  (answer None, w).

(** A backend that answers the outline request with two chapters, a
    refinement with the text and one more letter, and any other request with
    a short text and no image. *)
Definition wordy (req : Request) (w : unit)
  : (exn + GenerateContentResponse) * unit :=
  match req with
  | OutlinePrompt _ _ _ _ => (answer (Some two_json), w)
  | RefinePrompt _ t => (answer (Some (t ++ "x")), w)
  | _ => (answer (Some "ok"), w)
  end.

(** A backend that answers the outline request with two chapters and a
    chapter request with a short text, and whose other answers carry no
    text. *)
Definition stubborn (req : Request) (w : unit)
  : (exn + GenerateContentResponse) * unit :=
  match req with
  | OutlinePrompt _ _ _ _ => (answer (Some two_json), w)
  | ChapterPrompt _ _ _ _ => (answer (Some "Intro."), w)
  | _ => (answer None, w)
  end.

(** A backend that answers the outline request with an outline without
    chapter, and any other request with a short text. *)
Definition hollow (req : Request) (w : unit)
  : (exn + GenerateContentResponse) * unit :=
  match req with
  | OutlinePrompt _ _ _ _ => (answer (Some empty_json), w)
  | _ => (answer (Some "ok"), w)
  end.

(** A backend that draws every image but the one of chapter ["Two"], which
    it rejects. *)
Definition studio (req : Request) (w : unit)
  : (exn + GenerateContentResponse) * unit :=
  match req with
  | OutlinePrompt _ _ _ _ => (answer (Some two_json), w)
  | ImagePrompt (Some "Two") _ => (inl (Error "quota"), w)
  | ImagePrompt _ _ => (picture, w)
  | _ => (answer (Some "ok"), w)
  end.

(** A renderer that succeeds with a blob of 2048 bytes. *)
Definition render_ok (t : option string) (cs : list Chapter) (o : PDFOptions)
  : exn + Z := inr 2048.

End Samples.
From Stdlib Require DecimalString.


(* ================================================================== *)
(** * Further notions used to state properties of the code             *)
(* ================================================================== *)

Module Notions.
Import JS Pdf Async Gemini Generator.

(** The separator of [split], and [pieces.join('\n\n')]. *)
Definition separator : string := String LF (String LF EmptyString).

Definition join (pieces : list string) : string := String.concat separator pieces.

(** Whether two line feeds follow each other somewhere in [s]. *)
Fixpoint has_blank_line (s : string) : bool :=
  match s with
  | EmptyString => false
  | String c s' =>
      match s' with
      | EmptyString => false
      | String c' _ => (Ascii.eqb c LF && Ascii.eqb c' LF) || has_blank_line s'
      end
  end.

(** Whether every code unit of [s] satisfies [P]. *)
Fixpoint all_chars (P : ascii -> bool) (s : string) : bool :=
  match s with
  | EmptyString => true
  | String c s' => P c && all_chars P s'
  end.

(** The code units [a-z], [0-9] and [_]. *)
Definition file_safe (c : ascii) : bool :=
  let n := N_of_ascii c in
  (((48 <=? n) && (n <=? 57)) || ((97 <=? n) && (n <=? 122)) || (n =? 95))%N.

(** The first piece of [split s] is empty or starts like [s]. *)
Definition first_piece_ok (s : string) : Prop :=
  match split s, s with
  | p :: _, String c _ => p = EmptyString \/ exists t, p = String c t
  | p :: _, EmptyString => p = EmptyString
  | [], _ => False
  end.

(** The 256 code units of the model. *)
Definition all_ascii : list ascii := map ascii_of_nat (seq 0 256).

(** Whether [parseInt(.., 16)] finds no number in the two code units [d1 d2]:
    [d1] is neither a hexadecimal digit, white space nor a sign; or [d1] is
    white space or a sign and [d2] is not a hexadecimal digit; or the two are
    the prefix [0x] or [0X], with nothing after it. *)
Definition no_number (d1 d2 : ascii) : bool :=
  let hex (d : ascii) := match hexValue d with Some _ => true | None => false end in
  let blank_or_sign (d : ascii) :=
    isWhiteSpace d || Ascii.eqb d "+" || Ascii.eqb d "-" in
  (negb (hex d1) && negb (blank_or_sign d1))
  || (blank_or_sign d1 && negb (hex d2))
  || (Ascii.eqb d1 "0" && (Ascii.eqb d2 "x" || Ascii.eqb d2 "X")).

(** A channel that is [NaN] or an integer from -15 to 255. *)
Definition channel_ok (n : number) : bool :=
  match n with
  | NaN => true
  | Infinity _ => false
  | Int z => (-15 <=? z) && (z <=? 255)
  end.

End Notions.

(* ================================================================== *)
(** * src/components/EbookGenerator.tsx: download and history           *)
(* ================================================================== *)

Module Editor.
Import JS Async Async.Notations Pdf Gemini Generator.

(** The outline that the history tab rebuilds from the chapters of an
    entry: [{ title: c.title, sections: [] }] for each chapter. *)
Definition rebuilt_plan (c : Chapter) : ChapterPlan :=
  {| plan_title := title c; sections := Some [] |}.

Definition rebuilt_outline (item : HistoryEntry) : EbookOutline :=
  {| outline_title := entry_title item;
     chapters := Some (map rebuilt_plan (entry_chapters item)) |}.

Section Component.

Variable World : Type.
Variable createPDF : option string -> list Chapter -> PDFOptions -> exn + Z.

(** [handleDownload]: no [try] surrounds its body. *)
Definition handleDownload : Handler World unit :=
  fun r =>
    let p := ui r in
    match outline p with
    | None => ret tt r
    | Some o =>
        (setState World S_pdf ;;
         _ <- match createPDF (outline_title o) (generatedChapters p) (pdfOptions p) with
              | inr size => ret size
              | inl e => throw e
              end ;;
         stem <- match outline_title o with
                 | Some t => ret (file_stem t)
                 | None => throw (cannot_read "replace")
                 end ;;
         download World (stem ++ ".pdf") ;;
         setState World S_done) r
    end.

(** The [onClick] of an entry of the history tab. *)
Definition openHistory (item : HistoryEntry) : Handler World unit :=
  setGeneratedChapters World (entry_chapters item) ;;
  setOutline World (Some (rebuilt_outline item)) ;;
  setActiveTab World T_editor.

End Component.

End Editor.

(* ================================================================== *)
(** * src/services/pdf.ts: [createPDF]                                  *)
(* ================================================================== *)

(** The renderer drives the drawing library through the object [doc].  The
    library is not part of the sources: the model records the calls made on
    [doc], in order, and takes from a [Library] what the code reads back
    from it (the page size, the lines of a text, the number of pages, the
    blob) and whether a call throws.  Lengths are floating-point numbers;
    their arithmetic is left to a [Numbers] structure, so that what is
    proved holds for the arithmetic of the engine as for any other. *)

Module Renderer.
Import JS Pdf Async Async.Notations.

Record Numbers : Type := {
  num : Type;
  lit : Z -> num;                     (* an integer literal, an array length *)
  n_add : num -> num -> num;
  n_sub : num -> num -> num;
  n_mul : num -> num -> num;
  n_div : num -> num -> num;
  n_gt : num -> num -> bool;
  toString : Q -> string              (* a number in a template literal *)
}.

Inductive Align : Type := align_left | align_center.

(** [`${n}`] for an integer. *)
Definition decimal (n : Z) : string :=
  DecimalString.NilZero.string_of_int (Z.to_int n).

(** [`${s}`] for a string property that may be missing. *)
Definition template (s : option string) : string :=
  match s with
  | Some s => s
  | None => "undefined"
  end.

Section Drawing.

Variable N : Numbers.

(** The calls on [doc], with their arguments: [new_jsPDF] is the
    constructor call; the style of [setFont] is kept as [isBold]; an
    [undefined] argument of [addImage] (the alias) is left out; [doc_text]
    carries the [align] and [angle] options, and [doc_text_lines] is
    [doc.text] called with an array of lines. *)
Inductive Op : Type :=
| new_jsPDF (compress : bool) (precision : Z)
| doc_setFontSize (size : Z)
| doc_setFont (fontName : Font) (bold : bool)
| doc_setTextColor (color : TextColor)
| doc_splitTextToSize (text_ : option string) (maxlen : num N)
| doc_text (text_ : string) (x y : num N) (align : Align) (angle : option Z)
| doc_text_lines (lines : list string) (x y : num N) (align : Align)
| doc_addPage
| doc_addImage (imageData format : string) (x y w h : num N)
               (compression : option string)
| doc_saveGraphicsState
| doc_setGState (opacity : Q)
| doc_restoreGraphicsState
| doc_setPage (page : Z)
| doc_output.

(** The document: the calls that returned so far. *)
Definition Doc : Type := list Op.

Record Library : Type := {
  getWidth : Doc -> num N;            (* doc.internal.pageSize.getWidth() *)
  getHeight : Doc -> num N;
  lines_of : Doc -> option string -> num N -> list string;
  throws : Doc -> Op -> option exn;   (* the exception of a call, if any *)
  pages_length : Doc -> Z;            (* doc.internal.pages.length *)
  blob_size : Doc -> Z
}.

Variable jsPDF : Library.

(** A call on [doc]: recorded when it returns. *)
Definition emit (op : Op) : M Doc unit :=
  fun doc =>
    match throws jsPDF doc op with
    | Some e => (Throw e, doc)
    | None => (Ok tt, (doc ++ [op])%list)
    end.

(** A value read from [doc]. *)
Definition query {A : Type} (f : Doc -> A) : M Doc A :=
  fun doc => (Ok (f doc), doc).

Definition splitTextToSize (text_ : option string) (maxlen : num N)
  : M Doc (list string) :=
  lines <- query (fun doc => lines_of jsPDF doc text_ maxlen) ;;
  emit (doc_splitTextToSize text_ maxlen) ;;
  ret lines.

Definition grey (n : Z) : TextColor := (Int n, Int n, Int n).

Section Page.

Variable options : PDFOptions.
Variables pageWidth pageHeight : num N.

Definition margin : num N := lit N 20.
Definition maxLineWidth : num N := n_sub N pageWidth (n_mul N margin (lit N 2)).
Definition lineHeight : num N := lit N 7.

(** The top of a page below its header: [margin + 15]. *)
Definition top : num N := n_add N margin (lit N 15).

Definition middle : num N := n_div N pageWidth (lit N 2).

Definition addHeaderFooter : M Doc unit :=
  emit (doc_setFontSize 8) ;;
  emit (doc_setTextColor (grey 150)) ;;
  (match headerText options with
   | Some h =>
       if truthy h then emit (doc_text h middle (lit N 10) align_center None)
       else ret tt
   | None => ret tt
   end) ;;
  (match footerText options with
   | Some f =>
       if truthy f
       then emit (doc_text f middle (n_sub N pageHeight (lit N 5)) align_center None)
       else ret tt
   | None => ret tt
   end) ;;
  match watermark options with
  | Some w =>
      if truthy w then
        emit doc_saveGraphicsState ;;
        emit (doc_setGState (5 # 100)) ;;
        emit (doc_setFontSize 60) ;;
        emit (doc_text w middle (n_div N pageHeight (lit N 2)) align_center
                       (Some 45)) ;;
        emit doc_restoreGraphicsState
      else ret tt
  | None => ret tt
  end.

(** [doc.addPage(); addHeaderFooter(); currentY = margin + 15] *)
Definition newPage : M Doc (num N) :=
  emit doc_addPage ;;
  addHeaderFooter ;;
  ret top.

(** The [for ... of lines] loop of [addText]; it returns [currentY]. *)
Fixpoint add_lines (lines : list string) (align : Align) (currentY : num N)
  : M Doc (num N) :=
  match lines with
  | [] => ret currentY
  | line :: lines' =>
      currentY <-
        (if n_gt N (n_add N currentY lineHeight)
                   (n_sub N (n_sub N pageHeight margin) (lit N 10))
         then newPage
         else ret currentY) ;;
      emit (doc_text line
                     (match align with
                      | align_center => middle
                      | align_left => margin
                      end)
                     currentY align None) ;;
      add_lines lines' align (n_add N currentY lineHeight)
  end.

Definition addText (text_ : string) (fontSize : Z) (isBold : bool)
           (align : Align) (startY : num N) (color : option string)
  : M Doc (num N) :=
  emit (doc_setFontSize fontSize) ;;
  emit (doc_setFont (font options) isBold) ;;
  emit (doc_setTextColor (addText_color color)) ;;
  lines <- splitTextToSize (Some text_) maxLineWidth ;;
  add_lines lines align startY.

(** The title page. *)
Definition titlePage (title : option string) : M Doc unit :=
  (match logo options with
   | Some l =>
       if truthy l then
         try_catch
           (emit (doc_addImage l "PNG" (n_sub N middle (lit N 15)) (lit N 20)
                               (lit N 30) (lit N 30) None))
           (fun _ => ret tt)
       else ret tt
   | None => ret tt
   end) ;;
  emit (doc_setFontSize 32) ;;
  emit (doc_setFont (font options) true) ;;
  emit (doc_setTextColor (titlePage_color options)) ;;
  titleLines <- splitTextToSize title maxLineWidth ;;
  let titleY :=
    n_sub N (n_div N pageHeight (lit N 2))
          (n_div N (n_mul N (lit N (Z.of_nat (List.length titleLines))) (lit N 10))
                 (lit N 2)) in
  emit (doc_text_lines titleLines middle titleY align_center) ;;
  emit (doc_setFontSize 14) ;;
  emit (doc_setTextColor (grey 100)) ;;
  emit (doc_text ("G" ++ cu 233 ++ "n" ++ cu 233 ++ "r" ++ cu 233
                  ++ " par EbookAI SaaS Premium")
                 middle (n_sub N pageHeight (lit N 30)) align_center None).

(** The [forEach] of the table of contents, from the chapter of index
    [index] on. *)
Fixpoint contents_entries (chapters : list Chapter) (index : Z)
         (currentY : num N) : M Doc (num N) :=
  match chapters with
  | [] => ret currentY
  | chapter :: chapters' =>
      currentY <- addText (decimal (index + 1) ++ ". " ++ template (title chapter))
                          12 false align_left currentY None ;;
      contents_entries chapters' (index + 1) (n_add N currentY (lit N 2))
  end.

Definition tableOfContents (chapters : list Chapter) : M Doc unit :=
  currentY <- newPage ;;
  currentY <- addText ("Table des mati" ++ cu 232 ++ "res") 24 true align_left
                      currentY (Some (primaryColor options)) ;;
  contents_entries chapters 0 (n_add N currentY (lit N 10)) ;;
  ret tt.

(** The block [if (chapter.image) { try { ... } catch (e) {} }]; it returns
    [currentY].  One [try] surrounds the page break and the image: when the
    page break throws, [currentY] has not been assigned; when [addImage]
    throws, it has been, if the page was broken. *)
Definition chapterImage (chapter : Chapter) (currentY : num N) : M Doc (num N) :=
  match image chapter with
  | Some img =>
      if truthy img then
        let imgWidth := maxLineWidth in
        let imgHeight := n_div N (n_mul N imgWidth (lit N 9)) (lit N 16) in
        try_catch
          (y <- (if n_gt N (n_add N currentY imgHeight)
                           (n_sub N (n_sub N pageHeight margin) (lit N 10))
                 then newPage
                 else ret currentY) ;;
           try_catch
             (emit (doc_addImage img "JPEG" margin y imgWidth imgHeight
                                 (Some (if noCompression options then "NONE"
                                        else "FAST"))) ;;
              ret (n_add N y (n_add N imgHeight (lit N 10))))
             (fun _ => ret y))
          (fun _ => ret currentY)
      else ret currentY
  | None => ret currentY
  end.

(** The [for ... of paragraphs] loop. *)
Fixpoint chapterContent (paragraphs : list string) (currentY : num N)
  : M Doc (num N) :=
  match paragraphs with
  | [] => ret currentY
  | paragraph :: paragraphs' =>
      if negb (truthy (trim paragraph)) then chapterContent paragraphs' currentY
      else
        currentY <- addText (trim paragraph) 11 false align_left currentY None ;;
        chapterContent paragraphs' (n_add N currentY (lit N 5))
  end.

(** The [forEach] over the data of a chart. *)
Fixpoint chartData (data : list DataPoint) (currentY : num N) : M Doc (num N) :=
  match data with
  | [] => ret currentY
  | item :: data' =>
      currentY <- addText (label item ++ ": " ++ toString N (value item))
                          10 false align_left currentY None ;;
      chartData data' currentY
  end.

Definition chapterChart (chapter : Chapter) (currentY : num N) : M Doc (num N) :=
  match chart chapter with
  | Some g =>
      currentY <-
        (if n_gt N (n_add N currentY (lit N 60)) (n_sub N pageHeight margin)
         then newPage
         else ret currentY) ;;
      currentY <- addText ("Graphique: " ++ chart_title g) 16 true align_left
                          currentY (Some (primaryColor options)) ;;
      chartData (chart_data g) (n_add N currentY (lit N 10))
  | None => ret currentY
  end.

(** The body of the loop over the chapters, for the chapter of index [i]. *)
Definition chapterPage (chapter : Chapter) (i : Z) : M Doc unit :=
  currentY <- newPage ;;
  currentY <- addText ("Chapitre " ++ decimal (i + 1) ++ ": "
                       ++ template (title chapter))
                      22 true align_left currentY (Some (primaryColor options)) ;;
  currentY <- chapterImage chapter (n_add N currentY (lit N 10)) ;;
  currentY <- chapterContent (split (content chapter)) currentY ;;
  chapterChart chapter currentY ;;
  ret tt.

Fixpoint chapterPages (chapters : list Chapter) (i : Z) : M Doc unit :=
  match chapters with
  | [] => ret tt
  | chapter :: chapters' =>
      chapterPage chapter i ;;
      chapterPages chapters' (i + 1)
  end.

(** The label of page [i] of [totalPages]. *)
Definition pageLabel (i totalPages : Z) : list Op :=
  [ doc_setPage i; doc_setFontSize 10; doc_setTextColor (grey 150);
    doc_text ("Page " ++ decimal i ++ " sur " ++ decimal totalPages)
             middle (n_sub N pageHeight (lit N 10)) align_center None ].

Fixpoint emit_all (ops : list Op) : M Doc unit :=
  match ops with
  | [] => ret tt
  | op :: ops' => emit op ;; emit_all ops'
  end.

(** The loop [for (let i = 1; i <= totalPages; i++)], over the values of
    [i]. *)
Fixpoint pageNumbers (pages : list Z) (totalPages : Z) : M Doc unit :=
  match pages with
  | [] => ret tt
  | i :: pages' =>
      emit_all (pageLabel i totalPages) ;;
      pageNumbers pages' totalPages
  end.

End Page.

(** The integers from 1 to [n]. *)
Definition upto (n : Z) : list Z := map Z.of_nat (seq 1 (Z.to_nat n)).

(** [createPDF], on the new document; it returns the size of the blob.
    The default value of [options] is not modelled: every caller passes the
    options. *)
Definition createPDF (title : option string) (chapters : list Chapter)
           (options : PDFOptions) : M Doc Z :=
  emit (new_jsPDF (negb (noCompression options))
                  (match quality options with ultra => 16 | _ => 2 end)) ;;
  pageWidth <- query (getWidth jsPDF) ;;
  pageHeight <- query (getHeight jsPDF) ;;
  titlePage options pageWidth pageHeight title ;;
  tableOfContents options pageWidth pageHeight chapters ;;
  chapterPages options pageWidth pageHeight chapters 0 ;;
  totalPages <- query (fun doc => pages_length jsPDF doc - 1) ;;
  pageNumbers pageWidth pageHeight (upto totalPages) totalPages ;;
  emit doc_output ;;
  query (blob_size jsPDF).

End Drawing.

Arguments doc_setFontSize {N} size.
Arguments doc_setFont {N} fontName bold.
Arguments doc_setTextColor {N} color.
Arguments doc_splitTextToSize {N} text_ maxlen.
Arguments doc_text {N} text_ x y align angle.
Arguments doc_text_lines {N} lines x y align.
Arguments doc_addPage {N}.
Arguments doc_addImage {N} imageData format x y w h compression.
Arguments doc_saveGraphicsState {N}.
Arguments doc_setGState {N} opacity.
Arguments doc_restoreGraphicsState {N}.
Arguments doc_setPage {N} page.
Arguments doc_output {N}.
Arguments new_jsPDF {N} compress precision.
Arguments getWidth {N} l doc.
Arguments getHeight {N} l doc.
Arguments lines_of {N} l doc text_ maxlen.
Arguments throws {N} l doc op.
Arguments pages_length {N} l doc.
Arguments blob_size {N} l doc.

End Renderer.

(* ================================================================== *)
(** * Notions about the calls of the renderer                           *)
(* ================================================================== *)

Module Layout.
Import JS Pdf Async Renderer.

Section Traces.

Variable N : Numbers.

Definition is_addPage (op : Op N) : bool :=
  match op with doc_addPage => true | _ => false end.

Definition is_addImage (op : Op N) : bool :=
  match op with doc_addImage _ _ _ _ _ _ _ => true | _ => false end.

Definition is_setPage (op : Op N) : bool :=
  match op with doc_setPage _ => true | _ => false end.

(** The number of calls of [addPage]. *)
Definition added_pages (doc : Doc N) : nat := List.length (filter is_addPage doc).

(** The calls of [addHeaderFooter] when none throws. *)
Definition headerFooter (options : PDFOptions) (pageWidth pageHeight : num N)
  : list (Op N) :=
  ([doc_setFontSize 8; doc_setTextColor (grey 150)]
   ++ match headerText options with
      | Some h =>
          if truthy h
          then [doc_text h (middle N pageWidth) (lit N 10) align_center None]
          else []
      | None => []
      end
   ++ match footerText options with
      | Some f =>
          if truthy f
          then [doc_text f (middle N pageWidth) (n_sub N pageHeight (lit N 5))
                         align_center None]
          else []
      | None => []
      end
   ++ match watermark options with
      | Some w =>
          if truthy w
          then [doc_saveGraphicsState; doc_setGState (5 # 100); doc_setFontSize 60;
                doc_text w (middle N pageWidth) (n_div N pageHeight (lit N 2))
                         align_center (Some 45);
                doc_restoreGraphicsState]
          else []
      | None => []
      end)%list.

(** Calls among which every [addPage] is followed at once by the calls
    [hf]. *)
Inductive paged (hf : list (Op N)) : list (Op N) -> Prop :=
| paged_nil : paged hf []
| paged_op (op : Op N) (l : list (Op N)) :
    is_addPage op = false -> paged hf l -> paged hf (op :: l)
| paged_break (l : list (Op N)) :
    paged hf l -> paged hf (doc_addPage :: hf ++ l)%list.

(** A text handed to [splitTextToSize] is [title] or is not empty. *)
Definition measured_ok (title : option string) (op : Op N) : Prop :=
  match op with
  | doc_splitTextToSize t _ =>
      t = title \/ exists s : string, t = Some s /\ truthy s = true
  | _ => True
  end.

(** [m] makes calls that satisfy [Seg], whether it returns or throws. *)
Definition appends {A : Type} (Seg : list (Op N) -> Prop) (m : M (Doc N) A)
  : Prop :=
  forall doc : Doc N,
    exists l : list (Op N), snd (m doc) = (doc ++ l)%list /\ Seg l.

(** Every call that the document holds returned when it was made. *)
Definition returned (jsPDF : Library N) (doc : Doc N) : Prop :=
  forall (a : Doc N) (op : Op N) (b : list (Op N)),
    doc = (a ++ op :: b)%list -> throws jsPDF a op = None.

(** [m] keeps the document to the calls that returned, comes to an end,
    and throws nothing but the exception of a call other than [addImage],
    which the library threw in the document that [m] leaves. *)
Definition blames (jsPDF : Library N) {A : Type} (m : M (Doc N) A) : Prop :=
  forall doc : Doc N,
    returned jsPDF doc ->
    returned jsPDF (snd (m doc))
    /\ match fst (m doc) with
       | Ok _ => True
       | Throw e =>
           exists op : Op N,
             is_addImage op = false /\ throws jsPDF (snd (m doc)) op = Some e
       | Pending => False
       end.

(** The same without the condition on what is thrown: for what stands in a
    [try]. *)
Definition settles (jsPDF : Library N) {A : Type} (m : M (Doc N) A) : Prop :=
  forall doc : Doc N,
    returned jsPDF doc ->
    returned jsPDF (snd (m doc)) /\ fst (m doc) <> Pending.

(** In the document [doc], the calls [hf] that follow a page break all
    returned: wherever [doc] holds [addPage] and then the first calls [h1]
    of [hf], the next call of [hf] did not throw there. *)
Definition decorates (jsPDF : Library N) (hf : list (Op N)) (doc : Doc N) : Prop :=
  forall (a h1 : list (Op N)) (op : Op N) (h2 t : list (Op N)),
    hf = (h1 ++ op :: h2)%list ->
    doc = ((a ++ doc_addPage :: h1) ++ t)%list ->
    throws jsPDF (a ++ doc_addPage :: h1)%list op = None.

(** When the document that [m] leaves satisfies [C], the calls that [m]
    made satisfy [Seg]. *)
Definition lays {A : Type} (C : Doc N -> Prop) (Seg : list (Op N) -> Prop)
           (m : M (Doc N) A) : Prop :=
  forall doc : Doc N,
    C (snd (m doc)) ->
    exists l : list (Op N), snd (m doc) = (doc ++ l)%list /\ Seg l.

End Traces.

(** The paragraphs that the renderer draws. *)
Definition paragraphs (content : string) : list string :=
  map trim (filter (fun p => truthy (trim p)) (split content)).

(** Two chapters that differ at most in the blank paragraphs of their
    contents and in the white space around the others. *)
Definition same_print (c c' : Chapter) : Prop :=
  title c = title c' /\ image c = image c' /\ chart c = chart c'
  /\ paragraphs (content c) = paragraphs (content c').

End Layout.

(* ================================================================== *)
(** * Notions about a run of the pipeline                               *)
(* ================================================================== *)

Module Progress.
Import JS Async Pdf Gemini Generator.

(** The state with the three cells that the loop over the chapters writes
    set to fixed values: two states that agree after [erase_progress] differ
    at most in those cells. *)
Definition erase_progress (u : UI) : UI :=
  with_currentChapterIndex 0 (with_generatedChapters [] (with_estimatedPages 0 u)).

Definition is_refine (q : Request) : bool :=
  match q with RefinePrompt _ _ => true | _ => false end.

Definition is_chapter (q : Request) : bool :=
  match q with ChapterPrompt _ _ _ _ => true | _ => false end.

Definition is_image (q : Request) : bool :=
  match q with ImagePrompt _ _ => true | _ => false end.

Definition count (P : Request -> bool) (l : list Request) : nat :=
  List.length (filter P l).

(** Whether an image is requested for the chapter of index [i]. *)
Definition due (isPrototype : bool) (i : nat) : bool :=
  Z.of_nat i mod (if isPrototype then 1 else 3) =? 0.

(** The number of indices from [i] to [i + n - 1] for which an image is
    requested. *)
Fixpoint due_count (isPrototype : bool) (i n : nat) : nat :=
  match n with
  | O => O
  | S n' => (if due isPrototype i then 1 else 0) + due_count isPrototype (S i) n'
  end.

(** The test of [handleGenerate] on the form: a topic that is not blank and
    a page count that neither comparison rejects. *)
Definition accepted (p : UI) : bool :=
  truthy (trim (topic p))
  && negb (ltb (finalTarget_of p) (Int 10) || ltb (Int 200) (finalTarget_of p)).

(** The state after the eight setters that precede the [try] block. *)
Definition reset_ui (u : UI) : UI :=
  with_fileSizeMB 0%Q
    (with_estimatedPages 0
       (with_marketingAssets None
          (with_currentChapterIndex 0
             (with_generatedChapters []
                (with_outline None (with_error None (with_state S_outline u))))))).

(** An image that the estimator counts, or none. *)
Definition image_counts (c : Chapter) : Prop :=
  match image c with
  | Some i => truthy i = true
  | None => True
  end.

Section Illustration.

Variable World : Type.
Variable generateContent :
  Request -> World -> (exn + GenerateContentResponse) * World.



End Illustration.

End Progress.

(* ================================================================== *)
(** * Further concrete inputs                                           *)
(* ================================================================== *)

Module MoreSamples.
Import JS Pdf Async Gemini Generator Samples Notions.

(** A content of 42 blank-line separators: 43 empty paragraphs, estimated
    at one page, that one more letter brings to two. *)
Definition nearly_full : string := String.concat EmptyString (repeat separator 42).

(** An entry of the history with the two chapters of [two_chapters]. *)
Definition saved_entry : HistoryEntry :=
  {| entry_title := Some "My Book!"; entry_chapters := two_chapters;
     entry_pages := Int 10 |}.

(** A backend that counts the requests: it answers the first two (the
    outline of two chapters, then a short text) and rejects the others. *)
Definition flaky (req : Request) (w : nat)
  : (exn + GenerateContentResponse) * nat :=
  match w with
  | O => (answer (Some two_json), S w)
  | S O => (answer (Some "ok"), S w)
  | _ => (inl (Error "quota"), S w)
  end.

(** A renderer that fails. *)
Definition render_fails (t : option string) (cs : list Chapter) (o : PDFOptions)
  : exn + Z := inl (Error "render").


(** The form with a custom page count that is not a number. *)
Definition unreadable_ui : UI :=
  {| activeTab := T_create; topic := "Productivity"; ebookType := "Business";
     imageStyle := "Business"; isPrototype := true; targetPages := 10;
     customPages := "abc"; state := S_idle; error := None;
     pdfOptions := sample_options; outline := None; currentChapterIndex := 0;
     generatedChapters := []; marketingAssets := None; estimatedPages := 0;
     fileSizeMB := 0; history := [] |}.

(** Exact arithmetic on rationals; [toString] prints the integer part. *)
Definition exact : Renderer.Numbers :=
  {| Renderer.num := Q; Renderer.lit := inject_Z;
     Renderer.n_add := Qplus; Renderer.n_sub := Qminus;
     Renderer.n_mul := Qmult; Renderer.n_div := Qdiv;
     Renderer.n_gt := fun a b => negb (Qle_bool a b);
     Renderer.toString := fun q => Renderer.decimal (Qfloor q) |}.

(** A library with pages of 210 by 297, in which a text makes one line, no
    call throws, and the array of pages holds a placeholder, the first page
    and the pages added. *)
Definition a4 : Renderer.Library exact :=
  Renderer.Build_Library exact
    (fun _ => 210%Q) (fun _ => 297%Q)
    (fun _ t _ => match t with Some s => [s] | None => [] end)
    (fun _ _ => None)
    (fun doc => Z.of_nat (Layout.added_pages exact doc) + 2)
    (fun doc => Z.of_nat (List.length doc)).

(** The same library, refusing every image. *)
Definition picky : Renderer.Library exact :=
  Renderer.Build_Library exact
    (fun _ => 210%Q) (fun _ => 297%Q)
    (fun _ t _ => match t with Some s => [s] | None => [] end)
    (fun _ op => if Layout.is_addImage exact op then Some (Error "bad image")
                 else None)
    (fun doc => Z.of_nat (Layout.added_pages exact doc) + 2)
    (fun doc => Z.of_nat (List.length doc)).

(** The same library again, refusing every image and every colour with a
    channel that is not a number. *)
Definition strict : Renderer.Library exact :=
  Renderer.Build_Library exact
    (fun _ => 210%Q) (fun _ => 297%Q)
    (fun _ t _ => match t with Some s => [s] | None => [] end)
    (fun _ op =>
       match op with
       | Renderer.doc_addImage _ _ _ _ _ _ _ => Some (Error "bad image")
       | Renderer.doc_setTextColor (NaN, _, _)
       | Renderer.doc_setTextColor (_, NaN, _)
       | Renderer.doc_setTextColor (_, _, NaN) => Some (Error "Invalid color")
       | _ => None
       end)
    (fun doc => Z.of_nat (Layout.added_pages exact doc) + 2)
    (fun doc => Z.of_nat (List.length doc)).

(** A chapter with an image, and the same chapter with blank paragraphs and
    white space added to its content. *)
Definition pictured : Chapter :=
  {| title := Some "One"; content := "First text."; image := Some "data:x";
     chart := None |}.

Definition airy : string :=
  separator ++ "  First text. " ++ separator ++ "   " ++ separator.

End MoreSamples.

(* ================================================================== *)
(** * Properties of the page estimator                                  *)
(* ================================================================== *)

Module EstimatorFacts.
Import JS Pdf.
Local Open Scope Q_scope.

Lemma split_nonempty (s : string) : split s <> [].
Proof.
  induction s as [|c s' IH]; simpl; [discriminate|].
  destruct s' as [|c' s'']; [discriminate|].
  destruct (Ascii.eqb c LF && Ascii.eqb c' LF); [discriminate|].
  unfold cons_head. destruct (split (String c' s'')); discriminate.
Qed.

Lemma lines_nonneg (p : string) : (0 <= lines p)%Z.
Proof.
  unfold lines.
  rewrite <- (Qceiling_Z 0). apply Qceiling_resp_le.
  apply Qle_shift_div_l; [reflexivity|].
  rewrite Qmult_0_l.
  apply Qmult_le_0_compat; [|discriminate].
  change 0 with (inject_Z 0). rewrite <- Zle_Qle. lia.
Qed.

Lemma lines_mono (p q : string) :
  (String.length p <= String.length q)%nat -> (lines p <= lines q)%Z.
Proof.
  intros H. unfold lines. apply Qceiling_resp_le.
  unfold Qdiv. apply Qmult_le_compat_r; [|discriminate].
  apply Qmult_le_compat_r; [|discriminate].
  rewrite <- Zle_Qle. lia.
Qed.

Lemma paragraphHeight_ge (p : string) : 5 <= paragraphHeight p.
Proof.
  unfold paragraphHeight.
  rewrite <- (Qplus_0_l 5) at 1. apply Qplus_le_compat; [|apply Qle_refl].
  apply Qmult_le_0_compat; [|discriminate].
  change 0 with (inject_Z 0). rewrite <- Zle_Qle. apply lines_nonneg.
Qed.

Lemma paragraphHeight_mono (p q : string) :
  (String.length p <= String.length q)%nat -> paragraphHeight p <= paragraphHeight q.
Proof.
  intros H. unfold paragraphHeight.
  apply Qplus_le_compat; [|apply Qle_refl].
  apply Qmult_le_compat_r; [|discriminate].
  rewrite <- Zle_Qle. now apply lines_mono.
Qed.

Lemma flow_le (ps : list string) (y : Q) : y <= flow ps y.
Proof.
  revert y. induction ps as [|p ps IH]; intros y; simpl; [apply Qle_refl|].
  eapply Qle_trans; [|apply IH].
  rewrite <- (Qplus_0_r y) at 1. apply Qplus_le_compat; [apply Qle_refl|].
  eapply Qle_trans; [|apply paragraphHeight_ge]. discriminate.
Qed.

Lemma flow_mono (ps qs : list string) :
  Forall2 (fun p q => (String.length p <= String.length q)%nat) ps qs ->
  forall y y', y <= y' -> flow ps y <= flow qs y'.
Proof.
  induction 1 as [|p q ps qs Hpq _ IH]; intros y y' Hy; simpl; [exact Hy|].
  apply IH. apply Qplus_le_compat; [exact Hy|now apply paragraphHeight_mono].
Qed.

Lemma flow_ge_5 (ps : list string) (y : Q) : ps <> [] -> y + 5 <= flow ps y.
Proof.
  destruct ps as [|p ps]; [congruence|]. intros _. simpl.
  eapply Qle_trans; [|apply flow_le].
  apply Qplus_le_compat; [apply Qle_refl|apply paragraphHeight_ge].
Qed.

Lemma pagesOf_mono (y y' : Q) : y <= y' -> (pagesOf y <= pagesOf y')%Z.
Proof.
  intros H. unfold pagesOf. apply Qceiling_resp_le.
  unfold Qdiv. apply Qmult_le_compat_r; [exact H|discriminate].
Qed.

Lemma chapterY_ge_25 (c : Chapter) : 25 <= chapterY c.
Proof.
  unfold chapterY.
  eapply Qle_trans; [|apply flow_ge_5, split_nonempty].
  destruct (truthy_opt (image c)); vm_compute; discriminate.
Qed.

End EstimatorFacts.

(* ================================================================== *)
(** * The page estimator: claims                                        *)
(* ================================================================== *)

Module EstimatorClaims.
Import JS Pdf Samples EstimatorFacts.

Lemma fold_pages_mono (l : list Chapter) (a b : Z) :
  a <= b ->
  fold_left (fun totalPages chapter => totalPages + chapterPages chapter) l a
  <= fold_left (fun totalPages chapter => totalPages + chapterPages chapter) l b.
Proof.
  revert a b. induction l as [|c l IH]; intros a b H; simpl; [exact H|].
  apply IH. lia.
Qed.

Lemma estimate_replace (pre post : list Chapter) (c c' : Chapter) (o : PDFOptions) :
  chapterPages c <= chapterPages c' ->
  estimatePageCount (pre ++ c :: post) o <= estimatePageCount (pre ++ c' :: post) o.
Proof.
  intros H. unfold estimatePageCount.
  rewrite !fold_left_app. simpl. apply fold_pages_mono. lia.
Qed.

Lemma chapterPages_ge_1 (c : Chapter) : 1 <= chapterPages c.
Proof.
  assert (H : 1 <= pagesOf (chapterY c)).
  { unfold pagesOf.
    assert (Hpos : (0 < chapterY c / contentHeightPerPage)%Q).
    { apply Qlt_shift_div_l; [reflexivity|]. rewrite Qmult_0_l.
      eapply Qlt_le_trans; [|apply chapterY_ge_25]. reflexivity. }
    pose proof (Qlt_le_trans _ _ _ Hpos (Qle_ceiling _)) as Hc.
    change 0%Q with (inject_Z 0) in Hc. rewrite <- Zlt_Qlt in Hc. lia. }
  unfold chapterPages. destruct (chart c); lia.
Qed.

Lemma fold_pages_ge (l : list Chapter) (a : Z) :
  a + Z.of_nat (List.length l)
  <= fold_left (fun totalPages chapter => totalPages + chapterPages chapter) l a.
Proof.
  revert a. induction l as [|c l IH]; intros a; [simpl; lia|].
  cbn [fold_left List.length]. specialize (IH (a + chapterPages c)).
  pose proof (chapterPages_ge_1 c). lia.
Qed.

(** C8.  Whatever the options, the estimate of the empty chapter list is 2:
    the title page and the table of contents. *)
Theorem estimatePageCount_empty (options : PDFOptions) :
  estimatePageCount [] options = 2.
Proof. reflexivity. Qed.

(** C9.  The estimate is at least 2 plus the number of chapters, for all
    chapters and options: the offset of any chapter, even with empty content
    and neither image nor chart, is at least 25 (the 20 of the heading and the
    5 after the single paragraph that [split] always yields), which
    [Math.ceil] turns into at least one page. *)
Theorem estimatePageCount_at_least_one_page_per_chapter
        (chapters : list Chapter) (options : PDFOptions) :
  2 + Z.of_nat (List.length chapters) <= estimatePageCount chapters options
  /\ (forall c : Chapter, (25 <= chapterY c)%Q /\ 1 <= pagesOf (chapterY c)).
Proof.
  split.
  - unfold estimatePageCount.
      apply fold_pages_ge.
  - intros c. split; [apply chapterY_ge_25|].
    pose proof (chapterPages_ge_1 (with_chart c None)) as H.
    unfold chapterPages in H. simpl in H.
    change (chapterY (with_chart c None)) with (chapterY c) in H. lia.
Qed.

(** C10.  The estimate does not depend on the options: two calls on the same
    chapters with any two option values return the same integer. *)
Theorem estimatePageCount_ignores_options
        (chapters : list Chapter) (options options' : PDFOptions) :
  estimatePageCount chapters options = estimatePageCount chapters options'.
Proof. reflexivity. Qed.

(** C2, as the code has it.  With the other chapters and the options fixed,
    the estimate does not decrease when one chapter's content is replaced by
    a content that splits on blank lines into as many paragraphs, each at
    least as long as the paragraph it replaces; nor when an image, or a chart,
    is added to a chapter. *)
Theorem estimatePageCount_monotone
        (pre post : list Chapter) (c : Chapter) (content' img : string)
        (g : Chart) (options : PDFOptions) :
  Forall2 (fun p q => (String.length p <= String.length q)%nat)
          (JS.split (content c)) (JS.split content') ->
  estimatePageCount (pre ++ c :: post) options
    <= estimatePageCount (pre ++ with_content c content' :: post) options
  /\ estimatePageCount (pre ++ with_image c None :: post) options
    <= estimatePageCount (pre ++ with_image c (Some img) :: post) options
  /\ estimatePageCount (pre ++ with_chart c None :: post) options
    <= estimatePageCount (pre ++ with_chart c (Some g) :: post) options.
Proof.
  intros Hpar. repeat split; apply estimate_replace; unfold chapterPages; simpl.
  - apply Z.add_le_mono_r, pagesOf_mono. unfold chapterY. simpl.
    apply flow_mono; [exact Hpar|apply Qle_refl].
  - apply Z.add_le_mono_r, pagesOf_mono. unfold chapterY. simpl.
    apply flow_mono.
    + clear. induction (JS.split (content c)); constructor; auto.
    + destruct (truthy img); [|apply Qle_refl]. vm_compute. discriminate.
  - change (chapterY (with_chart c (Some g))) with (chapterY c).
    change (chapterY (with_chart c None)) with (chapterY c). lia.
Qed.

Lemma estimatePageCount_monotone_witness :
  Forall2 (fun p q => (String.length p <= String.length q)%nat)
          (JS.split (content (with_content blank_chapter "ab")))
          (JS.split "abc")
  /\ estimatePageCount ([] ++ with_content blank_chapter "ab" :: []) sample_options
     <= estimatePageCount
          ([] ++ with_content (with_content blank_chapter "ab") "abc" :: [])
          sample_options.
Proof.
  split.
  - simpl. repeat constructor.
  - apply (estimatePageCount_monotone [] [] (with_content blank_chapter "ab")
             "abc" "i" {| chart_type := "bar"; chart_data := []; chart_title := "t" |}
             sample_options).
    simpl. repeat constructor.
Defined.

(** C2 as stated fails: [letters] is longer than the content of
    [blank_chapter], yet replacing that content by [letters] lowers the
    estimate from 4 to 3.  The 43 separators give 44 empty paragraphs of 5
    each, an offset of 240 and two pages; the 87 letters are one paragraph of
    one line, an offset of 32 and one page. *)
Lemma estimatePageCount_not_monotone_in_length :
  (String.length (content blank_chapter) <= String.length letters)%nat
  /\ estimatePageCount ([] ++ blank_chapter :: []) sample_options = 4
  /\ estimatePageCount ([] ++ with_content blank_chapter letters :: [])
                       sample_options = 3.
Proof.
  split; [vm_compute; lia|]. split; reflexivity.
Qed.

(** Appending to a content can lower the estimate too: one more line feed
    after [padded] turns its last paragraph of 681 code units (two lines)
    into one of 680 (one line) and an empty one. *)
Example estimate_can_drop_when_text_is_appended :
  estimatePageCount [with_content blank_chapter padded] sample_options = 4
  /\ estimatePageCount
       [with_content blank_chapter (padded ++ String LF EmptyString)]
       sample_options = 3.
Proof. split; vm_compute; reflexivity. Qed.

End EstimatorClaims.

(* ================================================================== *)
(** * Text colour: claims                                               *)
(* ================================================================== *)

Module ColorClaims.
Import JS Pdf Samples.

Lemma hexValue_facts (c : ascii) (v : Z) :
  hexValue c = Some v ->
  isWhiteSpace c = false
  /\ Ascii.eqb c "+" = false /\ Ascii.eqb c "-" = false
  /\ Ascii.eqb c "x" = false /\ Ascii.eqb c "X" = false
  /\ digitValue c = Some v /\ 0 <= v < 16.
Proof.
  destruct c as [b0 b1 b2 b3 b4 b5 b6 b7].
  destruct b0, b1, b2, b3, b4, b5, b6, b7; vm_compute;
    intros H; try discriminate H; injection H as <-;
    repeat split; discriminate.
Qed.

Lemma parseInt_two_hex (d1 d2 : ascii) (v1 v2 : Z) :
  hexValue d1 = Some v1 -> hexValue d2 = Some v2 ->
  parseInt (String d1 (String d2 EmptyString)) (Some 16) = Int (16 * v1 + v2).
Proof.
  intros H1 H2.
  destruct (hexValue_facts _ _ H1) as (W1 & P1 & M1 & _ & _ & D1 & R1).
  destruct (hexValue_facts _ _ H2) as (_ & _ & _ & X2 & Y2 & D2 & R2).
  unfold parseInt. cbn [trimStart]. rewrite W1, M1, P1. cbn [orb].
  change (negb (16 =? 0) && ((16 <? 2) || (16 >? 36))) with false. cbv iota.
  change ((16 =? 0) || (16 =? 16)) with true.
  change (if 16 =? 0 then 10 else 16) with 16. cbv iota zeta.
  rewrite X2, Y2. cbn [orb]. rewrite andb_false_r.
  cbn [digits]. rewrite D1.
  replace (v1 <? 16) with true by (symmetry; apply Z.ltb_lt; lia).
  rewrite D2.
  replace (v2 <? 16) with true by (symmetry; apply Z.ltb_lt; lia).
  f_equal. lia.
Qed.

Lemma every_code_unit_listed (c : ascii) : In c Notions.all_ascii.
Proof.
  unfold Notions.all_ascii. rewrite <- (ascii_nat_embedding c).
  apply in_map, in_seq. pose proof (nat_ascii_bounded c). lia.
Qed.

Lemma nan_pairs_checked :
  forallb (fun d1 =>
             forallb (fun d2 =>
                        match parseInt (String d1 (String d2 EmptyString)) (Some 16) with
                        | NaN => Notions.no_number d1 d2
                        | _ => negb (Notions.no_number d1 d2)
                        end)
                     Notions.all_ascii)
          Notions.all_ascii = true.
Proof. vm_compute. reflexivity. Qed.

Lemma parseInt_pair_nan (d1 d2 : ascii) :
  parseInt (String d1 (String d2 EmptyString)) (Some 16) = NaN
  <-> Notions.no_number d1 d2 = true.
Proof.
  pose proof nan_pairs_checked as H. rewrite forallb_forall in H.
  specialize (H d1 (every_code_unit_listed d1)). rewrite forallb_forall in H.
  specialize (H d2 (every_code_unit_listed d2)).
  destruct (parseInt (String d1 (String d2 EmptyString)) (Some 16)) as [|n|z].
  - tauto.
  - apply negb_true_iff in H. rewrite H. split; intros E; discriminate E.
  - apply negb_true_iff in H. rewrite H. split; intros E; discriminate E.
Qed.

(** C5, as the code has it.  For a colour made of [#] and six hexadecimal
    digits, the title page and [addText] set the three channels that the
    digit pairs denote, each between 0 and 255.  [addText] sets black when
    it is given no colour, or the empty string.  Nothing is validated and
    nothing falls back to black: the title page, and [addText] for a colour
    that is not empty, set what [parseInt(.., 16)] yields on the slices
    (1, 3), (3, 5) and (5, 7), whatever the string.  For a string of seven
    code units or more, a channel is [NaN] exactly when [parseInt] finds no
    number in its two code units. *)
Theorem color_channels_of_hex_string (options : PDFOptions) :
  (forall (d1 d2 d3 d4 d5 d6 : ascii) (v1 v2 v3 v4 v5 v6 : Z),
      hexValue d1 = Some v1 -> hexValue d2 = Some v2 -> hexValue d3 = Some v3 ->
      hexValue d4 = Some v4 -> hexValue d5 = Some v5 -> hexValue d6 = Some v6 ->
      let color :=
        String "#" (String d1 (String d2 (String d3 (String d4 (String d5
          (String d6 EmptyString)))))) in
      let r := 16 * v1 + v2 in
      let g := 16 * v3 + v4 in
      let b := 16 * v5 + v6 in
      (primaryColor options = color -> titlePage_color options = (Int r, Int g, Int b))
      /\ addText_color (Some color) = (Int r, Int g, Int b)
      /\ (0 <= r <= 255 /\ 0 <= g <= 255 /\ 0 <= b <= 255))
  /\ addText_color None = (Int 0, Int 0, Int 0)
  /\ addText_color (Some EmptyString) = (Int 0, Int 0, Int 0)
  /\ titlePage_color options
     = (parseInt (slice (primaryColor options) 1 3) (Some 16),
        parseInt (slice (primaryColor options) 3 5) (Some 16),
        parseInt (slice (primaryColor options) 5 7) (Some 16))
  /\ (forall color : string,
        truthy color = true ->
        addText_color (Some color)
        = (parseInt (slice color 1 3) (Some 16),
           parseInt (slice color 3 5) (Some 16),
           parseInt (slice color 5 7) (Some 16)))
  /\ (forall (c0 d1 d2 d3 d4 d5 d6 : ascii) (rest : string),
        let color :=
          String c0 (String d1 (String d2 (String d3 (String d4 (String d5
            (String d6 rest)))))) in
        exists r g b : number,
          addText_color (Some color) = (r, g, b)
          /\ (r = NaN <-> Notions.no_number d1 d2 = true)
          /\ (g = NaN <-> Notions.no_number d3 d4 = true)
          /\ (b = NaN <-> Notions.no_number d5 d6 = true)).
Proof.
  split; [|split; [reflexivity|split; [reflexivity|split; [reflexivity|split]]]].
  - intros d1 d2 d3 d4 d5 d6 v1 v2 v3 v4 v5 v6 H1 H2 H3 H4 H5 H6 color r g b.
    assert (Hc : hexChannels color = (Int r, Int g, Int b)).
    { unfold hexChannels, slice, color. cbn [substring Nat.sub].
      rewrite (parseInt_two_hex _ _ _ _ H1 H2), (parseInt_two_hex _ _ _ _ H3 H4),
        (parseInt_two_hex _ _ _ _ H5 H6). reflexivity. }
    pose proof (hexValue_facts _ _ H1) as (_ & _ & _ & _ & _ & _ & R1).
    pose proof (hexValue_facts _ _ H2) as (_ & _ & _ & _ & _ & _ & R2).
    pose proof (hexValue_facts _ _ H3) as (_ & _ & _ & _ & _ & _ & R3).
    pose proof (hexValue_facts _ _ H4) as (_ & _ & _ & _ & _ & _ & R4).
    pose proof (hexValue_facts _ _ H5) as (_ & _ & _ & _ & _ & _ & R5).
    pose proof (hexValue_facts _ _ H6) as (_ & _ & _ & _ & _ & _ & R6).
    split; [|split].
    + intros Hp. unfold titlePage_color. rewrite Hp. exact Hc.
    + unfold addText_color. exact Hc.
    + unfold r, g, b. lia.
  - intros color H. unfold addText_color. rewrite H. reflexivity.
  - intros c0 d1 d2 d3 d4 d5 d6 rest color.
    exists (parseInt (String d1 (String d2 EmptyString)) (Some 16)),
           (parseInt (String d3 (String d4 EmptyString)) (Some 16)),
           (parseInt (String d5 (String d6 EmptyString)) (Some 16)).
    split.
    + unfold addText_color, color, hexChannels, slice.
      cbn [truthy Nat.sub substring]. destruct rest; reflexivity.
    + split; [|split]; apply parseInt_pair_nan.
Qed.

Lemma color_channels_of_hex_string_witness :
  titlePage_color sample_options = (Int 79, Int 70, Int 229)
  /\ addText_color (Some "#4f46e5") = (Int 79, Int 70, Int 229)
  /\ addText_color (Some "x000000") = (Int 0, Int 0, Int 0)
  /\ addText_color (Some "# f-f0x") = (Int 15, Int (-15), NaN).
Proof.
  destruct (color_channels_of_hex_string sample_options)
    as (Hwf & _ & _ & _ & Hany & _).
  pose proof (Hwf "4"%char "f"%char "4"%char "6"%char "e"%char "5"%char
                4 15 4 6 14 5
                eq_refl eq_refl eq_refl eq_refl eq_refl eq_refl) as H.
  cbv zeta in H. destruct H as (Ht & Ha & _).
  split; [exact (Ht eq_refl)|]. split; [exact Ha|].
  split; [exact (Hany "x000000" eq_refl)|exact (Hany "# f-f0x" eq_refl)].
Defined.

(** C5 as stated fails: the colour ["#zzzzzz"] is not made of hexadecimal
    digits, and neither the title page nor [addText] falls back to black:
    each [parseInt] yields [NaN], and the three [NaN] are what
    [setTextColor] receives. *)
Lemma malformed_color_is_not_black :
  titlePage_color bad_color_options = (NaN, NaN, NaN)
  /\ addText_color (Some (primaryColor bad_color_options)) = (NaN, NaN, NaN)
  /\ titlePage_color bad_color_options <> (Int 0, Int 0, Int 0).
Proof.
  repeat split; try reflexivity. vm_compute. discriminate.
Qed.

End ColorClaims.

(* ================================================================== *)
(** * The handlers of the component: claims                             *)
(* ================================================================== *)

Module GeneratorClaims.
Import JS Pdf Async Gemini Generator Samples.

Lemma bind_ok {S A B} (c : M S A) (k : A -> M S B) (s s' : S) (a : A) :
  c s = (Ok a, s') -> bind c k s = k a s'.
Proof. intros H. unfold bind. now rewrite H. Qed.

Lemma bind_pending {S A B} (c : M S A) (k : A -> M S B) (s : S) :
  fst (c s) = Pending -> fst (bind c k s) = Pending.
Proof.
  unfold bind. destruct (c s) as [[a|e|] s']; cbn; intros H;
    try discriminate H; reflexivity.
Qed.

Lemma try_catch_pending {S A} (c : M S A) (h : exn -> M S A) (s : S) :
  fst (c s) = Pending -> fst (try_catch c h s) = Pending.
Proof.
  unfold try_catch. destruct (c s) as [[a|e|] s']; cbn; intros H;
    try discriminate H; reflexivity.
Qed.

Lemma zoom_pending {S T A} (get : S -> T) (put : T -> S -> S) (c : M T A) (s : S) :
  fst (c (get s)) = Pending -> fst (zoom get put c s) = Pending.
Proof.
  unfold zoom. destruct (c (get s)) as [x t']. cbn. auto.
Qed.

Section AnyBackend.

Variable World : Type.
Variable generateContent :
  Request -> World -> (exn + GenerateContentResponse) * World.
Variable JSON_parse : string -> option EbookOutline.
Variable createPDF : option string -> list Chapter -> PDFOptions -> exn + Z.

Lemma nth_error_set_content_at_same (l : list Chapter) (i : nat) (v : string)
      (c : Chapter) :
  nth_error l i = Some c ->
  nth_error (set_content_at l i v) i = Some (with_content c v).
Proof.
  revert i. induction l as [|a l IH]; intros [|i] H; simpl in *;
    try discriminate.
  - injection H as ->. reflexivity.
  - now apply IH.
Qed.

Lemma nth_error_set_content_at_other (l : list Chapter) (i j : nat) (v : string) :
  j <> i -> nth_error (set_content_at l i v) j = nth_error l j.
Proof.
  revert i j. induction l as [|a l IH]; intros [|i] [|j] H; simpl;
    try reflexivity; try congruence.
  apply IH. congruence.
Qed.

(** Unfolding of the monad of the handlers. *)
Ltac run :=
  unfold handleRefine, addFAQ, content_at, refineText, generateFAQ,
    generateImage, generateChapterContent, generateOutline,
    generateMarketingAssets, not_awaited, ai_generateContent in *;
  unfold setState, setGeneratedChapters, setError, setOutline, setActiveTab,
    setCurrentChapterIndex, setEstimatedPages, setMarketingAssets,
    setFileSizeMB, setHistory, download, set_ui, call in *;
  unfold modify, zoom, try_catch, bind, ret, throw, pending in *;
  cbn [fst snd net ui downloads world calls] in *.



(** C6.  For a chapter of the editor and any of the five actions: when
    [refineText] succeeds, [handleRefine] leaves at that index the chapter
    with its content replaced by exactly the text returned, and the other
    chapters as they were; when [generateFAQ] succeeds, [addFAQ] leaves the
    chapter with the old content, then a blank line, the heading
    [### Foire Aux Questions] and a line feed, then the answer.  When the
    backend call fails, the chapters are as before.  Either handler
    completes normally in all cases. *)
Theorem refine_replaces_and_faq_appends
        (r : Run World) (index : nat) (action : Action) (c : Chapter) :
  nth_error (generatedChapters (ui r)) index = Some c ->
  let before := generatedChapters (ui r) in
  let refine_run := handleRefine World generateContent index action r in
  let faq_run := addFAQ World generateContent index r in
  let after_refine := generatedChapters (ui (snd refine_run)) in
  let after_faq := generatedChapters (ui (snd faq_run)) in
  fst refine_run = Ok tt
  /\ fst faq_run = Ok tt
  /\ match fst (refineText World generateContent (content c) action (net r)) with
     | Ok refined =>
         nth_error after_refine index = Some (with_content c refined)
         /\ (forall j, j <> index -> nth_error after_refine j = nth_error before j)
     | _ => after_refine = before
     end
  /\ match fst (generateFAQ World generateContent (content c) (net r)) with
     | Ok faq =>
         nth_error after_faq index
         = Some (with_content c
                   (content c
                    ++ String LF (String LF "### Foire Aux Questions"
                                  ++ String LF faq)))
         /\ (forall j, j <> index -> nth_error after_faq j = nth_error before j)
     | _ => after_faq = before
     end.
Proof.
  intros Hc. cbv zeta. run. rewrite Hc.
  cbn [fst snd net ui downloads world calls].
  destruct (generateContent (RefinePrompt action (content c)) (world (net r)))
    as [[e|response] w];
  destruct (generateContent (FAQPrompt (content c)) (world (net r)))
    as [[e'|response'] w'];
  cbn; rewrite ?Hc; cbn;
  repeat split; auto using nth_error_set_content_at_same.
  all: intros j Hj; now apply nth_error_set_content_at_other.
Qed.

(** The body of the loop, once the text of chapter [i] is there:
    the body completes, and pushes the chapter, whatever the image call does;
    it sends exactly one image request when [i mod N = 0], with [N = 1] in
    prototype mode and [N = 3] otherwise, and none when not; the chapter has
    no image when no request was due, when the request was rejected, or when
    the answer carries no inline data.  The body fails only where the text
    of the chapter failed. *)
Lemma chapter_body_after_text
        (fuel : nat) (p : UI) (generatedOutline : EbookOutline)
        (pagesPerChapter : number) (chapterOutline : ChapterPlan) (i : nat)
        (chapters : list Chapter) (r : Run World) :
  let N := if isPrototype p then 1 else 3 in
  let due := Z.of_nat i mod N =? 0 in
  let request := ImagePrompt (plan_title chapterOutline) (imageStyle p) in
  let body :=
    chapter_body World generateContent fuel p generatedOutline pagesPerChapter
                 chapterOutline i chapters r in
  match chapter_text World generateContent fuel p generatedOutline
                     pagesPerChapter chapterOutline i chapters r with
  | (Ok content, r1) =>
      exists (image : option string) (r2 : Run World),
        body = (Ok (chapters ++ [mkChapter (plan_title chapterOutline) content image])%list,
                r2)
        /\ calls (net r2) = (calls (net r1) ++ (if due then [request] else []))%list
        /\ generatedChapters (ui r2)
           = (chapters ++ [mkChapter (plan_title chapterOutline) content image])%list
        /\ image
           = if due then
               match fst (generateContent request (world (net r1))) with
               | inr response =>
                   first_inline (match parts response with Some ps => ps | None => [] end)
               | inl _ => None
               end
             else None
  | (Throw e, r1) => body = (Throw e, r1)
  | (Pending, r1) => body = (Pending, r1)
  end.
Proof.
  cbv zeta. unfold chapter_body.
  destruct (chapter_text World generateContent fuel p generatedOutline
              pagesPerChapter chapterOutline i chapters r)
    as [[content|e|] r1] eqn:Htext;
    unfold bind; rewrite Htext; [|reflexivity|reflexivity].
  unfold illustrate.
  destruct (Z.of_nat i mod (if isPrototype p then 1 else 3) =? 0).
  - run.
    destruct (generateContent (ImagePrompt (plan_title chapterOutline) (imageStyle p))
                (world (net r1))) as [[e|response] w]; cbn.
    + eexists. eexists. repeat split.
    + destruct (first_inline match parts response with Some ps => ps | None => [] end);
        cbn; eexists; eexists; repeat split.
  - run. eexists. eexists. repeat split. cbn. now rewrite app_nil_r.
Qed.

(** C3, as the code has it.  On a valid form, when the outline call is
    rejected, when its answer is not JSON, or when the parsed answer has no
    [chapters], the handler ends in the error state with a message, having
    sent the outline request once and nothing else, with no chapter created.
    Nothing more of the shape is checked. *)
Theorem outline_failure_is_terminal (fuel : nat) (r : Run World) :
  truthy (trim (topic (ui r))) = true ->
  ltb (finalTarget_of (ui r)) (Int 10) || ltb (Int 200) (finalTarget_of (ui r)) = false ->
  let p := ui r in
  let request :=
    outline_request (topic p) (ebookType p) (finalTarget_of p) (isPrototype p) in
  let out := handleGenerate World generateContent JSON_parse createPDF fuel r in
  let failed (msg : string) :=
    fst out = Ok tt
    /\ state (ui (snd out)) = S_error
    /\ error (ui (snd out)) = Some msg
    /\ calls (net (snd out)) = (calls (net r) ++ [request])%list
    /\ generatedChapters (ui (snd out)) = [] in
  match fst (generateContent request (world (net r))) with
  | inl e => failed (or_else (Some (message e)) msg_generic)
  | inr response =>
      match JSON_parse (or_else (text response) "{}") with
      | None => failed msg_plan
      | Some o =>
          match Gemini.chapters o with
          | None => failed (message (cannot_read "length"))
          | Some _ => True
          end
      end
  end.
Proof.
  intros Htopic Hrange. cbv zeta. unfold handleGenerate. rewrite Htopic, Hrange.
  cbn [negb]. unfold generate_body. run.
  destruct (generateContent
              (outline_request (topic (ui r)) (ebookType (ui r))
                 (finalTarget_of (ui r)) (isPrototype (ui r)))
              (world (net r))) as [[e|response] w]; cbn.
  - repeat split.
  - destruct (JSON_parse (or_else (text response) "{}")) as [o|]; cbn.
    + destruct (Gemini.chapters o); cbn; [exact I|repeat split].
    + repeat split.
Qed.

Lemma length_append (s t : string) :
  String.length (s ++ t) = (String.length s + String.length t)%nat.
Proof. induction s as [|c s IH]; simpl; [reflexivity|now rewrite IH]. Qed.

(** C1, as the code has it.  If every answer to an enrichment request on a
    text of fewer than 15,000 code units makes [refineText] return a strictly
    longer text, the loop ends, normally or by an exception of the backend,
    after at most [15000 - content.length] requests (none when the content is
    that long already).  Nothing else bounds the loop. *)
Theorem enrich_while_terminates_when_text_grows
        (isPrototype : bool) (chapters : list Chapter) (chapterTitle : option string)
        (i : nat) (pagesPerChapter : number) (pdfOptions : PDFOptions) :
  (forall (text_ : string) (w : World),
      Z.of_nat (String.length text_) < 15000 ->
      match fst (generateContent (RefinePrompt enrich text_) w) with
      | inr response =>
          (String.length text_ < String.length (or_else (text response) text_))%nat
      | inl _ => True
      end) ->
  forall (fuel : nat) (content : string) (currentEstimated : Z) (n : Net World),
    15000 - Z.of_nat (String.length content) <= Z.of_nat fuel ->
    let out :=
      enrich_while World generateContent fuel isPrototype chapters chapterTitle i
                   pagesPerChapter pdfOptions content currentEstimated n in
    fst out <> Pending
    /\ Z.of_nat (List.length (calls (snd out)))
       <= Z.of_nat (List.length (calls n))
          + Z.max 0 (15000 - Z.of_nat (String.length content)).
Proof.
  intros Hgrow fuel.
  induction fuel as [|fuel IH]; intros content currentEstimated n Hfuel; cbv zeta.
  - cbn [enrich_while].
    replace (Z.of_nat (String.length content) <? 15000) with false
      by (symmetry; apply Z.ltb_ge; lia).
    rewrite andb_false_r. cbn. split; [discriminate|lia].
  - cbn [enrich_while].
    destruct (negb isPrototype
              && ltb (Int currentEstimated) (mul (Int (Z.of_nat i + 1)) pagesPerChapter)
              && (Z.of_nat (String.length content) <? 15000)) eqn:Hcond;
      [|cbn; split; [discriminate|lia]].
    apply andb_true_iff in Hcond. destruct Hcond as [_ Hlen].
    apply Z.ltb_lt in Hlen.
    specialize (Hgrow content (world n) Hlen).
    unfold bind at 1. unfold refineText, bind, ai_generateContent, ret.
    destruct (generateContent (RefinePrompt enrich content) (world n))
      as [[e|response] w]; cbn [fst snd] in *.
    + cbn [fst snd calls]. split; [discriminate|].
      rewrite length_app. cbn [List.length]. lia.
    + match goal with
      | |- context [enrich_while _ _ fuel _ _ _ _ _ _ ?c ?e ?m] =>
          specialize (IH c e m)
      end.
      cbv zeta in IH. cbn [calls] in IH. rewrite length_app in IH.
      cbn [List.length] in IH.
      destruct IH as [IH1 IH2]; [lia|]. split; [exact IH1|]. lia.
Qed.
End AnyBackend.

Lemma refine_replaces_and_faq_appends_witness :
  nth_error (generatedChapters (ui (start editor_ui))) 1
  = Some {| title := Some "Two"; content := "Second text."; image := None; chart := None |}
  /\ nth_error
       (generatedChapters (ui (snd (handleRefine unit wordy 1 simplify (start editor_ui)))))
       1
     = Some {| title := Some "Two"; content := "Second text.x"; image := None;
               chart := None |}
  /\ generatedChapters (ui (snd (handleRefine unit down 1 simplify (start editor_ui))))
     = two_chapters
  /\ nth_error
       (generatedChapters (ui (snd (addFAQ unit wordy 1 (start editor_ui))))) 1
     = Some {| title := Some "Two";
               content := "Second text."
                          ++ String LF (String LF "### Foire Aux Questions"
                                        ++ String LF "ok");
               image := None; chart := None |}
  /\ generatedChapters (ui (snd (addFAQ unit down 1 (start editor_ui))))
     = two_chapters.
Proof.
  pose proof (refine_replaces_and_faq_appends unit wordy (start editor_ui) 1 simplify
                _ eq_refl) as Hw.
  pose proof (refine_replaces_and_faq_appends unit down (start editor_ui) 1 simplify
                _ eq_refl) as Hd.
  cbv zeta in Hw, Hd.
  destruct Hw as (_ & _ & Hw & Hwf). destruct Hd as (_ & _ & Hd & Hdf).
  split; [reflexivity|]. split; [exact (proj1 Hw)|]. split; [exact Hd|].
  split; [exact (proj1 Hwf)|exact Hdf].
Defined.

Lemma outline_failure_is_terminal_witness :
  truthy (trim (topic sample_ui)) = true
  /\ (let out := handleGenerate unit down parse render_ok 0 (start sample_ui) in
      fst out = Ok tt
      /\ state (ui (snd out)) = S_error
      /\ error (ui (snd out)) = Some "503"
      /\ calls (net (snd out)) = [outline_request "Productivity" "Business" (Int 10) false]
      /\ generatedChapters (ui (snd out)) = []).
Proof.
  split; [reflexivity|].
  exact (outline_failure_is_terminal unit down parse render_ok 0
           (start sample_ui) eq_refl eq_refl).
Defined.

(** C3 as stated fails: an answer that parses to a title and an empty array
    of chapters has not the shape of an outline, yet the handler does not
    fail: it goes on to the marketing request and the rendering, and ends in
    the state [done] with no error. *)
Lemma empty_outline_is_accepted :
  parse empty_json = Some {| outline_title := Some "T"; chapters := Some [] |}
  /\ (let out :=
        handleGenerate unit hollow parse render_ok 0 (start sample_ui) in
      fst out = Ok tt
      /\ state (ui (snd out)) = S_done
      /\ error (ui (snd out)) = None
      /\ generatedChapters (ui (snd out)) = []
      /\ calls (net (snd out))
         = [outline_request "Productivity" "Business" (Int 10) false;
            MarketingPrompt (Some "T") "Productivity"]
      /\ downloads (snd out) = ["t.pdf"]).
Proof. repeat split. Qed.

Lemma wordy_grows (text_ : string) (w : unit) :
  Z.of_nat (String.length text_) < 15000 ->
  match fst (wordy (RefinePrompt enrich text_) w) with
  | inr response =>
      (String.length text_ < String.length (or_else (text response) text_))%nat
  | inl _ => True
  end.
Proof.
  intros _. cbn. destruct text_ as [|c t]; cbn; [lia|].
  rewrite length_append. cbn. lia.
Qed.

Lemma enrich_while_terminates_when_text_grows_witness :
  15000 - Z.of_nat (String.length "abc") <= Z.of_nat (Z.to_nat 15000)
  /\ (let out :=
        enrich_while unit wordy (Z.to_nat 15000) false [] (Some "One") 0 (Int 5)
                     sample_options "abc" 3 {| world := tt; calls := [] |} in
      fst out <> Pending
      /\ Z.of_nat (List.length (calls (snd out)))
         <= Z.of_nat (List.length (@nil Request))
            + Z.max 0 (15000 - Z.of_nat (String.length "abc"))).
Proof.
  assert (H : 15000 - Z.of_nat (String.length "abc") <= Z.of_nat (Z.to_nat 15000)).
  { rewrite Z2Nat.id by lia. cbn [String.length]. lia. }
  split; [exact H|].
  exact (enrich_while_terminates_when_text_grows unit wordy false [] (Some "One") 0
           (Int 5) sample_options wordy_grows (Z.to_nat 15000) "abc" 3
           {| world := tt; calls := [] |} H).
Defined.

Lemma stubborn_loop_pending (fuel : nat) (n : Net unit) :
  fst (enrich_while unit stubborn fuel false [] (Some "One") 0 (Int 5)
                    sample_options "Intro." 3 n) = Pending.
Proof.
  revert n. induction fuel as [|fuel IH]; intros n; [reflexivity|].
  cbn [enrich_while].
  change (negb false && ltb (Int 3) (mul (Int (Z.of_nat 0 + 1)) (Int 5))
          && (Z.of_nat (String.length "Intro.") <? 15000)) with true.
  cbv iota. unfold bind at 1.
  change (refineText unit stubborn "Intro." enrich n)
    with (@Ok string "Intro.",
          {| world := world n; calls := calls n ++ [RefinePrompt enrich "Intro."] |}).
  cbv iota beta zeta.
  change (estimatePageCount ([] ++ [mkChapter (Some "One") "Intro." None])
                            sample_options)
    with 3.
  apply IH.
Qed.

Lemma handleGenerate_pending (fuel : nat) :
  fst (handleGenerate unit stubborn parse render_ok fuel (start sample_ui))
  = Pending.
Proof.
  unfold handleGenerate, generate_body.
  cbn -[enrich_while estimatePageCount for_chapters try_catch bind parse].
  apply try_catch_pending.
  erewrite bind_ok by reflexivity.
  erewrite bind_ok by reflexivity.
  erewrite bind_ok by reflexivity.
  erewrite bind_ok by reflexivity.
  apply bind_pending.
  cbn [for_chapters two_plans]. apply bind_pending.
  unfold chapter_body. apply bind_pending.
  unfold chapter_text.
  erewrite bind_ok by reflexivity.
  erewrite bind_ok by reflexivity.
  erewrite bind_ok by reflexivity.
  unfold call. apply zoom_pending.
  apply stubborn_loop_pending.
Qed.

(** C1 as stated fails: when the answer to an enrichment request carries no
    text, [refineText] returns the text it was given; for a first chapter
    ["Intro."] estimated at 3 pages against a target of 5, the condition of
    the loop stays true, and no bound on the iterations lets the loop end.
    So it is for the whole handler, on a form asking for 10 pages and an
    outline of two chapters. *)
Lemma enrich_while_may_run_forever :
  estimatePageCount [mkChapter (Some "One") "Intro." None] sample_options = 3
  /\ fst (refineText unit stubborn "Intro." enrich {| world := tt; calls := [] |})
     = Ok "Intro."
  /\ ~ (exists fuel : nat,
          fst (enrich_while unit stubborn fuel false [] (Some "One") 0 (Int 5)
                            sample_options "Intro."
                            (estimatePageCount [mkChapter (Some "One") "Intro." None]
                                               sample_options)
                            {| world := tt; calls := [] |}) <> Pending)
  /\ ~ (exists fuel : nat,
          fst (handleGenerate unit stubborn parse render_ok fuel (start sample_ui))
          <> Pending).
Proof.
  split; [reflexivity|]. split; [reflexivity|]. split.
  - intros [fuel H]. apply H.
    change (estimatePageCount [mkChapter (Some "One") "Intro." None] sample_options)
      with 3.
    apply stubborn_loop_pending.
  - intros [fuel H]. apply H. apply handleGenerate_pending.
Qed.

(** A run in prototype mode on an outline of two chapters, with a backend
    that rejects the image of the second: both images are requested, the
    second chapter is pushed without image, and the run ends in [done]. *)
Example prototype_run_with_a_rejected_image :
  let out := handleGenerate unit studio parse render_ok 0 (start proto_ui) in
  fst out = Ok tt
  /\ state (ui (snd out)) = S_done
  /\ error (ui (snd out)) = None
  /\ generatedChapters (ui (snd out))
     = [ {| title := Some "One"; content := "ok";
            image := Some "data:image/png;base64,AAAA"; chart := None |};
         {| title := Some "Two"; content := "ok"; image := None; chart := None |} ]
  /\ calls (net (snd out))
     = [ outline_request "Productivity" "Business" (Int 10) true;
         ChapterPrompt (Some "One") (Some "T") [Some "a"] (Int 300);
         ImagePrompt (Some "One") "Business";
         ChapterPrompt (Some "Two") (Some "T") [Some "b"] (Int 300);
         ImagePrompt (Some "Two") "Business";
         MarketingPrompt (Some "T") "Productivity" ]
  /\ estimatedPages (ui (snd out)) = 4
  /\ downloads (snd out) = ["t.pdf"].
Proof. repeat split. Qed.

(** Outside prototype mode the chapters 0, 3 and 6 are the ones for which
    an image is requested. *)
Example images_requested_every_third_chapter :
  map (fun i : nat =>
         calls (snd (illustrate unit studio false i (Some "One") "Business"
                                {| world := tt; calls := [] |})))
      [0; 1; 2; 3; 4; 5; 6]%nat
  = [ [ImagePrompt (Some "One") "Business"]; []; [];
      [ImagePrompt (Some "One") "Business"]; []; [];
      [ImagePrompt (Some "One") "Business"] ].
Proof. reflexivity. Qed.

(** The empty object, which [generateOutline] parses when the answer has no
    text, makes the handler fail on the read of [chapters.length]. *)
Example outline_answer_without_text :
  let out := handleGenerate unit mute parse render_ok 0 (start sample_ui) in
  fst out = Ok tt
  /\ state (ui (snd out)) = S_error
  /\ error (ui (snd out))
     = Some "Cannot read properties of undefined (reading 'length')"
  /\ calls (net (snd out)) = [outline_request "Productivity" "Business" (Int 10) false].
Proof. repeat split. Qed.
End GeneratorClaims.

(* ================================================================== *)
(** * The page estimator: further properties                           *)
(* ================================================================== *)

Module EstimatorExtras.
Import JS Pdf Samples Notions EstimatorFacts EstimatorClaims.

Lemma fold_pages_shift (l : list Chapter) (a : Z) :
  fold_left (fun totalPages chapter => totalPages + chapterPages chapter) l a
  = a + (fold_left (fun totalPages chapter => totalPages + chapterPages chapter) l 2 - 2).
Proof.
  revert a. induction l as [|c l IH]; intros a; cbn [fold_left]; [lia|].
  rewrite (IH (a + chapterPages c)), (IH (2 + chapterPages c)). lia.
Qed.

Lemma estimate_cons (c : Chapter) (l : list Chapter) (o : PDFOptions) :
  estimatePageCount (c :: l) o = chapterPages c + estimatePageCount l o.
Proof.
  unfold estimatePageCount. cbn [fold_left]. rewrite fold_pages_shift. lia.
Qed.

Lemma estimate_app (l1 l2 : list Chapter) (o : PDFOptions) :
  estimatePageCount (l1 ++ l2) o
  = estimatePageCount l1 o + (estimatePageCount l2 o - 2).
Proof.
  unfold estimatePageCount. rewrite fold_left_app. apply fold_pages_shift.
Qed.

(** X1.  The estimate of two lists of chapters put end to end is the sum of
    their estimates minus the two front pages counted twice; in particular the
    estimate of a book is 2 plus what each chapter adds on its own, whatever
    the chapters around it. *)
Theorem estimatePageCount_app (l1 l2 : list Chapter) (o : PDFOptions) :
  estimatePageCount (l1 ++ l2) o
  = estimatePageCount l1 o + estimatePageCount l2 o - 2.
Proof.
  unfold estimatePageCount. rewrite fold_left_app.
  rewrite fold_pages_shift. lia.
Qed.

(** X2.  A chart adds exactly one page to the estimate, whatever the chapter
    and the chapters around it. *)
Theorem chart_adds_exactly_one_page
        (pre post : list Chapter) (c : Chapter) (g : Chart) (o : PDFOptions) :
  estimatePageCount (pre ++ with_chart c (Some g) :: post) o
  = estimatePageCount (pre ++ with_chart c None :: post) o + 1.
Proof.
  rewrite !estimate_app, !estimate_cons. unfold chapterPages. simpl.
  change (chapterY (with_chart c (Some g))) with (chapterY c).
  change (chapterY (with_chart c None)) with (chapterY c). lia.
Qed.

Lemma flow_shift (ps : list string) (y d : Q) :
  (flow ps (y + d) == flow ps y + d)%Q.
Proof.
  revert y. induction ps as [|p ps IH]; intros y; simpl; [reflexivity|].
  rewrite <- IH. unfold flow.
  assert (E : (y + d + paragraphHeight p == y + paragraphHeight p + d)%Q) by ring.
  clear IH. revert E.
  generalize (y + d + paragraphHeight p)%Q (y + paragraphHeight p + d)%Q.
  induction ps as [|q ps IH]; intros a b E; simpl; [exact E|].
  apply IH. rewrite E. reflexivity.
Qed.

(** X3.  An image adds no page or one page to the estimate, never more: the
    block of 95.625 + 10 is less than the 237 of a page.  An image that is
    the empty string is not counted at all. *)
Theorem image_adds_at_most_one_page
        (pre post : list Chapter) (c : Chapter) (img : string) (o : PDFOptions) :
  estimatePageCount (pre ++ with_image c None :: post) o
    <= estimatePageCount (pre ++ with_image c (Some img) :: post) o
    <= estimatePageCount (pre ++ with_image c None :: post) o + 1
  /\ estimatePageCount (pre ++ with_image c (Some EmptyString) :: post) o
     = estimatePageCount (pre ++ with_image c None :: post) o.
Proof.
  rewrite !estimate_app, !estimate_cons.
  split; [|reflexivity].
  unfold chapterPages. simpl.
  assert (H : pagesOf (chapterY (with_image c None))
              <= pagesOf (chapterY (with_image c (Some img)))
              <= pagesOf (chapterY (with_image c None)) + 1); [|lia].
  unfold chapterY. simpl. destruct (truthy img); [|lia].
  split.
  - apply pagesOf_mono, flow_mono.
    + induction (split (content c)); constructor; auto.
    + vm_compute. discriminate.
  - unfold pagesOf.
    set (y0 := flow (split (content c)) (0 + 20)%Q).
    rewrite <- (Qceiling_Z (Qceiling (y0 / contentHeightPerPage) + 1)).
    apply Qceiling_resp_le.
    rewrite inject_Z_plus.
    eapply Qle_trans; [|apply Qplus_le_compat; [apply Qle_ceiling|apply Qle_refl]].
    assert (E : (flow (split (content c)) (0 + 20 + (maxLineWidth * 9 / 16 + 10))
                 == y0 + (maxLineWidth * 9 / 16 + 10))%Q) by apply flow_shift.
    rewrite E. unfold Qdiv. rewrite Qmult_plus_distr_l.
    apply Qplus_le_compat; [apply Qle_refl|]. vm_compute. discriminate.
Qed.

(** X4.  A chapter without image whose content is one paragraph (no blank
    line) of at most 20,400 code units is estimated at exactly one page, plus
    the page of its chart if it has one: 30 lines of 7 after the 20 of the
    heading and before the 5 of the gap stay below the 237 of a page. *)
Theorem single_paragraph_fills_one_page (c : Chapter) :
  split (content c) = [content c] ->
  truthy_opt (image c) = false ->
  Z.of_nat (String.length (content c)) <= 20400 ->
  pagesOf (chapterY c) = 1
  /\ chapterPages c = 1 + match chart c with Some _ => 1 | None => 0 end.
Proof.
  intros Hs Hi Hl.
  assert (H1 : pagesOf (chapterY c) = 1); [|split; [exact H1|unfold chapterPages; lia]].
  pose proof (chapterPages_ge_1 (with_chart c None)) as Hge.
  unfold chapterPages in Hge. simpl in Hge.
  change (chapterY (with_chart c None)) with (chapterY c) in Hge.
  assert (Hle : pagesOf (chapterY c) <= 1); [|lia].
  unfold pagesOf. rewrite <- (Qceiling_Z 1). apply Qceiling_resp_le.
  apply Qle_shift_div_r; [reflexivity|].
  unfold chapterY. rewrite Hs, Hi. simpl. unfold paragraphHeight.
  assert (Hlines : lines (content c) <= 30).
  { unfold lines. rewrite <- (Qceiling_Z 30). apply Qceiling_resp_le.
    apply Qle_shift_div_r; [reflexivity|].
    assert (Hz : (inject_Z (Z.of_nat (String.length (content c))) <= inject_Z 20400)%Q)
      by (rewrite <- Zle_Qle; lia).
    eapply Qle_trans; [apply Qmult_le_compat_r; [exact Hz|discriminate]|].
    vm_compute. discriminate. }
  assert (Hq : (inject_Z (lines (content c)) <= inject_Z 30)%Q)
    by (rewrite <- Zle_Qle; exact Hlines).
  eapply Qle_trans.
  - apply Qplus_le_compat; [apply Qle_refl|].
    apply Qplus_le_compat; [|apply Qle_refl].
    apply Qmult_le_compat_r; [exact Hq|discriminate].
  - vm_compute. discriminate.
Qed.

Lemma single_paragraph_fills_one_page_witness :
  split letters = [letters]
  /\ Z.of_nat (String.length letters) <= 20400
  /\ chapterPages (with_content blank_chapter letters) = 1 + 0.
Proof.
  split; [reflexivity|]. split; [vm_compute; discriminate|].
  apply (single_paragraph_fills_one_page (with_content blank_chapter letters));
    [reflexivity|reflexivity|vm_compute; discriminate].
Defined.

End EstimatorExtras.

(* ================================================================== *)
(** * Strings: paragraphs, blank topics and file names                 *)
(* ================================================================== *)

Module StringExtras.
Import JS Pdf Generator Notions.

Lemma join_cons_head (c : ascii) (ps : list string) :
  ps <> [] -> join (cons_head c ps) = String c (join ps).
Proof.
  destruct ps as [|p [|q ps]]; [congruence|reflexivity|reflexivity].
Qed.

Lemma join_empty_first (ps : list string) :
  ps <> [] -> join (EmptyString :: ps) = String LF (String LF (join ps)).
Proof. destruct ps as [|p ps]; [congruence|reflexivity]. Qed.

Lemma split_not_nil (s : string) : split s <> [].
Proof. apply EstimatorFacts.split_nonempty. Qed.

Lemma split_step (c c' : ascii) (s'' : string) :
  split (String c (String c' s''))
  = if Ascii.eqb c LF && Ascii.eqb c' LF
    then EmptyString :: split s''
    else cons_head c (split (String c' s'')).
Proof. reflexivity. Qed.

Lemma split_two_step (s : string) :
  (join (split s) = s
   /\ Forall (fun p => has_blank_line p = false) (split s)
   /\ first_piece_ok s)
  /\ forall c,
      join (split (String c s)) = String c s
      /\ Forall (fun p => has_blank_line p = false) (split (String c s))
      /\ first_piece_ok (String c s).
Proof.
  induction s as [|c' s'' IH].
  - split.
    + split; [reflexivity|]. split; [repeat constructor|reflexivity].
    + intros c. split; [reflexivity|]. split; [repeat constructor|].
      right. now exists EmptyString.
  - destruct IH as [(Hj & Hf & Hh) IHc]. split; [exact (IHc c')|].
    intros c. destruct (IHc c') as (Hj' & Hf' & Hh').
    unfold first_piece_ok. rewrite split_step.
    destruct (Ascii.eqb c LF && Ascii.eqb c' LF) eqn:Hsep.
    + apply andb_true_iff in Hsep. destruct Hsep as [H1 H2].
      apply Ascii.eqb_eq in H1, H2. subst c c'.
      rewrite (join_empty_first _ (split_not_nil s'')), Hj.
      repeat split; [constructor; [reflexivity|exact Hf]|now left].
    + rewrite (join_cons_head _ _ (split_not_nil _)), Hj'.
      split; [reflexivity|].
      unfold first_piece_ok in Hh'.
      destruct (split (String c' s'')) as [|p ps] eqn:Hsp; [contradiction|].
      cbn [cons_head]. inversion Hf' as [|? ? Hp Hps]; subst.
      split; [|right; now exists p].
      constructor; [|exact Hps].
      destruct Hh' as [->|[t ->]]; [reflexivity|].
      cbn [has_blank_line]. rewrite Hsep. exact Hp.
Qed.

(** X5.  The paragraphs that the estimator and the renderer obtain from a
    content, joined again by blank lines, give back the content; no
    paragraph contains a blank line; and a content without blank line is a
    single paragraph. *)
Theorem split_join_roundtrip (s : string) :
  join (split s) = s
  /\ Forall (fun p => has_blank_line p = false) (split s)
  /\ (has_blank_line s = false -> split s = [s]).
Proof.
  destruct (split_two_step s) as [(Hj & Hf & _) _].
  split; [exact Hj|]. split; [exact Hf|].
  induction s as [|c s' IH]; [reflexivity|].
  destruct s' as [|c' s'']; [reflexivity|].
  cbn [has_blank_line]. rewrite split_step. intros H. apply orb_false_iff in H.
  destruct H as [Hsep Hrest]. rewrite Hsep.
  destruct (split_two_step (String c' s'')) as [(Hj' & Hf' & _) _].
  rewrite (IH Hj' Hf' Hrest). reflexivity.
Qed.

Lemma trimStart_empty (s : string) :
  trimStart s = EmptyString <-> all_chars isWhiteSpace s = true.
Proof.
  induction s as [|c s IH]; simpl; [tauto|].
  destruct (isWhiteSpace c); simpl; [exact IH|].
  split; discriminate.
Qed.

Lemma trimStart_head (s : string) :
  match trimStart s with
  | EmptyString => True
  | String c _ => isWhiteSpace c = false
  end.
Proof.
  induction s as [|c s IH]; simpl; [exact I|].
  destruct (isWhiteSpace c) eqn:H; [exact IH|exact H].
Qed.

Lemma trimEnd_head (c : ascii) (s : string) :
  isWhiteSpace c = false -> trimEnd (String c s) <> EmptyString.
Proof.
  intros H. simpl. destruct (trimEnd s); [rewrite H|]; discriminate.
Qed.

(** X6.  The guard [!topic.trim()] of [handleGenerate] treats a topic as
    blank exactly when every code unit of it is white space (the empty topic
    included). *)
Theorem blank_topic_iff_all_white_space (topic : string) :
  truthy (trim topic) = false <-> all_chars isWhiteSpace topic = true.
Proof.
  rewrite <- trimStart_empty. unfold trim.
  pose proof (trimStart_head topic) as Hh.
  destruct (trimStart topic) as [|c t] eqn:Ht.
  - simpl. tauto.
  - split; [|discriminate].
    intros H. exfalso. apply (trimEnd_head c t Hh).
    destruct (trimEnd (String c t)); [reflexivity|discriminate H].
Qed.

Lemma file_char_safe (c : ascii) :
  file_safe (file_char c) = true /\ file_char (file_char c) = file_char c.
Proof.
  destruct c as [b0 b1 b2 b3 b4 b5 b6 b7].
  destruct b0, b1, b2, b3, b4, b5, b6, b7; split; reflexivity.
Qed.

(** X7.  The name under which the PDF is downloaded is made of the letters
    [a-z], the digits and [_] only, has one code unit per code unit of the
    title (before the extension), and cleaning it again changes nothing. *)
Theorem file_stem_is_safe (title : string) :
  all_chars file_safe (file_stem title) = true
  /\ String.length (file_stem title) = String.length title
  /\ file_stem (file_stem title) = file_stem title.
Proof.
  induction title as [|c s (IH1 & IH2 & IH3)]; [repeat split|].
  destruct (file_char_safe c) as [H1 H2]. simpl.
  rewrite H1, IH1, IH2, H2, IH3. repeat split.
Qed.

End StringExtras.

(* ================================================================== *)
(** * Text colour: further properties                                   *)
(* ================================================================== *)

Module ColorExtras.
Import JS Pdf Notions.

Lemma in_all_ascii (c : ascii) : In c all_ascii.
Proof.
  unfold all_ascii. rewrite <- (ascii_nat_embedding c).
  apply in_map, in_seq. pose proof (nat_ascii_bounded c). lia.
Qed.

Lemma one_code_unit_ok :
  forallb (fun c1 => channel_ok (parseInt (String c1 EmptyString) (Some 16)))
          all_ascii = true.
Proof. vm_compute. reflexivity. Qed.

Lemma two_code_units_ok :
  forallb (fun c1 =>
             forallb (fun c2 =>
                        channel_ok (parseInt (String c1 (String c2 EmptyString))
                                             (Some 16)))
                     all_ascii)
          all_ascii = true.
Proof. vm_compute. reflexivity. Qed.

Lemma substring_two (n : nat) (s : string) :
  substring n 2 s = EmptyString
  \/ (exists c1, substring n 2 s = String c1 EmptyString)
  \/ (exists c1 c2, substring n 2 s = String c1 (String c2 EmptyString)).
Proof.
  revert s. induction n as [|n IH]; intros s.
  - destruct s as [|c1 [|c2 s]]; simpl.
    + now left.
    + right. left. now exists c1.
    + right. right. exists c1, c2. now destruct s.
  - destruct s as [|c s]; simpl; [now left|apply IH].
Qed.

Lemma channel_of_slice_ok (n : nat) (s : string) :
  channel_ok (parseInt (substring n 2 s) (Some 16)) = true.
Proof.
  destruct (substring_two n s) as [->|[[c1 ->]|[c1 [c2 ->]]]].
  - reflexivity.
  - pose proof one_code_unit_ok as H. rewrite forallb_forall in H.
    apply H, in_all_ascii.
  - pose proof two_code_units_ok as H. rewrite forallb_forall in H.
    specialize (H c1 (in_all_ascii c1)). rewrite forallb_forall in H.
    apply H, in_all_ascii.
Qed.

(** X8.  Whatever the colour string, each of the three channels handed to
    [setTextColor] is [NaN] or an integer from -15 to 255: never more than
    255, but negative when a pair starts with a minus sign.  The channels
    depend on the code units 1 to 6 only: the first code unit is not checked
    to be [#], and what follows the sixth digit is ignored. *)
Theorem color_channels_range_and_positions (color : string) :
  (let '(r, g, b) := hexChannels color in
   channel_ok r = true /\ channel_ok g = true /\ channel_ok b = true)
  /\ (forall (c0 c0' d1 d2 d3 d4 d5 d6 : ascii) (rest : string),
        hexChannels
          (String c0 (String d1 (String d2 (String d3 (String d4 (String d5
             (String d6 rest)))))))
        = hexChannels
            (String c0' (String d1 (String d2 (String d3 (String d4 (String d5
               (String d6 EmptyString)))))))).
Proof.
  split.
  - unfold hexChannels, slice. cbn [Nat.sub].
    repeat split; apply channel_of_slice_ok.
  - intros. unfold hexChannels, slice. cbn [Nat.sub substring].
    destruct rest; reflexivity.
Qed.

(** A pair that starts with a minus sign gives a negative channel. *)
Example negative_channel :
  hexChannels "#-1-2-3" = (Int (-1), Int (-2), Int (-3)).
Proof. reflexivity. Qed.

End ColorExtras.

(* ================================================================== *)
(** * The requests and the pipeline: further properties                 *)
(* ================================================================== *)

Module PipelineExtras.
Import JS Pdf Async Gemini Generator Samples Notions Editor Progress MoreSamples.
Import GeneratorClaims.

Lemma count_app (P : Request -> bool) (l1 l2 : list Request) :
  count P (l1 ++ l2) = (count P l1 + count P l2)%nat.
Proof. unfold count. now rewrite filter_app, length_app. Qed.

Lemma count_refines (P : Request -> bool) (texts : list string) :
  (forall t, P (RefinePrompt enrich t) = false) ->
  count P (map (RefinePrompt enrich) texts) = 0%nat.
Proof.
  intros H. unfold count. induction texts as [|t ts IH]; [reflexivity|].
  simpl. now rewrite H.
Qed.

Lemma count_only_refines (texts : list string) :
  count is_refine (map (RefinePrompt enrich) texts) = List.length texts.
Proof.
  unfold count. induction texts as [|t ts IH]; [reflexivity|].
  simpl. now rewrite IH.
Qed.

(** X9.  The number of chapters asked of the backend is 2 in prototype
    mode; otherwise, for a page count from 10 to 200, it is the larger of 10
    and a fifth of the page count rounded up: between 10 and 40 chapters, of
    at most 5 pages each. *)
Theorem chapters_asked_for (topic type : string) (t : Z) :
  10 <= t <= 200 ->
  outline_request topic type (Int t) true = OutlinePrompt type topic (Int t) (Int 2)
  /\ exists k : Z,
       outline_request topic type (Int t) false
       = OutlinePrompt type topic (Int t) (Int k)
       /\ 10 <= k <= 40 /\ t <= 5 * k /\ (k = 10 \/ 5 * (k - 1) < t).
Proof.
  intros Ht. split; [reflexivity|].
  exists (Z.max 10 (- (- t / 5))). split; [reflexivity|].
  assert (H1 : 5 * (- t / 5) <= - t < 5 * (- t / 5) + 5).
  { pose proof (Z.div_mod (- t) 5 ltac:(lia)).
    pose proof (Z.mod_pos_bound (- t) 5 ltac:(lia)). lia. }
  lia.
Qed.

Lemma chapters_asked_for_witness :
  exists k : Z,
    outline_request "Productivity" "Business" (Int 47) false
    = OutlinePrompt "Business" "Productivity" (Int 47) (Int k)
    /\ 10 <= k <= 40 /\ 47 <= 5 * k /\ (k = 10 \/ 5 * (k - 1) < 47).
Proof.
  exact (proj2 (chapters_asked_for "Productivity" "Business" 47
                  (conj (Zle_bool_imp_le 10 47 eq_refl)
                        (Zle_bool_imp_le 47 200 eq_refl)))).
Defined.

(** Unfolding of the wrappers, then of the setters, then of the monad. *)
Ltac run :=
  unfold content_at, refineText, generateFAQ, generateImage,
    generateChapterContent, generateOutline, generateMarketingAssets,
    not_awaited, ai_generateContent in *;
  unfold setState, setGeneratedChapters, setError, setOutline, setActiveTab,
    setCurrentChapterIndex, setEstimatedPages, setMarketingAssets,
    setFileSizeMB, setHistory, download, set_ui, call in *;
  unfold modify, zoom, try_catch, bind, ret, throw, pending in *;
  cbn [fst snd net ui downloads world calls] in *.

Section AnyBackend.

Variable World : Type.
Variable generateContent :
  Request -> World -> (exn + GenerateContentResponse) * World.
Variable JSON_parse : string -> option EbookOutline.
Variable createPDF : option string -> list Chapter -> PDFOptions -> exn + Z.

Lemma first_inline_truthy (ps : list Part) (url : string) :
  first_inline ps = Some url ->
  truthy url = true /\ exists rest, url = "data:" ++ rest.
Proof.
  induction ps as [|part ps IH]; simpl; [discriminate|].
  destruct (inlineData part) as [d|]; [|exact IH].
  intros H. injection H as <-. split; [reflexivity|].
  now exists (mimeType d ++ ";base64," ++ data d).
Qed.

(** X10.  [generateImage] sends one request and either throws (the
    rejection of the backend, or its own error when no part of the answer
    carries inline data) or returns a data URL, which is never the empty
    string: an image that the pipeline stores is always counted by the
    estimator. *)
Theorem generateImage_returns_a_data_url
        (prompt : option string) (style : string) (n : Net World) :
  let out := generateImage World generateContent prompt style n in
  calls (snd out) = (calls n ++ [ImagePrompt prompt style])%list
  /\ match fst out with
     | Ok url => truthy url = true /\ exists rest, url = "data:" ++ rest
     | Throw e =>
         fst (generateContent (ImagePrompt prompt style) (world n)) = inl e
         \/ e = Error msg_image
     | Pending => False
     end.
Proof.
  cbv zeta. run.
  destruct (generateContent (ImagePrompt prompt style) (world n))
    as [[e|response] w]; cbn [fst snd calls].
  - split; [reflexivity|now left].
  - destruct (first_inline match parts response with Some ps => ps | None => [] end)
      as [url|] eqn:Hurl; cbn [fst snd calls].
    + split; [reflexivity|exact (first_inline_truthy _ _ Hurl)].
    + split; [reflexivity|now right].
Qed.

Lemma enrich_while_prototype (fuel : nat) (chapters : list Chapter)
      (chapterTitle : option string) (i : nat) (pagesPerChapter : number)
      (o : PDFOptions) (content : string) (est : Z) (n : Net World) :
  enrich_while World generateContent fuel true chapters chapterTitle i
               pagesPerChapter o content est n = (Ok content, n).
Proof. destruct fuel; reflexivity. Qed.

Lemma enrich_while_calls (fuel : nat) (proto : bool) (chapters : list Chapter)
      (chapterTitle : option string) (i : nat) (pagesPerChapter : number)
      (o : PDFOptions) :
  forall (content : string) (est : Z) (n : Net World),
  exists texts : list string,
    calls (snd (enrich_while World generateContent fuel proto chapters chapterTitle
                             i pagesPerChapter o content est n))
    = (calls n ++ map (RefinePrompt enrich) texts)%list
    /\ (List.length texts <= fuel)%nat
    /\ match texts with [] => True | t :: _ => t = content end.
Proof.
  induction fuel as [|fuel IH]; intros content est n; cbn [enrich_while].
  - exists []. cbn. split; [|split; [lia|exact I]].
    destruct (_ && _); cbn; now rewrite app_nil_r.
  - destruct (_ && _).
    + run.
      destruct (generateContent (RefinePrompt enrich content) (world n))
        as [[e|response] w]; cbn [fst snd calls].
      * exists [content]. cbn. split; [reflexivity|split; [lia|reflexivity]].
      * match goal with
        | |- context [enrich_while _ _ fuel _ _ _ _ _ _ ?c ?e ?m] =>
            destruct (IH c e m) as (texts & Hc & Hl & _)
        end.
        exists (content :: texts). rewrite Hc. cbn [calls map List.length].
        rewrite <- app_assoc. split; [reflexivity|split; [lia|reflexivity]].
    + exists []. cbn. split; [now rewrite app_nil_r|split; [lia|exact I]].
Qed.

(** X11.  When the enrichment loop ends normally, entered with the
    estimate of the content it was given, its exit condition holds for the
    content it returns: the run is in prototype mode, or the estimate with
    that content is no longer below the target of the chapter, or the content
    has 15,000 code units or more. *)
Theorem enrich_while_exit_condition
        (fuel : nat) (proto : bool) (chapters : list Chapter)
        (chapterTitle : option string) (i : nat) (pagesPerChapter : number)
        (o : PDFOptions) :
  forall (content : string) (est : Z) (n : Net World) (content' : string),
    est = estimatePageCount (chapters ++ [mkChapter chapterTitle content None]) o ->
    fst (enrich_while World generateContent fuel proto chapters chapterTitle i
                      pagesPerChapter o content est n) = Ok content' ->
    proto = true
    \/ ltb (Int (estimatePageCount
                   (chapters ++ [mkChapter chapterTitle content' None]) o))
           (mul (Int (Z.of_nat i + 1)) pagesPerChapter) = false
    \/ 15000 <= Z.of_nat (String.length content').
Proof.
  induction fuel as [|fuel IH]; intros content est n content' Hest;
    cbn [enrich_while].
  - destruct proto; [now left|]. cbn [negb andb].
    destruct (ltb (Int est) _) eqn:Hlt; cbn [andb].
    + destruct (Z.of_nat (String.length content) <? 15000) eqn:Hlen;
        cbn; intros H; [discriminate H|].
      injection H as <-. right. right. apply Z.ltb_ge. exact Hlen.
    + cbn. intros H. injection H as <-. right. left. now rewrite <- Hest.
  - destruct proto; [now left|]. cbn [negb andb].
    destruct (ltb (Int est) _) eqn:Hlt; cbn [andb].
    + destruct (Z.of_nat (String.length content) <? 15000) eqn:Hlen.
      * run.
        destruct (generateContent (RefinePrompt enrich content) (world n))
          as [[e|response] w]; cbn [fst snd]; [discriminate|].
        intros H. eapply IH in H; [|reflexivity].
        destruct H as [H|H]; [discriminate H|now right].
      * cbn. intros H. injection H as <-. right. right.
        apply Z.ltb_ge. exact Hlen.
    + cbn. intros H. injection H as <-. right. left. now rewrite <- Hest.
Qed.

(** X12.  The enrichment loop sends nothing but enrichment requests, as
    many as it makes iterations, the first of them on the content it was
    given; in prototype mode it sends none and returns that content. *)
Theorem enrich_while_only_enriches
        (fuel : nat) (proto : bool) (chapters : list Chapter)
        (chapterTitle : option string) (i : nat) (pagesPerChapter : number)
        (o : PDFOptions) (content : string) (est : Z) (n : Net World) :
  let out := enrich_while World generateContent fuel proto chapters chapterTitle i
                          pagesPerChapter o content est n in
  (exists texts : list string,
      calls (snd out) = (calls n ++ map (RefinePrompt enrich) texts)%list
      /\ (List.length texts <= fuel)%nat
      /\ match texts with [] => True | t :: _ => t = content end)
  /\ (proto = true -> out = (Ok content, n)).
Proof.
  cbv zeta. split; [apply enrich_while_calls|].
  intros ->. apply enrich_while_prototype.
Qed.

End AnyBackend.

Lemma enrich_while_exit_condition_witness :
  3 = estimatePageCount ([] ++ [mkChapter (Some "One") nearly_full None]) sample_options
  /\ fst (enrich_while unit wordy 5 false [] (Some "One") 0 (Int 4) sample_options
                       nearly_full 3 {| world := tt; calls := [] |})
     = Ok (nearly_full ++ "x")
  /\ (false = true
      \/ ltb (Int (estimatePageCount
                     ([] ++ [mkChapter (Some "One") (nearly_full ++ "x") None])
                     sample_options))
             (mul (Int (Z.of_nat 0 + 1)) (Int 4)) = false
      \/ 15000 <= Z.of_nat (String.length (nearly_full ++ "x"))).
Proof.
  split; [reflexivity|]. split; [reflexivity|].
  apply (enrich_while_exit_condition unit wordy 5 false [] (Some "One") 0 (Int 4)
           sample_options nearly_full 3 {| world := tt; calls := [] |}
           (nearly_full ++ "x"));
    reflexivity.
Defined.

End PipelineExtras.

(* ================================================================== *)
(** * A run of [handleGenerate]: further properties                     *)
(* ================================================================== *)

Module RunExtras.
Import JS Pdf Async Gemini Generator Samples Notions Editor Progress MoreSamples.
Import GeneratorClaims PipelineExtras.

Ltac run :=
  unfold content_at, refineText, generateFAQ, generateImage,
    generateChapterContent, generateOutline, generateMarketingAssets,
    not_awaited, ai_generateContent in *;
  unfold setState, setGeneratedChapters, setError, setOutline, setActiveTab,
    setCurrentChapterIndex, setEstimatedPages, setMarketingAssets,
    setFileSizeMB, setHistory, download, set_ui, call in *;
  unfold modify, zoom, try_catch, bind, ret, throw, pending in *;
  cbn [fst snd net ui downloads world calls] in *.

(** The same, leaving the call that is not awaited folded. *)
Ltac run_body :=
  unfold generateOutline, ai_generateContent in *;
  unfold setState, setGeneratedChapters, setError, setOutline, setActiveTab,
    setCurrentChapterIndex, setEstimatedPages, setMarketingAssets,
    setFileSizeMB, setHistory, download, set_ui, call in *;
  unfold modify, zoom, try_catch, bind, ret, throw, pending in *;
  cbn [fst snd net ui downloads world calls] in *.

Ltac conjs :=
  repeat match goal with |- _ /\ _ => split end;
  try reflexivity; try (intros; discriminate).

Section AnyBackend.

Variable World : Type.
Variable generateContent :
  Request -> World -> (exn + GenerateContentResponse) * World.
Variable JSON_parse : string -> option EbookOutline.
Variable createPDF : option string -> list Chapter -> PDFOptions -> exn + Z.

Lemma illustrate_spec (proto : bool) (i : nat) (chapterTitle : option string)
      (style : string) (n : Net World) :
  exists image : option string,
    fst (illustrate World generateContent proto i chapterTitle style n) = Ok image
    /\ match image with Some u => truthy u = true | None => True end
    /\ calls (snd (illustrate World generateContent proto i chapterTitle style n))
       = (calls n ++ (if due proto i then [ImagePrompt chapterTitle style] else []))%list.
Proof.
  unfold illustrate, due.
  destruct (Z.of_nat i mod (if proto then 1 else 3) =? 0).
  - run.
    destruct (generateContent (ImagePrompt chapterTitle style) (world n))
      as [[e|response] w]; cbn [fst snd calls].
    + exists None. repeat split.
    + destruct (first_inline match parts response with Some ps => ps | None => [] end)
        as [url|] eqn:Hurl; cbn [fst snd calls].
      * exists (Some url). split; [reflexivity|]. split; [|reflexivity].
        exact (proj1 (first_inline_truthy _ _ Hurl)).
      * exists None. repeat split.
  - run. exists None. cbn. rewrite app_nil_r. repeat split.
Qed.

(** What the first half of the body of the loop does to the state and to
    the log of requests. *)
Lemma chapter_text_spec (fuel : nat) (p : UI) (generatedOutline : EbookOutline)
      (pagesPerChapter : number) (chapterOutline : ChapterPlan) (i : nat)
      (chapters : list Chapter) (s : Run World) :
  let out := chapter_text World generateContent fuel p generatedOutline
                          pagesPerChapter chapterOutline i chapters s in
  ui (snd out) = with_currentChapterIndex i (ui s)
  /\ downloads (snd out) = downloads s
  /\ (isPrototype p = true -> fst out <> Pending)
  /\ exists l : list Request,
       calls (net (snd out)) = (calls (net s) ++ l)%list
       /\ (isPrototype p = true -> count is_refine l = 0%nat)
       /\ count is_image l = 0%nat
       /\ (forall c, fst out = Ok c -> count is_chapter l = 1%nat).
Proof.
  cbv zeta. unfold chapter_text.
  destruct (sections chapterOutline) as [ss|].
  - run.
    destruct (generateContent _ (world (net s))) as [[e|response] w];
      cbn [fst snd net ui downloads calls world].
    + conjs. eexists. split; [reflexivity|]. conjs.
    + match goal with
      | |- context [enrich_while _ _ fuel ?pr ?ch ?t ?i ?ppc ?o ?c ?e ?m] =>
          destruct (enrich_while_calls World generateContent fuel pr ch t i ppc o c e m)
            as (texts & Hc & _ & _);
          pose proof (enrich_while_prototype World generateContent fuel ch t i ppc o c e m)
            as Hp;
          destruct (enrich_while World generateContent fuel pr ch t i ppc o c e m)
            as [res n'] eqn:He
      end.
      cbn [fst snd net ui downloads calls world] in *.
      conjs.
      * intros Hproto. rewrite Hproto in He, Hp. rewrite Hp in He.
        injection He as <- _. discriminate.
      * exists (ChapterPrompt (plan_title chapterOutline)
                  (outline_title generatedOutline) (map section_title ss)
                  (if isPrototype p then Int 300 else mul pagesPerChapter (Int 450))
                :: map (RefinePrompt enrich) texts).
        rewrite Hc. rewrite <- app_assoc. split; [reflexivity|].
        split; [|split].
        -- intros Hproto. rewrite Hproto in He, Hp. rewrite Hp in He.
           injection He as _ <-. cbn [calls] in Hc.
           assert (Hnil : texts = []).
           { destruct texts; [reflexivity|].
             apply (f_equal (@List.length Request)) in Hc.
             rewrite !length_app, length_map in Hc.
             cbn [List.length] in Hc. lia. }
           subst texts. reflexivity.
        -- change (count is_image (?a :: ?l)) with (count is_image l).
           apply count_refines. reflexivity.
        -- intros _ _.
           change (count is_chapter (?a :: ?l)) with (S (count is_chapter l)).
           f_equal. apply count_refines. reflexivity.
  - run. conjs. exists []. rewrite app_nil_r. conjs.
Qed.

(** What the whole body of the loop does. *)
Lemma chapter_body_spec (fuel : nat) (p : UI) (generatedOutline : EbookOutline)
      (pagesPerChapter : number) (chapterOutline : ChapterPlan) (i : nat)
      (chapters : list Chapter) (s : Run World) :
  let out := chapter_body World generateContent fuel p generatedOutline
                          pagesPerChapter chapterOutline i chapters s in
  downloads (snd out) = downloads s
  /\ (isPrototype p = true -> fst out <> Pending)
  /\ (exists l : list Request,
        calls (net (snd out)) = (calls (net s) ++ l)%list
        /\ (isPrototype p = true -> count is_refine l = 0%nat)
        /\ (forall chs, fst out = Ok chs ->
            count is_chapter l = 1%nat
            /\ count is_image l = if due (isPrototype p) i then 1%nat else 0%nat))
  /\ match fst out with
     | Ok chs =>
         exists (content : string) (image : option string),
           chs = (chapters ++ [mkChapter (plan_title chapterOutline) content image])%list
           /\ match image with Some u => truthy u = true | None => True end
           /\ ui (snd out)
              = with_estimatedPages (estimatePageCount chs (pdfOptions p))
                  (with_generatedChapters chs (with_currentChapterIndex i (ui s)))
     | _ => ui (snd out) = with_currentChapterIndex i (ui s)
     end.
Proof.
  cbv zeta.
  pose proof (chapter_text_spec fuel p generatedOutline pagesPerChapter chapterOutline
                i chapters s) as Ht.
  cbv zeta in Ht.
  destruct (chapter_body World generateContent fuel p generatedOutline
              pagesPerChapter chapterOutline i chapters s) as [res s2] eqn:Hout.
  unfold chapter_body in Hout. unfold bind at 1 in Hout.
  destruct (chapter_text World generateContent fuel p generatedOutline
              pagesPerChapter chapterOutline i chapters s)
    as [[content|e|] s1] eqn:Htext;
    cbn [fst snd] in Ht;
    destruct Ht as (Hui & Hdl & Hpend & l & Hcalls & Href & Himg & Hch).
  - destruct (illustrate_spec (isPrototype p) i (plan_title chapterOutline)
                (imageStyle p) (net s1)) as (image & Hok & Htruthy & Hic).
    run.
    destruct (illustrate World generateContent (isPrototype p) i
                (plan_title chapterOutline) (imageStyle p) (net s1))
      as [ri ni] eqn:Hill.
    cbn [fst snd] in Hok, Hic. subst ri.
    injection Hout as <- <-.
    cbn [fst snd net ui downloads calls world].
    split; [exact Hdl|]. split; [intros; discriminate|]. split.
    + exists (l ++ (if due (isPrototype p) i
                    then [ImagePrompt (plan_title chapterOutline) (imageStyle p)]
                    else []))%list.
      rewrite Hic, Hcalls, app_assoc. split; [reflexivity|]. split.
      * intros Hp. rewrite count_app, (Href Hp). now destruct (due _ _).
      * intros chs _. rewrite !count_app, (Hch content eq_refl), Himg.
        destruct (due _ _); split; reflexivity.
    + exists content, image. split; [reflexivity|]. split; [exact Htruthy|].
      now rewrite Hui.
  - injection Hout as <- <-. cbn [fst snd].
    split; [exact Hdl|]. split; [intros; discriminate|]. split.
    + exists l. split; [exact Hcalls|]. split; [exact Href|]. intros; discriminate.
    + exact Hui.
  - injection Hout as <- <-. cbn [fst snd].
    split; [exact Hdl|].
    split; [intros Hp _; now apply (Hpend Hp)|]. split.
    + exists l. split; [exact Hcalls|]. split; [exact Href|]. intros; discriminate.
    + exact Hui.
Qed.

Lemma title_mk (t : option string) (c : string) (i : option string) :
  title (mkChapter t c i) = t.
Proof. reflexivity. Qed.

(** What the loop over the chapters does, entered with the chapters made
    so far in the state. *)
Lemma for_chapters_spec (fuel : nat) (p : UI) (generatedOutline : EbookOutline)
      (pagesPerChapter : number) (plans : list ChapterPlan) :
  forall (i : nat) (chapters : list Chapter) (s : Run World) (e0 : Z),
    generatedChapters (ui s) = chapters ->
    (chapters = [] /\ estimatedPages (ui s) = e0
     \/ chapters <> []
        /\ estimatedPages (ui s) = estimatePageCount chapters (pdfOptions p)) ->
    Forall image_counts chapters ->
    let out := for_chapters World generateContent fuel p generatedOutline
                            pagesPerChapter plans i chapters s in
    let made := generatedChapters (ui (snd out)) in
    erase_progress (ui (snd out)) = erase_progress (ui s)
    /\ downloads (snd out) = downloads s
    /\ (isPrototype p = true -> fst out <> Pending)
    /\ (exists l : list Request,
          calls (net (snd out)) = (calls (net s) ++ l)%list
          /\ (isPrototype p = true -> count is_refine l = 0%nat)
          /\ (forall chs, fst out = Ok chs ->
              count is_chapter l = List.length plans
              /\ count is_image l = due_count (isPrototype p) i (List.length plans)))
    /\ (exists k : nat,
          (k <= List.length plans)%nat
          /\ map title made
             = (map title chapters ++ map plan_title (firstn k plans))%list
          /\ (forall chs, fst out = Ok chs -> k = List.length plans))
    /\ (made = [] /\ estimatedPages (ui (snd out)) = e0
        \/ made <> []
           /\ estimatedPages (ui (snd out)) = estimatePageCount made (pdfOptions p))
    /\ Forall image_counts made
    /\ (forall chs, fst out = Ok chs -> chs = made).
Proof.
  induction plans as [|plan plans IH]; intros i chapters s e0 Hgc Hest Himg;
    cbv zeta.
  - cbn [for_chapters]. unfold ret. cbn [fst snd]. rewrite Hgc.
    split; [reflexivity|]. split; [reflexivity|]. split; [intros; discriminate|].
    split.
    { exists []. rewrite app_nil_r. split; [reflexivity|]. split; [reflexivity|].
      intros _ _. split; reflexivity. }
    split.
    { exists 0%nat. cbn. rewrite app_nil_r. split; [lia|]. split; reflexivity. }
    split; [exact Hest|]. split; [exact Himg|].
    intros chs H. now injection H as <-.
  - pose proof (chapter_body_spec fuel p generatedOutline pagesPerChapter plan i
                  chapters s) as Hb.
    cbv zeta in Hb.
    destruct (for_chapters World generateContent fuel p generatedOutline
                pagesPerChapter (plan :: plans) i chapters s) as [res s2] eqn:Hout.
    cbn [for_chapters] in Hout. unfold bind at 1 in Hout.
    destruct (chapter_body World generateContent fuel p generatedOutline
                pagesPerChapter plan i chapters s) as [[chs1|e|] s1] eqn:Hbody;
      cbn [fst snd] in Hb;
      destruct Hb as (Hdl & Hpend & (l & Hcalls & Href & Hcnt) & Hres).
    + destruct Hres as (content & image & Hchs & Htruthy & Hui).
      assert (Hgc1 : generatedChapters (ui s1) = chs1) by now rewrite Hui.
      assert (Hest1 : chs1 = [] /\ estimatedPages (ui s1) = e0
                      \/ chs1 <> []
                         /\ estimatedPages (ui s1)
                            = estimatePageCount chs1 (pdfOptions p)).
      { right. split; [rewrite Hchs; now destruct chapters|now rewrite Hui]. }
      assert (Himg1 : Forall image_counts chs1).
      { rewrite Hchs. apply Forall_app. split; [exact Himg|].
        constructor; [exact Htruthy|constructor]. }
      specialize (IH (S i) chs1 s1 e0 Hgc1 Hest1 Himg1). cbv zeta in IH.
      rewrite Hout in IH. cbn [fst snd] in IH |- *.
      destruct IH as (He & Hd & Hp & (l2 & Hc2 & Hr2 & Hn2) & (k & Hk & Hmap & Hkk)
                      & Hest2 & Himg2 & Hok).
      split; [rewrite He, Hui; reflexivity|].
      split; [now rewrite Hd|]. split; [exact Hp|]. split.
      { exists (l ++ l2)%list. rewrite Hc2, Hcalls, app_assoc.
        split; [reflexivity|]. split.
        - intros Hpr. now rewrite count_app, (Href Hpr), (Hr2 Hpr).
        - intros chs Hchs'. destruct (Hcnt chs1 eq_refl) as [H1 H2].
          destruct (Hn2 chs Hchs') as [H3 H4].
          rewrite !count_app, H1, H2, H3, H4. cbn [List.length due_count].
          split; reflexivity. }
      split.
      { exists (S k). cbn [List.length firstn map]. split; [lia|]. split.
        - rewrite Hmap, Hchs, map_app. cbn [map]. rewrite title_mk.
          now rewrite <- app_assoc.
        - intros chs Hchs'. now rewrite (Hkk chs Hchs'). }
      split; [exact Hest2|]. split; [exact Himg2|exact Hok].
    + injection Hout as <- <-. cbn [fst snd].
      split; [now rewrite Hres|]. split; [exact Hdl|].
      split; [intros; discriminate|]. split.
      { exists l. split; [exact Hcalls|]. split; [exact Href|]. intros; discriminate. }
      split.
      { exists 0%nat. cbn. rewrite app_nil_r, Hres. cbn. rewrite Hgc.
        split; [lia|]. split; [reflexivity|intros; discriminate]. }
      rewrite Hres. cbn. rewrite Hgc.
      split; [exact Hest|]. split; [exact Himg|intros; discriminate].
    + injection Hout as <- <-. cbn [fst snd].
      split; [now rewrite Hres|]. split; [exact Hdl|]. split; [exact Hpend|]. split.
      { exists l. split; [exact Hcalls|]. split; [exact Href|]. intros; discriminate. }
      split.
      { exists 0%nat. cbn. rewrite app_nil_r, Hres. cbn. rewrite Hgc.
        split; [lia|]. split; [reflexivity|intros; discriminate]. }
      rewrite Hres. cbn. rewrite Hgc.
      split; [exact Hest|]. split; [exact Himg|intros; discriminate].
Qed.

Lemma erase_fields (u v : UI) :
  erase_progress u = erase_progress v ->
  activeTab u = activeTab v /\ state u = state v /\ error u = error v
  /\ outline u = outline v /\ history u = history v.
Proof.
  intros H.
  pose proof (f_equal activeTab H) as H1. pose proof (f_equal state H) as H2.
  pose proof (f_equal error H) as H3. pose proof (f_equal outline H) as H4.
  pose proof (f_equal history H) as H5.
  cbn in H1, H2, H3, H4, H5. auto.
Qed.

Lemma not_awaited_marketing (topic : string) (ebookTitle : option string)
      (n : Net World) :
  not_awaited World (generateMarketingAssets World generateContent topic ebookTitle) n
  = (Ok tt,
     {| world := snd (generateContent (MarketingPrompt ebookTitle topic) (world n));
        calls := calls n ++ [MarketingPrompt ebookTitle topic] |}).
Proof.
  unfold not_awaited, generateMarketingAssets, ai_generateContent, bind, ret.
  destruct (generateContent (MarketingPrompt ebookTitle topic) (world n))
    as [[e|response] w]; reflexivity.
Qed.

(** What the [try] block of [handleGenerate] does, entered with no chapter
    in the state. *)
Lemma generate_body_spec (fuel : nat) (p : UI) (finalTarget : number)
      (s0 : Run World) :
  generatedChapters (ui s0) = [] ->
  let request :=
    outline_request (topic p) (ebookType p) finalTarget (isPrototype p) in
  let out := generate_body World generateContent JSON_parse createPDF fuel p
                           finalTarget s0 in
  let f := ui (snd out) in
  let made := generatedChapters f in
  error f = error (ui s0)
  /\ (made = [] /\ estimatedPages f = estimatedPages (ui s0)
      \/ made <> [] /\ estimatedPages f = estimatePageCount made (pdfOptions p))
  /\ Forall image_counts made
  /\ (isPrototype p = true -> fst out <> Pending)
  /\ (exists l : list Request,
        calls (net (snd out)) = (calls (net s0) ++ request :: l)%list
        /\ (isPrototype p = true -> count is_refine l = 0%nat))
  /\ match fst out with
     | Ok _ =>
         state f = S_done /\ activeTab f = T_editor
         /\ exists (o : EbookOutline) (plans : list ChapterPlan) (t : string),
              outline f = Some o /\ Gemini.chapters o = Some plans
              /\ outline_title o = Some t
              /\ map title made = map plan_title plans
              /\ history f
                 = {| entry_title := Some t; entry_chapters := made;
                      entry_pages := finalTarget |} :: history p
              /\ downloads (snd out) = (downloads s0 ++ [(file_stem t ++ ".pdf")%string])%list
              /\ exists l : list Request,
                   calls (net (snd out))
                   = (calls (net s0)
                      ++ request :: l ++ [MarketingPrompt (Some t) (topic p)])%list
                   /\ count is_chapter l = List.length plans
                   /\ count is_image l
                      = due_count (isPrototype p) 0 (List.length plans)
                   /\ (isPrototype p = true -> count is_refine l = 0%nat)
     | Throw e =>
         history f = history (ui s0)
         /\ downloads (snd out) = downloads s0
         /\ activeTab f = activeTab (ui s0)
         /\ (made = []
             \/ exists (o : EbookOutline) (plans : list ChapterPlan) (k : nat),
                  outline f = Some o /\ Gemini.chapters o = Some plans
                  /\ (k <= List.length plans)%nat
                  /\ map title made = map plan_title (firstn k plans))
     | Pending => state f = S_content
     end.
Proof.
  intros Hgc. cbv zeta.
  destruct (generate_body World generateContent JSON_parse createPDF fuel p
              finalTarget s0) as [res sf] eqn:Hout.
  unfold generate_body in Hout. run_body.
  destruct (generateContent
              (outline_request (topic p) (ebookType p) finalTarget (isPrototype p))
              (world (net s0))) as [[e|response] w].
  { injection Hout as <- <-. cbn. rewrite Hgc.
    split; [reflexivity|]. split; [left; split; reflexivity|]. split; [constructor|].
    split; [intros; discriminate|]. split.
    - exists []. split; [reflexivity|reflexivity].
    - split; [reflexivity|]. split; [reflexivity|]. split; [reflexivity|now left]. }
  destruct (JSON_parse (or_else (text response) "{}")) as [o|].
  2:{ injection Hout as <- <-. cbn. rewrite Hgc.
      split; [reflexivity|]. split; [left; split; reflexivity|]. split; [constructor|].
      split; [intros; discriminate|]. split.
      - exists []. split; [reflexivity|reflexivity].
      - split; [reflexivity|]. split; [reflexivity|]. split; [reflexivity|now left]. }
  cbn [fst snd net ui downloads calls world] in Hout.
  destruct (Gemini.chapters o) as [plans|] eqn:Hplans.
  2:{ injection Hout as <- <-. cbn. rewrite Hgc.
      split; [reflexivity|]. split; [left; split; reflexivity|]. split; [constructor|].
      split; [intros; discriminate|]. split.
      - exists []. split; [reflexivity|reflexivity].
      - split; [reflexivity|]. split; [reflexivity|]. split; [reflexivity|now left]. }
  cbn [fst snd net ui downloads calls world] in Hout.
  match type of Hout with
  | context [for_chapters _ _ fuel p o ?ppc plans 0 [] ?s2] =>
      pose proof (for_chapters_spec fuel p o ppc plans 0 [] s2
                    (estimatedPages (ui s0)) Hgc
                    (or_introl (conj eq_refl eq_refl)) (Forall_nil _)) as Hfor;
      destruct (for_chapters World generateContent fuel p o ppc plans 0 [] s2)
        as [[chs|e|] s3] eqn:Hloop
  end;
    cbv zeta in Hfor; cbn [fst snd net ui downloads calls world] in Hfor;
    destruct Hfor as (He & Hd & Hp & (l & Hc & Hr & Hn) & (k & Hk & Hmap & Hkk)
                      & Hest & Himg & Hok);
    destruct (erase_fields _ _ He) as (Ftab & Fstate & Ferr & Fout & Fhist);
    cbn in Ftab, Fstate, Ferr, Fout, Fhist; cbn [map app] in Hmap.
  - (* the loop completed *)
    specialize (Hok chs eq_refl). specialize (Hkk chs eq_refl).
    destruct (Hn chs eq_refl) as [Hn1 Hn2]. subst k.
    rewrite firstn_all in Hmap.
    cbn [fst snd net ui downloads calls world] in Hout.
    rewrite not_awaited_marketing in Hout.
    cbn [fst snd net ui downloads calls world] in Hout.
    destruct (createPDF (outline_title o) chs (pdfOptions p)) as [e|size].
    + injection Hout as <- <-. cbn.
      split; [exact Ferr|]. split; [exact Hest|]. split; [exact Himg|].
      split; [intros; discriminate|]. split.
      * exists (l ++ [MarketingPrompt (outline_title o) (topic p)])%list.
        rewrite Hc, <- !app_assoc. split; [reflexivity|].
        intros Hpr. rewrite count_app, (Hr Hpr). reflexivity.
      * split; [exact Fhist|]. split; [exact Hd|]. split; [exact Ftab|].
        right. exists o, plans, (List.length plans).
        rewrite Fout, firstn_all. auto.
    + cbn [fst snd net ui downloads calls world] in Hout.
      destruct (outline_title o) as [t|] eqn:Htitle.
      * injection Hout as <- <-. cbn.
        split; [exact Ferr|]. split; [exact Hest|]. split; [exact Himg|].
        split; [intros; discriminate|]. split.
        -- exists (l ++ [MarketingPrompt (Some t) (topic p)])%list.
           rewrite Hc, <- !app_assoc. split; [reflexivity|].
           intros Hpr. rewrite count_app, (Hr Hpr). reflexivity.
        -- split; [reflexivity|]. split; [reflexivity|].
           exists o, plans, t. rewrite Fout, Hok, Hd.
           split; [reflexivity|]. split; [exact Hplans|]. split; [exact Htitle|].
           split; [exact Hmap|]. split; [reflexivity|]. split; [reflexivity|].
           exists l. rewrite Hc, <- !app_assoc.
           split; [reflexivity|]. split; [exact Hn1|]. split; [exact Hn2|exact Hr].
      * injection Hout as <- <-. cbn.
        split; [exact Ferr|]. split; [exact Hest|]. split; [exact Himg|].
        split; [intros; discriminate|]. split.
        -- exists (l ++ [MarketingPrompt None (topic p)])%list.
           rewrite Hc, <- !app_assoc. split; [reflexivity|].
           intros Hpr. rewrite count_app, (Hr Hpr). reflexivity.
        -- split; [exact Fhist|]. split; [exact Hd|]. split; [exact Ftab|].
           right. exists o, plans, (List.length plans).
           rewrite Fout, firstn_all. auto.
  - (* the loop threw *)
    injection Hout as <- <-. cbn.
    split; [exact Ferr|]. split; [exact Hest|]. split; [exact Himg|].
    split; [intros; discriminate|]. split.
    + exists l. split; [rewrite Hc, <- app_assoc; reflexivity|exact Hr].
    + split; [exact Fhist|]. split; [exact Hd|]. split; [exact Ftab|].
      right. exists o, plans, k. rewrite Fout. auto.
  - (* the loop is still running *)
    injection Hout as <- <-. cbn.
    split; [exact Ferr|]. split; [exact Hest|]. split; [exact Himg|].
    split; [intros Hpr _; now apply (Hp Hpr)|]. split.
    + exists l. split; [rewrite Hc, <- app_assoc; reflexivity|exact Hr].
    + exact Fstate.
Qed.

Lemma or_else_truthy (a : option string) (b : string) :
  truthy b = true -> truthy (or_else a b) = true.
Proof.
  intros H. destruct a as [x|]; [|exact H]. cbn.
  destruct (truthy x) eqn:Hx; [exact Hx|exact H].
Qed.

Lemma handleGenerate_accepted (fuel : nat) (r : Run World) :
  accepted (ui r) = true ->
  handleGenerate World generateContent JSON_parse createPDF fuel r
  = try_catch
      (generate_body World generateContent JSON_parse createPDF fuel (ui r)
                     (finalTarget_of (ui r)))
      (fun err =>
         bind (setError World (Some (or_else (Some (message err)) msg_generic)))
              (fun _ => setState World S_error))
      {| net := net r; ui := reset_ui (ui r); downloads := downloads r |}.
Proof.
  unfold accepted. intros H. apply andb_true_iff in H. destruct H as [Ht Hr].
  apply negb_true_iff in Hr.
  unfold handleGenerate. rewrite Ht, Hr. reflexivity.
Qed.

Lemma handleGenerate_not_accepted (fuel : nat) (r : Run World) :
  accepted (ui r) = false ->
  fst (handleGenerate World generateContent JSON_parse createPDF fuel r) = Ok tt
  /\ net (snd (handleGenerate World generateContent JSON_parse createPDF fuel r))
     = net r.
Proof.
  unfold accepted, handleGenerate. intros H.
  destruct (truthy (trim (topic (ui r)))); [|split; reflexivity].
  cbn [andb negb] in H. apply negb_false_iff in H. rewrite H. split; reflexivity.
Qed.

(** X13.  [handleGenerate] never rejects: every exception is caught.  On an
    accepted form, when it completes it leaves either the state [done] with
    no error, or the state [error] with an error message that is not empty;
    it can be still running (in the state [content]) only outside prototype
    mode. *)
Theorem handleGenerate_never_rejects (fuel : nat) (r : Run World) :
  let out := handleGenerate World generateContent JSON_parse createPDF fuel r in
  let f := ui (snd out) in
  (forall e, fst out <> Throw e)
  /\ (accepted (ui r) = true ->
      match fst out with
      | Ok _ =>
          (state f = S_done /\ error f = None)
          \/ (state f = S_error
              /\ exists msg, error f = Some msg /\ truthy msg = true)
      | Throw _ => False
      | Pending => state f = S_content /\ isPrototype (ui r) = false
      end).
Proof.
  cbv zeta.
  destruct (accepted (ui r)) eqn:Hacc.
  - rewrite (handleGenerate_accepted fuel r Hacc).
    pose proof (generate_body_spec fuel (ui r) (finalTarget_of (ui r))
                  {| net := net r; ui := reset_ui (ui r); downloads := downloads r |}
                  eq_refl) as Hb.
    cbv zeta in Hb. unfold try_catch.
    destruct (generate_body World generateContent JSON_parse createPDF fuel (ui r)
                (finalTarget_of (ui r))
                {| net := net r; ui := reset_ui (ui r); downloads := downloads r |})
      as [[u|e|] sb]; cbn [fst snd] in Hb;
      destruct Hb as (Herr & _ & _ & Hpend & _ & Hcase).
    + cbn [fst snd]. split; [intros; discriminate|]. intros _. left.
      split; [exact (proj1 Hcase)|]. rewrite Herr. reflexivity.
    + cbn. split; [intros; discriminate|]. intros _. right.
      split; [reflexivity|]. eexists. split; [reflexivity|].
      destruct (truthy (message e)) eqn:Hm; [exact Hm|reflexivity].
    + cbn [fst snd]. split; [intros; discriminate|]. intros _.
      split; [exact Hcase|].
      destruct (isPrototype (ui r)); [|reflexivity].
      exfalso. now apply Hpend.
  - destruct (handleGenerate_not_accepted fuel r Hacc) as [H _]. rewrite H.
    split; [intros; discriminate|discriminate].
Qed.

(** X14.  In prototype mode the handler always completes, whatever the
    bound on the iterations of the loop (even none), and sends no refinement
    request. *)
Theorem prototype_run_completes (fuel : nat) (r : Run World) :
  isPrototype (ui r) = true ->
  let out := handleGenerate World generateContent JSON_parse createPDF fuel r in
  fst out = Ok tt
  /\ exists l : list Request,
       calls (net (snd out)) = (calls (net r) ++ l)%list
       /\ count is_refine l = 0%nat.
Proof.
  intros Hproto. cbv zeta.
  destruct (accepted (ui r)) eqn:Hacc.
  - rewrite (handleGenerate_accepted fuel r Hacc).
    pose proof (generate_body_spec fuel (ui r) (finalTarget_of (ui r))
                  {| net := net r; ui := reset_ui (ui r); downloads := downloads r |}
                  eq_refl) as Hb.
    cbv zeta in Hb. unfold try_catch.
    destruct (generate_body World generateContent JSON_parse createPDF fuel (ui r)
                (finalTarget_of (ui r))
                {| net := net r; ui := reset_ui (ui r); downloads := downloads r |})
      as [[u|e|] sb]; cbn [fst snd net calls] in Hb;
      destruct Hb as (_ & _ & _ & Hpend & (l & Hc & Hr) & _).
    + cbn [fst snd]. destruct u. split; [reflexivity|].
      eexists. split; [exact Hc|].
      change (count is_refine (?q :: l)) with (count is_refine l). now apply Hr.
    + cbn. split; [reflexivity|].
      eexists. split; [exact Hc|].
      change (count is_refine (?q :: l)) with (count is_refine l). now apply Hr.
    + exfalso. now apply (Hpend Hproto).
  - destruct (handleGenerate_not_accepted fuel r Hacc) as [H1 H2].
    split; [exact H1|]. exists []. rewrite H2, app_nil_r. split; reflexivity.
Qed.

Lemma due_count_prototype (i n : nat) : due_count true i n = n.
Proof.
  revert i. induction n as [|n IH]; intros i; [reflexivity|].
  cbn [due_count]. rewrite IH. unfold due. now rewrite Z.mod_1_r.
Qed.

Lemma due_count_normal (i n : nat) :
  Z.of_nat (due_count false i n)
  = (Z.of_nat i + Z.of_nat n + 2) / 3 - (Z.of_nat i + 2) / 3.
Proof.
  revert i. induction n as [|n IH]; intros i.
  - cbn [due_count]. replace (Z.of_nat i + Z.of_nat 0 + 2) with (Z.of_nat i + 2) by lia.
    lia.
  - cbn [due_count]. rewrite Nat2Z.inj_add, IH. unfold due.
    replace (Z.of_nat (S i) + Z.of_nat n + 2) with (Z.of_nat i + Z.of_nat (S n) + 2)
      by lia.
    replace (Z.of_nat (S i) + 2) with (Z.of_nat i + 3) by lia.
    pose proof (Z.div_mod (Z.of_nat i) 3 ltac:(lia)) as Hd.
    pose proof (Z.mod_pos_bound (Z.of_nat i) 3 ltac:(lia)) as Hm.
    assert (H3 : (Z.of_nat i + 3) / 3 = Z.of_nat i / 3 + 1).
    { replace (Z.of_nat i + 3) with (Z.of_nat i + 1 * 3) by lia.
      now rewrite Z.div_add by lia. }
    assert (H2 : (Z.of_nat i + 2) / 3
                 = Z.of_nat i / 3 + (if Z.of_nat i mod 3 =? 0 then 0 else 1)).
    { destruct (Z.eqb_spec (Z.of_nat i mod 3) 0) as [E|E].
      - symmetry. apply Z.div_unique with (r := 2); lia.
      - symmetry. apply Z.div_unique with (r := Z.of_nat i mod 3 - 1); lia. }
    rewrite H3, H2. destruct (Z.of_nat i mod 3 =? 0); lia.
Qed.

(** X15.  When, on an accepted form, the handler ends in the state [done]:
    it completed with no error and switched to the editor; the outline had a
    title and a list of chapters; one chapter was made per chapter of the
    outline, with its title, in order; any image kept is one that the
    estimator counts; the page count shown is the estimate of the chapters
    (0 for a book without chapter); the history has one more entry, in front,
    with the title, these chapters and the page count asked for; and one
    file was downloaded, named after the title. *)
Theorem successful_run_shape (fuel : nat) (r : Run World) :
  let out := handleGenerate World generateContent JSON_parse createPDF fuel r in
  let f := ui (snd out) in
  let made := generatedChapters f in
  accepted (ui r) = true ->
  state f = S_done ->
  fst out = Ok tt /\ error f = None /\ activeTab f = T_editor
  /\ exists (o : EbookOutline) (plans : list ChapterPlan) (t : string),
       outline f = Some o /\ Gemini.chapters o = Some plans
       /\ outline_title o = Some t
       /\ map title made = map plan_title plans
       /\ Forall image_counts made
       /\ estimatedPages f
          = match made with
            | [] => 0
            | _ :: _ => estimatePageCount made (pdfOptions (ui r))
            end
       /\ history f
          = {| entry_title := Some t; entry_chapters := made;
               entry_pages := finalTarget_of (ui r) |} :: history (ui r)
       /\ downloads (snd out) = (downloads r ++ [(file_stem t ++ ".pdf")%string])%list.
Proof.
  cbv zeta. intros Hacc.
  rewrite (handleGenerate_accepted fuel r Hacc).
  pose proof (generate_body_spec fuel (ui r) (finalTarget_of (ui r))
                {| net := net r; ui := reset_ui (ui r); downloads := downloads r |}
                eq_refl) as Hb.
  cbv zeta in Hb. unfold try_catch.
  destruct (generate_body World generateContent JSON_parse createPDF fuel (ui r)
              (finalTarget_of (ui r))
              {| net := net r; ui := reset_ui (ui r); downloads := downloads r |})
    as [[u|e|] sb]; cbn [fst snd] in Hb;
    destruct Hb as (Herr & Hest & Himg & _ & _ & Hcase).
  - cbn [fst snd]. intros _. destruct u.
    destruct Hcase as (_ & Htab & o & plans & t & Ho & Hp & Ht & Hmap & Hh & Hd & _).
    split; [reflexivity|]. split; [now rewrite Herr|]. split; [exact Htab|].
    exists o, plans, t.
    split; [exact Ho|]. split; [exact Hp|]. split; [exact Ht|].
    split; [exact Hmap|]. split; [exact Himg|].
    split; [|split; [exact Hh|exact Hd]].
    destruct Hest as [[H0 He]|[Hne He]].
    + rewrite H0. exact He.
    + destruct (generatedChapters (ui sb)); [congruence|exact He].
  - cbn. intros H. discriminate H.
  - cbn [fst snd]. rewrite Hcase. intros H. discriminate H.
Qed.

(** X16.  When, on an accepted form, the handler ends in the state [error]:
    it completed, with an error message that is not empty; nothing was
    downloaded and the history is as before; the chapters made before the
    failure are kept: they are those of the first chapters of the outline, in
    order, and the page count shown is their estimate (0 when none was
    made). *)
Theorem failed_run_keeps_chapters (fuel : nat) (r : Run World) :
  let out := handleGenerate World generateContent JSON_parse createPDF fuel r in
  let f := ui (snd out) in
  let made := generatedChapters f in
  accepted (ui r) = true ->
  state f = S_error ->
  fst out = Ok tt
  /\ (exists msg, error f = Some msg /\ truthy msg = true)
  /\ history f = history (ui r)
  /\ downloads (snd out) = downloads r
  /\ (made = []
      \/ exists (o : EbookOutline) (plans : list ChapterPlan) (k : nat),
           outline f = Some o /\ Gemini.chapters o = Some plans
           /\ (k <= List.length plans)%nat
           /\ map title made = map plan_title (firstn k plans))
  /\ Forall image_counts made
  /\ estimatedPages f
     = match made with
       | [] => 0
       | _ :: _ => estimatePageCount made (pdfOptions (ui r))
       end.
Proof.
  cbv zeta. intros Hacc.
  rewrite (handleGenerate_accepted fuel r Hacc).
  pose proof (generate_body_spec fuel (ui r) (finalTarget_of (ui r))
                {| net := net r; ui := reset_ui (ui r); downloads := downloads r |}
                eq_refl) as Hb.
  cbv zeta in Hb. unfold try_catch.
  destruct (generate_body World generateContent JSON_parse createPDF fuel (ui r)
              (finalTarget_of (ui r))
              {| net := net r; ui := reset_ui (ui r); downloads := downloads r |})
    as [[u|e|] sb]; cbn [fst snd] in Hb;
    destruct Hb as (Herr & Hest & Himg & _ & _ & Hcase).
  - cbn [fst snd]. rewrite (proj1 Hcase). intros H. discriminate H.
  - cbn. intros _. destruct Hcase as (Hh & Hd & _ & Hpre).
    split; [reflexivity|]. split.
    { eexists. split; [reflexivity|].
      destruct (truthy (message e)) eqn:Hm; [exact Hm|reflexivity]. }
    split; [exact Hh|]. split; [exact Hd|]. split; [exact Hpre|].
    split; [exact Himg|].
    destruct Hest as [[H0 He]|[Hne He]].
    + rewrite H0. exact He.
    + destruct (generatedChapters (ui sb)); [congruence|exact He].
  - cbn [fst snd]. rewrite Hcase. intros H. discriminate H.
Qed.

(** X17.  The requests of a run that ends in the state [done], in order:
    the outline request, then the requests of the chapters, then the
    marketing request.  Among those of the chapters there is exactly one
    text request per chapter of the outline; the image requests are as many
    as the chapters in prototype mode, and one for every started group of
    three chapters otherwise; in prototype mode there is no refinement
    request. *)
Theorem successful_run_requests (fuel : nat) (r : Run World) :
  let out := handleGenerate World generateContent JSON_parse createPDF fuel r in
  let f := ui (snd out) in
  let p := ui r in
  accepted p = true ->
  state f = S_done ->
  exists (o : EbookOutline) (plans : list ChapterPlan) (t : string)
         (l : list Request),
    outline f = Some o /\ Gemini.chapters o = Some plans
    /\ outline_title o = Some t
    /\ calls (net (snd out))
       = (calls (net r)
          ++ outline_request (topic p) (ebookType p) (finalTarget_of p) (isPrototype p)
          :: l ++ [MarketingPrompt (Some t) (topic p)])%list
    /\ count is_chapter l = List.length plans
    /\ Z.of_nat (count is_image l)
       = (if isPrototype p then Z.of_nat (List.length plans)
          else (Z.of_nat (List.length plans) + 2) / 3)
    /\ (isPrototype p = true -> count is_refine l = 0%nat).
Proof.
  cbv zeta. intros Hacc.
  rewrite (handleGenerate_accepted fuel r Hacc).
  pose proof (generate_body_spec fuel (ui r) (finalTarget_of (ui r))
                {| net := net r; ui := reset_ui (ui r); downloads := downloads r |}
                eq_refl) as Hb.
  cbv zeta in Hb. unfold try_catch.
  destruct (generate_body World generateContent JSON_parse createPDF fuel (ui r)
              (finalTarget_of (ui r))
              {| net := net r; ui := reset_ui (ui r); downloads := downloads r |})
    as [[u|e|] sb]; cbn [fst snd] in Hb;
    destruct Hb as (_ & _ & _ & _ & _ & Hcase).
  - cbn [fst snd]. intros _.
    destruct Hcase as (_ & _ & o & plans & t & Ho & Hp & Ht & _ & _ & _
                       & l & Hc & Hn1 & Hn2 & Hr).
    exists o, plans, t, l.
    split; [exact Ho|]. split; [exact Hp|]. split; [exact Ht|].
    split; [exact Hc|]. split; [exact Hn1|]. split; [|exact Hr].
    rewrite Hn2. destruct (isPrototype (ui r)).
    + now rewrite due_count_prototype.
    + rewrite due_count_normal. cbn. lia.
  - cbn. intros H. discriminate H.
  - cbn [fst snd]. rewrite Hcase. intros H. discriminate H.
Qed.

Lemma accepted_spec (p : UI) :
  accepted p = true
  <-> truthy (trim (topic p)) = true
      /\ match finalTarget_of p with
         | NaN => True
         | Infinity _ => False
         | Int n => 10 <= n <= 200
         end.
Proof.
  unfold accepted. rewrite andb_true_iff, negb_true_iff, orb_false_iff.
  destruct (finalTarget_of p) as [|[|]|n]; cbn [ltb andb negb].
  - tauto.
  - split; [intros (_ & H & _); discriminate H|tauto].
  - split; [intros (_ & _ & H); discriminate H|tauto].
  - rewrite !Z.ltb_ge. tauto.
Qed.

(** X18.  What the validation of [handleGenerate] lets through: the outline
    request is sent, first, exactly when the topic is not blank and the page
    count asked for is either not a number or a number from 10 to 200; a
    custom page count that [parseInt] cannot read passes, and is put into
    the request as it is. *)
Theorem outline_requested_iff_form_passes (fuel : nat) (r : Run World) :
  let p := ui r in
  let out := handleGenerate World generateContent JSON_parse createPDF fuel r in
  (exists l : list Request,
     calls (net (snd out))
     = (calls (net r)
        ++ outline_request (topic p) (ebookType p) (finalTarget_of p) (isPrototype p)
        :: l)%list)
  <-> truthy (trim (topic p)) = true
      /\ match finalTarget_of p with
         | NaN => True
         | Infinity _ => False
         | Int n => 10 <= n <= 200
         end.
Proof.
  cbv zeta. rewrite <- accepted_spec.
  destruct (accepted (ui r)) eqn:Hacc.
  - split; [reflexivity|]. intros _.
    rewrite (handleGenerate_accepted fuel r Hacc).
    pose proof (generate_body_spec fuel (ui r) (finalTarget_of (ui r))
                  {| net := net r; ui := reset_ui (ui r); downloads := downloads r |}
                  eq_refl) as Hb.
    cbv zeta in Hb. unfold try_catch.
    destruct (generate_body World generateContent JSON_parse createPDF fuel (ui r)
                (finalTarget_of (ui r))
                {| net := net r; ui := reset_ui (ui r); downloads := downloads r |})
      as [[u|e|] sb]; cbn [fst snd] in Hb;
      destruct Hb as (_ & _ & _ & _ & (l & Hc & _) & _);
      exists l; cbn [net snd] in Hc |- *; exact Hc.
  - split; [|intros H; discriminate H].
    intros (l & Hc). exfalso.
    destruct (handleGenerate_not_accepted fuel r Hacc) as [_ Hn].
    rewrite Hn in Hc. apply (f_equal (@List.length Request)) in Hc.
    rewrite length_app in Hc. cbn [List.length] in Hc. lia.
Qed.

End AnyBackend.

Lemma prototype_run_completes_witness :
  isPrototype (ui (start proto_ui)) = true
  /\ fst (handleGenerate unit studio parse render_ok 0 (start proto_ui)) = Ok tt.
Proof.
  split; [reflexivity|].
  exact (proj1 (prototype_run_completes unit studio parse render_ok 0
                  (start proto_ui) eq_refl)).
Defined.

Lemma successful_run_shape_witness :
  accepted (ui (start proto_ui)) = true
  /\ state (ui (snd (handleGenerate unit studio parse render_ok 0 (start proto_ui))))
     = S_done
  /\ estimatedPages
       (ui (snd (handleGenerate unit studio parse render_ok 0 (start proto_ui)))) = 4
  /\ downloads (snd (handleGenerate unit studio parse render_ok 0 (start proto_ui)))
     = ["t.pdf"].
Proof.
  split; [reflexivity|]. split; [reflexivity|].
  destruct (successful_run_shape unit studio parse render_ok 0 (start proto_ui)
              eq_refl eq_refl)
    as (_ & _ & _ & o & plans & t & _ & _ & _ & _ & _ & He & _ & Hd).
  split; reflexivity.
Defined.

(** A backend that answers the outline and the first chapter, and rejects
    every request after them, makes the run fail with the first chapter
    kept. *)
Lemma failed_run_keeps_chapters_witness :
  accepted (ui (start proto_ui)) = true
  /\ (let out := handleGenerate nat flaky parse render_ok 0
                   {| net := {| world := 0%nat; calls := [] |};
                      ui := proto_ui; downloads := [] |} in
      state (ui (snd out)) = S_error
      /\ map title (generatedChapters (ui (snd out))) = [Some "One"]
      /\ error (ui (snd out)) = Some "quota"
      /\ history (ui (snd out)) = []).
Proof.
  split; [reflexivity|].
  pose proof (failed_run_keeps_chapters nat flaky parse render_ok 0
                {| net := {| world := 0%nat; calls := [] |};
                   ui := proto_ui; downloads := [] |} eq_refl eq_refl) as H.
  cbv zeta in H. destruct H as (_ & _ & Hh & _).
  cbv zeta. split; [reflexivity|]. split; [reflexivity|].
  split; [reflexivity|exact Hh].
Defined.

Lemma successful_run_requests_witness :
  accepted (ui (start proto_ui)) = true
  /\ exists l : list Request,
       calls (net (snd (handleGenerate unit studio parse render_ok 0 (start proto_ui))))
       = (outline_request "Productivity" "Business" (Int 10) true
          :: l ++ [MarketingPrompt (Some "T") "Productivity"])%list
       /\ count is_chapter l = 2%nat.
Proof.
  split; [reflexivity|].
  destruct (successful_run_requests unit studio parse render_ok 0 (start proto_ui)
              eq_refl eq_refl)
    as (o & plans & t & l & Ho & Hp & Ht & Hc & Hn & _).
  cbn in Ho, Hc. injection Ho as <-. cbn in Hp, Ht.
  injection Hp as <-. injection Ht as <-.
  exists l. split; [exact Hc|exact Hn].
Defined.

(** The custom page count ["abc"] is read as [NaN], which neither
    comparison of the validation rejects: the outline is requested. *)
Example unreadable_page_count_passes :
  finalTarget_of unreadable_ui = NaN
  /\ calls (net (snd (handleGenerate unit down parse render_ok 0 (start unreadable_ui))))
     = [OutlinePrompt "Business" "Productivity" NaN (Int 2)].
Proof. split; reflexivity. Qed.

End RunExtras.

(* ================================================================== *)
(** * The pipeline as a whole: claims                                   *)
(* ================================================================== *)

Module PipelineClaims.
Import JS Pdf Async Gemini Generator Samples Notions Editor Progress MoreSamples.
Import GeneratorClaims PipelineExtras RunExtras.

Ltac run :=
  unfold content_at, refineText, generateFAQ, generateImage,
    generateChapterContent, generateOutline, generateMarketingAssets,
    not_awaited, ai_generateContent in *;
  unfold setState, setGeneratedChapters, setError, setOutline, setActiveTab,
    setCurrentChapterIndex, setEstimatedPages, setMarketingAssets,
    setFileSizeMB, setHistory, download, set_ui, call in *;
  unfold modify, zoom, try_catch, bind, ret, throw, pending in *;
  cbn [fst snd net ui downloads world calls] in *.

Ltac run_body :=
  unfold generateOutline, ai_generateContent in *;
  unfold setState, setGeneratedChapters, setError, setOutline, setActiveTab,
    setCurrentChapterIndex, setEstimatedPages, setMarketingAssets,
    setFileSizeMB, setHistory, download, set_ui, call in *;
  unfold modify, zoom, try_catch, bind, ret, throw, pending in *;
  cbn [fst snd net ui downloads world calls] in *.

Section AnyBackend.

Variable World : Type.
Variable generateContent :
  Request -> World -> (exn + GenerateContentResponse) * World.
Variable JSON_parse : string -> option EbookOutline.
Variable createPDF : option string -> list Chapter -> PDFOptions -> exn + Z.









End AnyBackend.




End PipelineClaims.

(* ================================================================== *)
(** * The editor: refinement, download and history                      *)
(* ================================================================== *)

Module EditorExtras.
Import JS Pdf Async Gemini Generator Samples Notions Editor Progress MoreSamples.

Ltac run :=
  unfold handleRefine, addFAQ, handleDownload, openHistory, content_at,
    refineText, generateFAQ, ai_generateContent in *;
  unfold setState, setGeneratedChapters, setError, setOutline, setActiveTab,
    download, set_ui, call in *;
  unfold modify, zoom, try_catch, bind, ret, throw, pending in *;
  cbn [fst snd net ui downloads world calls] in *.

Lemma map_set_content_at {A : Type} (f : Chapter -> A) (l : list Chapter)
      (i : nat) (v : string) :
  (forall c, f (with_content c v) = f c) ->
  map f (set_content_at l i v) = map f l.
Proof.
  intros Hf. revert i. induction l as [|a l IH]; intros [|i]; cbn;
    try reflexivity.
  - now rewrite Hf.
  - now rewrite IH.
Qed.

Lemma set_content_at_truthy (l : list Chapter) (i : nat) (v : string) :
  truthy v = true ->
  Forall (fun c => truthy (content c) = true) l ->
  Forall (fun c => truthy (content c) = true) (set_content_at l i v).
Proof.
  intros Hv H. revert i. induction H as [|a l Ha Hl IH]; intros [|i]; cbn.
  - constructor.
  - constructor.
  - constructor; [exact Hv|exact Hl].
  - constructor; [exact Ha|apply IH].
Qed.

Lemma or_else_keeps (a : option string) (b : string) :
  truthy b = true -> truthy (or_else a b) = true.
Proof.
  intros H. destruct a as [x|]; [|exact H]. cbn.
  destruct (truthy x) eqn:Hx; [exact Hx|exact H].
Qed.

Section AnyBackend.

Variable World : Type.
Variable generateContent :
  Request -> World -> (exn + GenerateContentResponse) * World.
Variable JSON_parse : string -> option EbookOutline.
Variable createPDF : option string -> list Chapter -> PDFOptions -> exn + Z.

(** X19.  With an index past the last chapter, [handleRefine] and [addFAQ]
    send no request and change nothing: the read of the content throws, the
    exception is swallowed, and the handler completes leaving the state
    [done]. *)
Theorem refine_past_the_end_does_nothing
        (r : Run World) (index : nat) (action : Action) :
  nth_error (generatedChapters (ui r)) index = None ->
  handleRefine World generateContent index action r
  = (Ok tt, {| net := net r; ui := with_state S_done (ui r);
               downloads := downloads r |})
  /\ addFAQ World generateContent index r
     = (Ok tt, {| net := net r; ui := with_state S_done (ui r);
                  downloads := downloads r |}).
Proof.
  intros H. run. rewrite H. split; reflexivity.
Qed.

(** X20.  Whatever the index and whatever the backend answers,
    [handleRefine] completes in the state [done], downloads nothing, sends
    at most one request, a refinement of the action asked for, and leaves
    as many chapters as before, with the same titles, images and charts;
    when the content of every chapter was not empty, it still is: an answer
    without text, or with an empty text, leaves the content as it was. *)
Theorem handleRefine_keeps_the_book
        (r : Run World) (index : nat) (action : Action) :
  let out := handleRefine World generateContent index action r in
  let before := generatedChapters (ui r) in
  let after := generatedChapters (ui (snd out)) in
  fst out = Ok tt
  /\ state (ui (snd out)) = S_done
  /\ downloads (snd out) = downloads r
  /\ (calls (net (snd out)) = calls (net r)
      \/ exists text_,
           calls (net (snd out))
           = (calls (net r) ++ [RefinePrompt action text_])%list)
  /\ List.length after = List.length before
  /\ map title after = map title before
  /\ map image after = map image before
  /\ map chart after = map chart before
  /\ (Forall (fun c => truthy (content c) = true) before ->
      Forall (fun c => truthy (content c) = true) after).
Proof.
  cbv zeta. run.
  destruct (nth_error (generatedChapters (ui r)) index) as [c|] eqn:Hc;
    cbn [fst snd net ui downloads world calls].
  2:{ cbn. repeat split; auto. }
  destruct (generateContent (RefinePrompt action (content c)) (world (net r)))
    as [[e|response] w]; cbn.
  { repeat split; auto. right. now exists (content c). }
  split; [reflexivity|]. split; [reflexivity|]. split; [reflexivity|].
  split; [right; now exists (content c)|].
  split.
  { rewrite <- (length_map title), <- (length_map title (generatedChapters (ui r))).
    now rewrite map_set_content_at. }
  split; [now apply map_set_content_at|].
  split; [now apply map_set_content_at|].
  split; [now apply map_set_content_at|].
  intros Hall. apply set_content_at_truthy; [|exact Hall].
  apply or_else_keeps.
  apply nth_error_In in Hc. rewrite Forall_forall in Hall. now apply Hall.
Qed.

(** X21.  [handleDownload] never calls the backend.  Without an outline it
    does nothing.  With one, it downloads exactly one file, named after the
    title of the outline, and ends in the state [done], when the renderer
    succeeds and the outline has a title; otherwise the exception escapes
    the handler, nothing is downloaded and the state stays [pdf].  No other
    cell of the state changes. *)
Theorem handleDownload_outcomes (r : Run World) :
  let out := handleDownload World createPDF r in
  net (snd out) = net r
  /\ match outline (ui r) with
     | None => out = (Ok tt, r)
     | Some o =>
         match createPDF (outline_title o) (generatedChapters (ui r))
                         (pdfOptions (ui r)), outline_title o with
         | inr _, Some t =>
             fst out = Ok tt
             /\ ui (snd out) = with_state S_done (ui r)
             /\ downloads (snd out)
                = (downloads r ++ [(file_stem t ++ ".pdf")%string])%list
         | inl e, _ =>
             fst out = Throw e
             /\ ui (snd out) = with_state S_pdf (ui r)
             /\ downloads (snd out) = downloads r
         | inr _, None =>
             fst out = Throw (cannot_read "replace")
             /\ ui (snd out) = with_state S_pdf (ui r)
             /\ downloads (snd out) = downloads r
         end
     end.
Proof.
  cbv zeta. unfold handleDownload.
  destruct (outline (ui r)) as [o|]; [|split; reflexivity].
  run.
  destruct (createPDF (outline_title o) (generatedChapters (ui r))
              (pdfOptions (ui r))) as [e|size];
    [|destruct (outline_title o) as [t|]]; cbn; repeat split.
Qed.

(** X22.  Round trip through the history.  After a run that ended in the
    state [done], the first entry of the history is the book just made;
    opening it puts back in the editor the chapters that are there, and an
    outline with the same title and the same chapter titles, in order, as
    the outline of the run; the sections of the outline are not kept: every
    plan of the rebuilt outline has an empty list of sections. *)
Theorem reopening_a_finished_run (fuel : nat) (r : Run World) :
  let out := handleGenerate World generateContent JSON_parse createPDF fuel r in
  let f := ui (snd out) in
  accepted (ui r) = true ->
  state f = S_done ->
  exists (item : HistoryEntry) (o : EbookOutline) (plans : list ChapterPlan),
    history f = item :: history (ui r)
    /\ outline f = Some o /\ Gemini.chapters o = Some plans
    /\ let g := ui (snd (openHistory World item (snd out))) in
       generatedChapters g = generatedChapters f
       /\ activeTab g = T_editor
       /\ exists (o' : EbookOutline) (plans' : list ChapterPlan),
            outline g = Some o' /\ Gemini.chapters o' = Some plans'
            /\ outline_title o' = outline_title o
            /\ map plan_title plans' = map plan_title plans
            /\ Forall (fun pl => sections pl = Some []) plans'.
Proof.
  cbv zeta. intros Hacc.
  rewrite (RunExtras.handleGenerate_accepted World generateContent JSON_parse
             createPDF fuel r Hacc).
  pose proof (RunExtras.generate_body_spec World generateContent JSON_parse
                createPDF fuel (ui r) (finalTarget_of (ui r))
                {| net := net r; ui := reset_ui (ui r); downloads := downloads r |}
                eq_refl) as Hb.
  cbv zeta in Hb. unfold try_catch.
  destruct (generate_body World generateContent JSON_parse createPDF fuel (ui r)
              (finalTarget_of (ui r))
              {| net := net r; ui := reset_ui (ui r); downloads := downloads r |})
    as [[u|e|] sb]; cbn [fst snd] in Hb;
    destruct Hb as (_ & _ & _ & _ & _ & Hcase).
  - cbn [fst snd]. intros _.
    destruct Hcase as (_ & _ & o & plans & t & Ho & Hp & Ht & Hmap & Hh & _).
    eexists. exists o, plans.
    split; [exact Hh|]. split; [exact Ho|]. split; [exact Hp|].
    split; [reflexivity|]. split; [reflexivity|].
    eexists. eexists. split; [reflexivity|]. split; [reflexivity|].
    split; [now rewrite Ht|]. split.
    + cbn [entry_chapters]. rewrite map_map. exact Hmap.
    + apply Forall_forall. intros pl Hin. apply in_map_iff in Hin.
      destruct Hin as (c & <- & _). reflexivity.
  - cbn. intros H. discriminate H.
  - cbn [fst snd]. rewrite Hcase. intros H. discriminate H.
Qed.

End AnyBackend.

Lemma refine_past_the_end_does_nothing_witness :
  state (ui (snd (handleRefine unit wordy 2 enrich (start editor_ui)))) = S_done
  /\ calls (net (snd (addFAQ unit wordy 2 (start editor_ui)))) = [].
Proof.
  destruct (refine_past_the_end_does_nothing unit wordy (start editor_ui) 2 enrich
              eq_refl) as [H1 H2].
  rewrite H1, H2. split; reflexivity.
Defined.

Lemma reopening_a_finished_run_witness :
  accepted (ui (start proto_ui)) = true
  /\ exists item : HistoryEntry,
       history (ui (snd (handleGenerate unit studio parse render_ok 0 (start proto_ui))))
       = [item]
       /\ map title (entry_chapters item) = [Some "One"; Some "Two"].
Proof.
  split; [reflexivity|].
  destruct (reopening_a_finished_run unit studio parse render_ok 0 (start proto_ui)
              eq_refl eq_refl) as (item & o & plans & Hh & _).
  exists item. split; [exact Hh|].
  cbn in Hh. injection Hh as <-. reflexivity.
Defined.

End EditorExtras.

(* ================================================================== *)
(** * [createPDF]: the calls on the document                            *)
(* ================================================================== *)

Module RenderExtras.
Import JS Pdf Async Renderer Layout Notions MoreSamples.

Section AnyLibrary.

Variable N : Numbers.
Variable jsPDF : Library N.

(** ** Calls that satisfy a property, whether the computation returns or
       throws *)

Lemma appends_ret {A : Type} (P : Op N -> Prop) (a : A) :
  appends N (Forall P) (ret a).
Proof.
  intros doc. exists []. rewrite app_nil_r. split; [reflexivity|constructor].
Qed.

Lemma appends_query {A : Type} (P : Op N -> Prop) (f : Doc N -> A) :
  appends N (Forall P) (query N f).
Proof.
  intros doc. exists []. rewrite app_nil_r. split; [reflexivity|constructor].
Qed.

Lemma appends_bind {A B : Type} (P : Op N -> Prop)
      (m : M (Doc N) A) (k : A -> M (Doc N) B) :
  appends N (Forall P) m -> (forall a, appends N (Forall P) (k a)) ->
  appends N (Forall P) (bind m k).
Proof.
  intros Hm Hk doc. unfold bind.
  destruct (Hm doc) as (l1 & E1 & P1).
  destruct (m doc) as [[a|e|] d1]; cbn [snd] in E1; subst d1.
  - destruct (Hk a (doc ++ l1)%list) as (l2 & E2 & P2).
    exists (l1 ++ l2)%list. rewrite E2, app_assoc.
    split; [reflexivity|now apply Forall_app].
  - now exists l1.
  - now exists l1.
Qed.

Lemma appends_try {A : Type} (P : Op N -> Prop)
      (body : M (Doc N) A) (handler : exn -> M (Doc N) A) :
  appends N (Forall P) body -> (forall e, appends N (Forall P) (handler e)) ->
  appends N (Forall P) (try_catch body handler).
Proof.
  intros Hm Hk doc. unfold try_catch.
  destruct (Hm doc) as (l1 & E1 & P1).
  destruct (body doc) as [[a|e|] d1]; cbn [snd] in E1; subst d1.
  - now exists l1.
  - destruct (Hk e (doc ++ l1)%list) as (l2 & E2 & P2).
    exists (l1 ++ l2)%list. rewrite E2, app_assoc.
    split; [reflexivity|now apply Forall_app].
  - now exists l1.
Qed.

Lemma appends_emit (P : Op N -> Prop) (op : Op N) :
  P op -> appends N (Forall P) (emit N jsPDF op).
Proof.
  intros H doc. unfold emit. destruct (throws jsPDF doc op).
  - exists []. rewrite app_nil_r. split; [reflexivity|constructor].
  - exists [op]. split; [reflexivity|now constructor].
Qed.

(** ** Lists of calls *)

Lemma headerFooter_plain (options : PDFOptions) (pageWidth pageHeight : num N) :
  Forall (fun op => is_addPage N op = false /\ is_setPage N op = false
                    /\ is_addImage N op = false)
         (headerFooter N options pageWidth pageHeight).
Proof.
  unfold headerFooter.
  destruct (headerText options) as [h|]; [destruct (truthy h)|];
    (destruct (footerText options) as [f|]; [destruct (truthy f)|]);
    (destruct (watermark options) as [w|]; [destruct (truthy w)|]);
    cbn; repeat constructor.
Qed.

Lemma added_pages_app (l1 l2 : list (Op N)) :
  added_pages N (l1 ++ l2)%list = (added_pages N l1 + added_pages N l2)%nat.
Proof. unfold added_pages. now rewrite filter_app, length_app. Qed.

Lemma paged_app (hf l1 l2 : list (Op N)) :
  paged N hf l1 -> paged N hf l2 -> paged N hf (l1 ++ l2)%list.
Proof.
  intros H1 H2. induction H1 as [|op l Hop H IH|l H IH]; cbn [app].
  - exact H2.
  - now constructor.
  - rewrite <- app_assoc. now constructor.
Qed.

Lemma paged_plain (hf l : list (Op N)) :
  Forall (fun op => is_addPage N op = false) l -> paged N hf l.
Proof. induction 1; now constructor. Qed.

Lemma plain_prefix (hf l a b : list (Op N)) :
  Forall (fun op => is_addPage N op = false) hf ->
  (hf ++ l = a ++ doc_addPage :: b)%list ->
  exists a', a = (hf ++ a')%list /\ l = (a' ++ doc_addPage :: b)%list.
Proof.
  intros H. revert a. induction H as [|op hf Hop H IH]; intros a E.
  - now exists a.
  - destruct a as [|x a]; cbn in E; injection E as -> E.
    + discriminate Hop.
    + destruct (IH a E) as (a' & -> & ->). now exists a'.
Qed.

Lemma paged_inv (hf l : list (Op N)) :
  Forall (fun op => is_addPage N op = false) hf ->
  paged N hf l ->
  forall a b, l = (a ++ doc_addPage :: b)%list -> exists c, b = (hf ++ c)%list.
Proof.
  intros Hhf H. induction H as [|op l Hop H IH|l H IH]; intros a b E.
  - destruct a; discriminate E.
  - destruct a as [|x a]; cbn in E; injection E as -> E.
    + discriminate Hop.
    + now apply (IH a b).
  - destruct a as [|x a]; cbn in E.
    + injection E as E. now exists l.
    + injection E as _ E.
      destruct (plain_prefix hf l a b Hhf E) as (a' & _ & E').
      now apply (IH a' b).
Qed.

Lemma snoc_split (doc a b : list (Op N)) (op x : Op N) :
  (doc ++ [op] = a ++ x :: b)%list ->
  (a = doc /\ x = op /\ b = [])
  \/ exists b', b = (b' ++ [op])%list /\ doc = (a ++ x :: b')%list.
Proof.
  revert a. induction doc as [|y doc IH]; intros a E.
  - destruct a as [|z a]; cbn in E.
    + injection E as <- <-. now left.
    + injection E as _ E. destruct a; discriminate E.
  - destruct a as [|z a]; cbn in E.
    + injection E as <- E. right. exists doc. now split.
    + injection E as <- E. destruct (IH a E) as [(-> & -> & ->)|(b' & -> & ->)].
      * now left.
      * right. now exists b'.
Qed.

(** ** Inversion of computations that returned *)

Lemma bind_Ok {A B : Type} (m : M (Doc N) A) (k : A -> M (Doc N) B)
      (doc d : Doc N) (b : B) :
  bind m k doc = (Ok b, d) ->
  exists (a : A) (d1 : Doc N), m doc = (Ok a, d1) /\ k a d1 = (Ok b, d).
Proof.
  unfold bind. destruct (m doc) as [[a|e|] d1]; intros H;
    [now exists a, d1|discriminate H|discriminate H].
Qed.

Lemma emit_Ok (op : Op N) (doc d : Doc N) (u : unit) :
  emit N jsPDF op doc = (Ok u, d) -> d = (doc ++ [op])%list.
Proof.
  unfold emit. destruct (throws jsPDF doc op); intros H;
    [discriminate H|now injection H as _ <-].
Qed.

Lemma emit_all_Ok (ops : list (Op N)) (doc d : Doc N) (u : unit) :
  emit_all N jsPDF ops doc = (Ok u, d) -> d = (doc ++ ops)%list.
Proof.
  revert doc. induction ops as [|op ops IH]; intros doc H; cbn [emit_all] in H.
  - injection H as _ <-. now rewrite app_nil_r.
  - apply bind_Ok in H. destruct H as (v & d1 & H1 & H2).
    apply emit_Ok in H1. subst d1. apply IH in H2. subst d.
    now rewrite <- app_assoc.
Qed.

Lemma pageNumbers_Ok (pageWidth pageHeight : num N) (pages : list Z)
      (totalPages : Z) (doc d : Doc N) (u : unit) :
  pageNumbers N jsPDF pageWidth pageHeight pages totalPages doc = (Ok u, d) ->
  d = (doc ++ flat_map (fun i => pageLabel N pageWidth pageHeight i totalPages)
                       pages)%list.
Proof.
  revert doc. induction pages as [|i pages IH]; intros doc H;
    cbn [pageNumbers flat_map] in *.
  - injection H as _ <-. now rewrite app_nil_r.
  - apply bind_Ok in H. destruct H as (v & d1 & H1 & H2).
    apply emit_all_Ok in H1. subst d1. apply IH in H2. subst d.
    now rewrite <- app_assoc.
Qed.

(** ** What makes [createPDF] fail *)

Lemma returned_nil : returned N jsPDF [].
Proof. intros a op b E. destruct a; discriminate E. Qed.

Lemma returned_snoc (doc : Doc N) (op : Op N) :
  returned N jsPDF doc -> throws jsPDF doc op = None ->
  returned N jsPDF (doc ++ [op])%list.
Proof.
  intros Hdoc Hop a x b E.
  destruct (snoc_split doc a b op x E) as [(-> & -> & _)|(b' & _ & ->)].
  - exact Hop.
  - now apply (Hdoc a x b').
Qed.

Lemma settles_of_blames {A : Type} (m : M (Doc N) A) :
  blames N jsPDF m -> settles N jsPDF m.
Proof.
  intros H doc Hdoc. destruct (H doc Hdoc) as [Hr Hc].
  split; [exact Hr|]. destruct (fst (m doc)); [discriminate|discriminate|].
  contradiction Hc.
Qed.

Lemma settles_emit (op : Op N) : settles N jsPDF (emit N jsPDF op).
Proof.
  intros doc Hdoc. unfold emit. destruct (throws jsPDF doc op) eqn:E; cbn [fst snd].
  - split; [exact Hdoc|discriminate].
  - split; [now apply returned_snoc|discriminate].
Qed.

Lemma settles_ret {A : Type} (a : A) : settles N jsPDF (ret a).
Proof. intros doc Hdoc. split; [exact Hdoc|discriminate]. Qed.

Lemma settles_bind {A B : Type} (m : M (Doc N) A) (k : A -> M (Doc N) B) :
  settles N jsPDF m -> (forall a, settles N jsPDF (k a)) ->
  settles N jsPDF (bind m k).
Proof.
  intros Hm Hk doc Hdoc. destruct (Hm doc Hdoc) as [Hr Hp]. unfold bind.
  destruct (m doc) as [[a|e|] d1]; cbn [fst snd] in *.
  - now apply Hk.
  - split; [exact Hr|discriminate].
  - now contradiction Hp.
Qed.

Lemma settles_try {A : Type} (body : M (Doc N) A) (handler : exn -> M (Doc N) A) :
  settles N jsPDF body -> (forall e, settles N jsPDF (handler e)) ->
  settles N jsPDF (try_catch body handler).
Proof.
  intros Hm Hk doc Hdoc. destruct (Hm doc Hdoc) as [Hr Hp]. unfold try_catch.
  destruct (body doc) as [[a|e|] d1]; cbn [fst snd] in *.
  - split; [exact Hr|discriminate].
  - now apply Hk.
  - now contradiction Hp.
Qed.

Lemma blames_ret {A : Type} (a : A) : blames N jsPDF (ret a).
Proof. intros doc Hdoc. split; [exact Hdoc|exact I]. Qed.

Lemma blames_query {A : Type} (f : Doc N -> A) : blames N jsPDF (query N f).
Proof. intros doc Hdoc. split; [exact Hdoc|exact I]. Qed.

Lemma blames_emit (op : Op N) :
  is_addImage N op = false -> blames N jsPDF (emit N jsPDF op).
Proof.
  intros Hop doc Hdoc. unfold emit.
  destruct (throws jsPDF doc op) as [e|] eqn:E; cbn [fst snd].
  - split; [exact Hdoc|]. now exists op.
  - split; [now apply returned_snoc|exact I].
Qed.

Lemma blames_bind {A B : Type} (m : M (Doc N) A) (k : A -> M (Doc N) B) :
  blames N jsPDF m -> (forall a, blames N jsPDF (k a)) ->
  blames N jsPDF (bind m k).
Proof.
  intros Hm Hk doc Hdoc. destruct (Hm doc Hdoc) as [Hr Hc]. unfold bind.
  destruct (m doc) as [[a|e|] d1]; cbn [fst snd] in *.
  - now apply Hk.
  - split; [exact Hr|exact Hc].
  - contradiction Hc.
Qed.

Lemma blames_try {A : Type} (body : M (Doc N) A) (handler : exn -> M (Doc N) A) :
  settles N jsPDF body -> (forall e, blames N jsPDF (handler e)) ->
  blames N jsPDF (try_catch body handler).
Proof.
  intros Hm Hk doc Hdoc. destruct (Hm doc Hdoc) as [Hr Hp]. unfold try_catch.
  destruct (body doc) as [[a|e|] d1]; cbn [fst snd] in *.
  - split; [exact Hr|exact I].
  - now apply Hk.
  - now contradiction Hp.
Qed.

Section Blame.

Variable options : PDFOptions.
Variables pageWidth pageHeight : num N.

Ltac bl :=
  repeat lazymatch goal with
    | |- blames _ _ (bind _ _) => apply blames_bind; [|intros ?]
    | |- blames _ _ (emit _ _ _) => apply blames_emit; reflexivity
    | |- blames _ _ (ret _) => apply blames_ret
    | |- blames _ _ (query _ _) => apply blames_query
    | |- blames _ _ (if ?c then _ else _) => destruct c
    end.

Lemma addHeaderFooter_blames :
  blames N jsPDF (addHeaderFooter N jsPDF options pageWidth pageHeight).
Proof.
  unfold addHeaderFooter.
  destruct (headerText options) as [h|], (footerText options) as [f|],
    (watermark options) as [w|]; bl.
Qed.

Lemma newPage_blames :
  blames N jsPDF (newPage N jsPDF options pageWidth pageHeight).
Proof. unfold newPage. bl. apply addHeaderFooter_blames. Qed.

Lemma add_lines_blames (lines : list string) (align : Align) (currentY : num N) :
  blames N jsPDF (add_lines N jsPDF options pageWidth pageHeight lines align
                            currentY).
Proof.
  revert currentY. induction lines as [|line lines IH]; intros currentY;
    cbn [add_lines]; bl; try apply newPage_blames; apply IH.
Qed.

Lemma addText_blames (text_ : string) (fontSize : Z) (isBold : bool)
      (align : Align) (startY : num N) (color : option string) :
  blames N jsPDF (addText N jsPDF options pageWidth pageHeight text_ fontSize
                          isBold align startY color).
Proof. unfold addText, splitTextToSize. bl. apply add_lines_blames. Qed.

Lemma titlePage_blames (title : option string) :
  blames N jsPDF (titlePage N jsPDF options pageWidth pageHeight title).
Proof.
  unfold titlePage, splitTextToSize.
  apply blames_bind; [|intros _; bl].
  destruct (logo options) as [l|]; bl.
  apply blames_try; [apply settles_emit|intros e; apply blames_ret].
Qed.

Lemma contents_entries_blames (chapters : list Chapter) (index : Z)
      (currentY : num N) :
  blames N jsPDF (contents_entries N jsPDF options pageWidth pageHeight chapters
                                   index currentY).
Proof.
  revert index currentY.
  induction chapters as [|c chapters IH]; intros index currentY;
    cbn [contents_entries]; bl; [apply addText_blames|apply IH].
Qed.

Lemma tableOfContents_blames (chapters : list Chapter) :
  blames N jsPDF (tableOfContents N jsPDF options pageWidth pageHeight chapters).
Proof.
  unfold tableOfContents. bl;
    [apply newPage_blames|apply addText_blames|apply contents_entries_blames].
Qed.

Lemma chapterImage_blames (chapter : Chapter) (currentY : num N) :
  blames N jsPDF (chapterImage N jsPDF options pageWidth pageHeight chapter
                               currentY).
Proof.
  unfold chapterImage. destruct (image chapter) as [img|]; bl.
  cbv zeta. apply blames_try; [|intros e; apply blames_ret].
  apply settles_bind.
  - destruct (n_gt N _ _);
      [apply settles_of_blames, newPage_blames|apply settles_ret].
  - intros y. apply settles_try; [|intros e; apply settles_ret].
    apply settles_bind; [apply settles_emit|intros _; apply settles_ret].
Qed.

Lemma chapterContent_blames (paragraphs : list string) (currentY : num N) :
  blames N jsPDF (chapterContent N jsPDF options pageWidth pageHeight paragraphs
                                 currentY).
Proof.
  revert currentY. induction paragraphs as [|p ps IH]; intros currentY;
    cbn [chapterContent]; bl; [apply IH|apply addText_blames|apply IH].
Qed.

Lemma chartData_blames (data : list DataPoint) (currentY : num N) :
  blames N jsPDF (chartData N jsPDF options pageWidth pageHeight data currentY).
Proof.
  revert currentY. induction data as [|d data IH]; intros currentY;
    cbn [chartData]; bl; [apply addText_blames|apply IH].
Qed.

Lemma chapterPages_blames (chapters : list Chapter) (i : Z) :
  blames N jsPDF (chapterPages N jsPDF options pageWidth pageHeight chapters i).
Proof.
  revert i. induction chapters as [|c chapters IH]; intros i;
    cbn [chapterPages]; bl; [|apply IH].
  unfold chapterPage. bl.
  - apply newPage_blames.
  - apply addText_blames.
  - apply chapterImage_blames.
  - apply chapterContent_blames.
  - unfold chapterChart. destruct (chart c) as [g|]; bl.
    + apply newPage_blames.
    + apply addText_blames.
    + apply chartData_blames.
Qed.

Lemma pageNumbers_blames (pages : list Z) (totalPages : Z) :
  blames N jsPDF (pageNumbers N jsPDF pageWidth pageHeight pages totalPages).
Proof.
  induction pages as [|i pages IH]; cbn [pageNumbers pageLabel emit_all]; bl.
  apply IH.
Qed.

End Blame.

Lemma createPDF_blames (title : option string) (chapters : list Chapter)
      (options : PDFOptions) :
  blames N jsPDF (createPDF N jsPDF title chapters options).
Proof.
  unfold createPDF.
  apply blames_bind; [now apply blames_emit|]. intros _.
  apply blames_bind; [apply blames_query|]. intros pageWidth.
  apply blames_bind; [apply blames_query|]. intros pageHeight.
  apply blames_bind; [apply titlePage_blames|]. intros _.
  apply blames_bind; [apply tableOfContents_blames|]. intros _.
  apply blames_bind; [apply chapterPages_blames|]. intros _.
  apply blames_bind; [apply blames_query|]. intros totalPages.
  apply blames_bind; [apply pageNumbers_blames|]. intros _.
  apply blames_bind; [now apply blames_emit|]. intros _.
  apply blames_query.
Qed.

Lemma createPDF_size (title : option string) (chapters : list Chapter)
      (options : PDFOptions) (size : Z) (doc : Doc N) :
  createPDF N jsPDF title chapters options [] = (Ok size, doc) ->
  size = blob_size jsPDF doc.
Proof.
  intros H. unfold createPDF in H.
  repeat (apply bind_Ok in H; destruct H as (? & ? & _ & H)).
  unfold query in H. now injection H as <- <-.
Qed.

(** X23.  An image that the drawing library refuses never makes
    [createPDF] fail.  Whatever the library does, [createPDF] comes to an
    end; when it throws, what it throws is the exception of a call other
    than [addImage], which the library threw in the document as
    [createPDF] left it; otherwise it returns the blob of the document.  The
    document holds no call that threw: a logo or a chapter image that
    [addImage] refused is not in it. *)
Theorem refused_image_is_never_fatal
        (title : option string) (chapters : list Chapter) (options : PDFOptions) :
  let out := createPDF N jsPDF title chapters options [] in
  match fst out with
  | Ok size => size = blob_size jsPDF (snd out)
  | Throw e =>
      exists op : Op N,
        is_addImage N op = false /\ throws jsPDF (snd out) op = Some e
  | Pending => False
  end
  /\ (forall (a : Doc N) (op : Op N) (b : list (Op N)),
        snd out = (a ++ op :: b)%list -> throws jsPDF a op = None).
Proof.
  cbv zeta.
  destruct (createPDF_blames title chapters options [] returned_nil) as [Hr Hc].
  split; [|exact Hr].
  destruct (createPDF N jsPDF title chapters options []) as [[size|e|] doc] eqn:E;
    cbn [fst snd] in *; [|exact Hc|exact Hc].
  exact (createPDF_size title chapters options size doc E).
Qed.

(** ** The calls that [createPDF] made *)

Lemma lays_ret {A : Type} (C : Doc N -> Prop) (Seg : list (Op N) -> Prop) (a : A) :
  Seg [] -> lays N C Seg (ret a).
Proof.
  intros H doc _. exists []. rewrite app_nil_r. split; [reflexivity|exact H].
Qed.

Lemma lays_query {A : Type} (C : Doc N -> Prop) (Seg : list (Op N) -> Prop)
      (f : Doc N -> A) :
  Seg [] -> lays N C Seg (query N f).
Proof.
  intros H doc _. exists []. rewrite app_nil_r. split; [reflexivity|exact H].
Qed.

Lemma lays_emit (C : Doc N -> Prop) (Seg : list (Op N) -> Prop) (op : Op N) :
  Seg [] -> Seg [op] -> lays N C Seg (emit N jsPDF op).
Proof.
  intros H0 H1 doc _. unfold emit. destruct (throws jsPDF doc op).
  - exists []. rewrite app_nil_r. split; [reflexivity|exact H0].
  - exists [op]. split; [reflexivity|exact H1].
Qed.

Section Laying.

Variable C : Doc N -> Prop.
Variable Seg : list (Op N) -> Prop.
Hypothesis C_down : forall d t, C (d ++ t)%list -> C d.
Hypothesis Seg_nil : Seg [].
Hypothesis Seg_app : forall l1 l2, Seg l1 -> Seg l2 -> Seg (l1 ++ l2)%list.
Hypothesis Seg_op :
  forall op, is_addPage N op = false -> is_setPage N op = false -> Seg [op].

Variable options : PDFOptions.
Variables pageWidth pageHeight : num N.
Hypothesis newPage_lays :
  lays N C Seg (newPage N jsPDF options pageWidth pageHeight).

Lemma l_bind {A B : Type} (m : M (Doc N) A) (k : A -> M (Doc N) B) :
  lays N C Seg m -> (forall a, lays N C Seg (k a)) -> lays N C Seg (bind m k).
Proof.
  intros Hm Hk doc. unfold bind.
  specialize (Hm doc).
  destruct (m doc) as [[a|e|] d1]; cbn [snd] in *; [|exact Hm|exact Hm].
  intros HC. destruct (Hk a d1 HC) as (l2 & E2 & P2).
  rewrite E2 in HC. destruct (Hm (C_down _ _ HC)) as (l1 & E1 & P1).
  exists (l1 ++ l2)%list. rewrite E2, E1, app_assoc. split; [reflexivity|auto].
Qed.

Lemma l_try {A : Type} (body : M (Doc N) A) (handler : exn -> M (Doc N) A) :
  lays N C Seg body -> (forall e, lays N C Seg (handler e)) ->
  lays N C Seg (try_catch body handler).
Proof.
  intros Hm Hk doc. unfold try_catch.
  specialize (Hm doc).
  destruct (body doc) as [[a|e|] d1]; cbn [snd] in *; [exact Hm| |exact Hm].
  intros HC. destruct (Hk e d1 HC) as (l2 & E2 & P2).
  rewrite E2 in HC. destruct (Hm (C_down _ _ HC)) as (l1 & E1 & P1).
  exists (l1 ++ l2)%list. rewrite E2, E1, app_assoc. split; [reflexivity|auto].
Qed.

Lemma l_emit (op : Op N) :
  is_addPage N op = false -> is_setPage N op = false ->
  lays N C Seg (emit N jsPDF op).
Proof. intros H1 H2. apply lays_emit; auto. Qed.

Ltac ly :=
  repeat lazymatch goal with
    | |- lays _ _ _ (bind _ _) => apply l_bind; [|intros ?]
    | |- lays _ _ _ (try_catch _ _) => apply l_try; [|intros ?]
    | |- lays _ _ _ (emit _ _ _) => apply l_emit; reflexivity
    | |- lays _ _ _ (newPage _ _ _ _ _) => apply newPage_lays
    | |- lays _ _ _ (ret _) => apply lays_ret; exact Seg_nil
    | |- lays _ _ _ (query _ _) => apply lays_query; exact Seg_nil
    | |- lays _ _ _ (if ?c then _ else _) => destruct c
    end.

Lemma add_lines_lays (lines : list string) (align : Align) (currentY : num N) :
  lays N C Seg (add_lines N jsPDF options pageWidth pageHeight lines align
                          currentY).
Proof.
  revert currentY. induction lines as [|line lines IH]; intros currentY;
    cbn [add_lines]; ly; apply IH.
Qed.

Lemma addText_lays (text_ : string) (fontSize : Z) (isBold : bool)
      (align : Align) (startY : num N) (color : option string) :
  lays N C Seg (addText N jsPDF options pageWidth pageHeight text_ fontSize
                        isBold align startY color).
Proof. unfold addText, splitTextToSize. ly. apply add_lines_lays. Qed.

Lemma titlePage_lays (title : option string) :
  lays N C Seg (titlePage N jsPDF options pageWidth pageHeight title).
Proof.
  unfold titlePage, splitTextToSize. destruct (logo options) as [l|]; ly.
Qed.

Lemma contents_entries_lays (chapters : list Chapter) (index : Z)
      (currentY : num N) :
  lays N C Seg (contents_entries N jsPDF options pageWidth pageHeight chapters
                                 index currentY).
Proof.
  revert index currentY.
  induction chapters as [|c chapters IH]; intros index currentY;
    cbn [contents_entries]; ly; [apply addText_lays|apply IH].
Qed.

Lemma tableOfContents_lays (chapters : list Chapter) :
  lays N C Seg (tableOfContents N jsPDF options pageWidth pageHeight chapters).
Proof.
  unfold tableOfContents. ly; [apply addText_lays|apply contents_entries_lays].
Qed.

Lemma chapterContent_lays (paragraphs : list string) (currentY : num N) :
  lays N C Seg (chapterContent N jsPDF options pageWidth pageHeight paragraphs
                               currentY).
Proof.
  revert currentY. induction paragraphs as [|p ps IH]; intros currentY;
    cbn [chapterContent]; ly; [apply IH|apply addText_lays|apply IH].
Qed.

Lemma chartData_lays (data : list DataPoint) (currentY : num N) :
  lays N C Seg (chartData N jsPDF options pageWidth pageHeight data currentY).
Proof.
  revert currentY. induction data as [|d data IH]; intros currentY;
    cbn [chartData]; ly; [apply addText_lays|apply IH].
Qed.

(** What follows the page break of a chapter. *)
Lemma chapterRest_lays (chapter : Chapter) (i : Z) (currentY : num N) :
  lays N C Seg
    (bind (addText N jsPDF options pageWidth pageHeight
                   ("Chapitre " ++ decimal (i + 1) ++ ": "
                    ++ template (title chapter))
                   22 true align_left currentY (Some (primaryColor options)))
          (fun currentY =>
             bind (chapterImage N jsPDF options pageWidth pageHeight chapter
                                (n_add N currentY (lit N 10)))
                  (fun currentY =>
                     bind (chapterContent N jsPDF options pageWidth pageHeight
                                          (split (content chapter)) currentY)
                          (fun currentY =>
                             bind (chapterChart N jsPDF options pageWidth
                                                pageHeight chapter currentY)
                                  (fun _ => ret tt))))).
Proof.
  ly.
  - apply addText_lays.
  - unfold chapterImage. destruct (image chapter) as [img|]; ly.
  - apply chapterContent_lays.
  - unfold chapterChart. destruct (chart chapter) as [g|]; ly.
    + apply addText_lays.
    + apply chartData_lays.
Qed.

Lemma chapterPages_lays (chapters : list Chapter) (i : Z) :
  lays N C Seg (chapterPages N jsPDF options pageWidth pageHeight chapters i).
Proof.
  revert i. induction chapters as [|c chapters IH]; intros i;
    cbn [chapterPages]; ly; [|apply IH].
  unfold chapterPage. apply l_bind; [apply newPage_lays|]. intros y.
  apply chapterRest_lays.
Qed.

End Laying.

(** *** Page breaks *)

Lemma addHeaderFooter_emit_all (options : PDFOptions)
      (pageWidth pageHeight : num N) (doc : Doc N) :
  addHeaderFooter N jsPDF options pageWidth pageHeight doc
  = emit_all N jsPDF (headerFooter N options pageWidth pageHeight) doc.
Proof.
  unfold addHeaderFooter, headerFooter.
  destruct (headerText options) as [h|]; [destruct (truthy h)|];
    (destruct (footerText options) as [f|]; [destruct (truthy f)|]);
    (destruct (watermark options) as [w|]; [destruct (truthy w)|]);
    cbn [app emit_all]; unfold bind, ret, emit;
    repeat match goal with
           | |- context [throws jsPDF ?d ?o] =>
               destruct (throws jsPDF d o); try reflexivity
           end.
Qed.

(** The calls of a list are made in order, up to the first that throws. *)
Lemma emit_all_prefix (ops : list (Op N)) (doc : Doc N) :
  exists h1 rest : list (Op N),
    ops = (h1 ++ rest)%list
    /\ snd (emit_all N jsPDF ops doc) = (doc ++ h1)%list
    /\ (rest = []
        \/ exists (op : Op N) (h2 : list (Op N)) (e : exn),
             rest = op :: h2 /\ throws jsPDF (doc ++ h1)%list op = Some e).
Proof.
  revert doc. induction ops as [|op ops IH]; intros doc.
  - exists [], [].
    split; [reflexivity|]. split; [cbn; now rewrite app_nil_r|now left].
  - cbn [emit_all]. unfold bind, emit.
    destruct (throws jsPDF doc op) as [e|] eqn:E.
    + exists [], (op :: ops). split; [reflexivity|].
      split; [cbn; now rewrite app_nil_r|]. right. exists op, ops, e.
      rewrite app_nil_r. now split.
    + destruct (IH (doc ++ [op])%list) as (h1 & rest & -> & Hs & Hr).
      exists (op :: h1), rest. split; [reflexivity|].
      split; [now rewrite Hs, <- app_assoc|].
      now rewrite <- app_assoc in Hr.
Qed.

Lemma decorates_down (hf : list (Op N)) (d t : Doc N) :
  decorates N jsPDF hf (d ++ t)%list -> decorates N jsPDF hf d.
Proof.
  intros H a h1 op h2 t' Ehf Ed. apply (H a h1 op h2 (t' ++ t)%list Ehf).
  now rewrite Ed, <- app_assoc.
Qed.

(** A page break: either [addPage] throws and nothing is done, or the
    calls of [addHeaderFooter] follow, up to the first that throws. *)
Lemma newPage_cases (options : PDFOptions) (pageWidth pageHeight : num N)
      (doc : Doc N) :
  snd (newPage N jsPDF options pageWidth pageHeight doc) = doc
  \/ exists h1 rest : list (Op N),
       headerFooter N options pageWidth pageHeight = (h1 ++ rest)%list
       /\ snd (newPage N jsPDF options pageWidth pageHeight doc)
          = (doc ++ doc_addPage :: h1)%list
       /\ (rest = []
           \/ exists (op : Op N) (h2 : list (Op N)) (e : exn),
                rest = op :: h2
                /\ throws jsPDF (doc ++ doc_addPage :: h1)%list op = Some e).
Proof.
  unfold newPage, bind.
  destruct (throws jsPDF doc doc_addPage) as [e|] eqn:E.
  { left. unfold emit. now rewrite E. }
  right. unfold emit at 1. rewrite E. cbv beta iota.
  rewrite addHeaderFooter_emit_all.
  destruct (emit_all_prefix (headerFooter N options pageWidth pageHeight)
              (doc ++ [doc_addPage])%list) as (h1 & rest & Ehf & Hs & Hr).
  exists h1, rest. rewrite <- app_assoc in Hs, Hr. cbn [app] in Hs, Hr.
  split; [exact Ehf|]. split; [|exact Hr].
  destruct (emit_all N jsPDF (headerFooter N options pageWidth pageHeight)
              (doc ++ [doc_addPage])%list) as [[u|e|] d]; exact Hs.
Qed.

Lemma newPage_decorated (options : PDFOptions) (pageWidth pageHeight : num N) :
  lays N (decorates N jsPDF (headerFooter N options pageWidth pageHeight))
       (paged N (headerFooter N options pageWidth pageHeight))
       (newPage N jsPDF options pageWidth pageHeight).
Proof.
  intros doc Hdec.
  destruct (newPage_cases options pageWidth pageHeight doc)
    as [E|(h1 & rest & Ehf & E & Hr)]; rewrite E in Hdec |- *.
  { exists []. rewrite app_nil_r. split; [reflexivity|constructor]. }
  destruct Hr as [->|(op & h2 & e & -> & Hthrow)].
  - rewrite app_nil_r in Ehf. subst h1.
    exists (doc_addPage :: headerFooter N options pageWidth pageHeight).
    split; [reflexivity|].
    rewrite <- (app_nil_r (headerFooter N options pageWidth pageHeight)) at 2.
    apply paged_break, paged_nil.
  - exfalso.
    pose proof (Hdec doc h1 op h2 [] Ehf (eq_sym (app_nil_r _))) as Hnone.
    rewrite Hnone in Hthrow. discriminate Hthrow.
Qed.

(** What [createPDF] does once the page size is read. *)
Lemma createPDF_rest_lays (C : Doc N -> Prop) (Seg : list (Op N) -> Prop)
      (title : option string) (chapters : list Chapter) (options : PDFOptions)
      (pageWidth pageHeight : num N) :
  (forall d t, C (d ++ t)%list -> C d) ->
  Seg [] ->
  (forall l1 l2, Seg l1 -> Seg l2 -> Seg (l1 ++ l2)%list) ->
  (forall op, is_addPage N op = false -> Seg [op]) ->
  lays N C Seg (newPage N jsPDF options pageWidth pageHeight) ->
  lays N C Seg
       (bind (titlePage N jsPDF options pageWidth pageHeight title)
          (fun _ =>
             bind (tableOfContents N jsPDF options pageWidth pageHeight chapters)
               (fun _ =>
                  bind (chapterPages N jsPDF options pageWidth pageHeight chapters 0)
                    (fun _ =>
                       bind (query N (fun doc => pages_length jsPDF doc - 1))
                         (fun totalPages =>
                            bind (pageNumbers N jsPDF pageWidth pageHeight
                                              (upto totalPages) totalPages)
                              (fun _ =>
                                 bind (emit N jsPDF doc_output)
                                   (fun _ => query N (blob_size jsPDF)))))))).
Proof.
  intros C_down Seg_nil Seg_app Seg_op Hnew.
  assert (Seg_op' : forall op, is_addPage N op = false -> is_setPage N op = false ->
                               Seg [op]) by auto.
  assert (Hlabels : forall pages totalPages,
             lays N C Seg (pageNumbers N jsPDF pageWidth pageHeight pages
                                       totalPages)).
  { intros pages totalPages.
    induction pages as [|i pages IH]; cbn [pageNumbers pageLabel emit_all].
    - now apply lays_ret.
    - repeat (apply (l_bind C Seg C_down Seg_app); [|intros ?]);
        try (apply lays_emit; [exact Seg_nil|now apply Seg_op]);
        try exact IH.
      now apply lays_ret. }
  apply (l_bind C Seg C_down Seg_app);
    [now apply titlePage_lays|]. intros _.
  apply (l_bind C Seg C_down Seg_app);
    [now apply tableOfContents_lays|]. intros _.
  apply (l_bind C Seg C_down Seg_app);
    [now apply chapterPages_lays|]. intros _.
  apply (l_bind C Seg C_down Seg_app); [now apply lays_query|]. intros totalPages.
  apply (l_bind C Seg C_down Seg_app); [apply Hlabels|]. intros _.
  apply (l_bind C Seg C_down Seg_app);
    [apply lays_emit; [exact Seg_nil|now apply Seg_op]|]. intros _.
  now apply lays_query.
Qed.

(** The first call, in the new document. *)
Lemma createPDF_start (title : option string) (chapters : list Chapter)
      (options : PDFOptions) :
  let start :=
    [new_jsPDF (N:=N) (negb (noCompression options))
               (match quality options with ultra => 16 | _ => 2 end)] in
  let pageWidth := getWidth jsPDF start in
  let pageHeight := getHeight jsPDF start in
  (exists e, createPDF N jsPDF title chapters options [] = (Throw e, []))
  \/ createPDF N jsPDF title chapters options []
     = bind (titlePage N jsPDF options pageWidth pageHeight title)
         (fun _ =>
            bind (tableOfContents N jsPDF options pageWidth pageHeight chapters)
              (fun _ =>
                 bind (chapterPages N jsPDF options pageWidth pageHeight chapters 0)
                   (fun _ =>
                      bind (query N (fun doc => pages_length jsPDF doc - 1))
                        (fun totalPages =>
                           bind (pageNumbers N jsPDF pageWidth pageHeight
                                             (upto totalPages) totalPages)
                             (fun _ =>
                                bind (emit N jsPDF doc_output)
                                  (fun _ => query N (blob_size jsPDF)))))))
         start.
Proof.
  cbv zeta. unfold createPDF.
  destruct (throws jsPDF []
              (new_jsPDF (negb (noCompression options))
                         (match quality options with ultra => 16 | _ => 2 end)))
    as [e|] eqn:E.
  - left. exists e. unfold bind at 1. unfold emit. now rewrite E.
  - right. unfold bind at 1. unfold emit at 1. rewrite E.
    cbv beta iota delta [bind query app]. reflexivity.
Qed.

Lemma decorates_when_header_returns (hf : list (Op N)) (doc : Doc N) :
  Forall (fun op => forall d : Doc N, throws jsPDF d op = None) hf ->
  decorates N jsPDF hf doc.
Proof.
  intros H a h1 op h2 t E _. rewrite Forall_forall in H. apply H.
  rewrite E. apply in_elt.
Qed.

(** X24.  Every page added to the document gets the header, the footer and
    the watermark at once.  In a run of [createPDF] in which the calls of
    [addHeaderFooter] that follow a page break return, each call of
    [addPage] in the document is followed directly by all the calls of
    [addHeaderFooter], whether the page is that of the table of contents,
    the first page of a chapter, or a page opened because a line, an image
    or a chart did not fit, and whether [createPDF] returns or throws
    later. *)
Theorem every_page_break_is_decorated
        (title : option string) (chapters : list Chapter) (options : PDFOptions)
        (a b : list (Op N)) :
  let start :=
    [new_jsPDF (negb (noCompression options))
               (match quality options with ultra => 16 | _ => 2 end)] in
  let pageWidth := getWidth jsPDF start in
  let pageHeight := getHeight jsPDF start in
  let doc := snd (createPDF N jsPDF title chapters options []) in
  decorates N jsPDF (headerFooter N options pageWidth pageHeight) doc ->
  doc = (a ++ doc_addPage :: b)%list ->
  exists c : list (Op N),
    b = (headerFooter N options pageWidth pageHeight ++ c)%list.
Proof.
  intros start pageWidth pageHeight doc Hdec Hsplit.
  set (hf := headerFooter N options pageWidth pageHeight) in *.
  assert (Hhf : Forall (fun op => is_addPage N op = false) hf).
  { eapply Forall_impl; [|apply headerFooter_plain]. cbn. tauto. }
  destruct (createPDF_start title chapters options) as [[e He]|He];
    cbv zeta in He; fold start in He; fold pageWidth in He; fold pageHeight in He.
  { subst doc. rewrite He in Hsplit. destruct a; discriminate Hsplit. }
  assert (Hl : lays N (decorates N jsPDF hf) (paged N hf)
                    (bind (titlePage N jsPDF options pageWidth pageHeight title)
                       (fun _ =>
                          bind (tableOfContents N jsPDF options pageWidth pageHeight
                                                chapters)
                            (fun _ =>
                               bind (chapterPages N jsPDF options pageWidth
                                                  pageHeight chapters 0)
                                 (fun _ =>
                                    bind (query N (fun doc =>
                                                     pages_length jsPDF doc - 1))
                                      (fun totalPages =>
                                         bind (pageNumbers N jsPDF pageWidth
                                                 pageHeight (upto totalPages)
                                                 totalPages)
                                           (fun _ =>
                                              bind (emit N jsPDF doc_output)
                                                (fun _ =>
                                                   query N (blob_size jsPDF))))))))).
  { apply createPDF_rest_lays.
    - apply decorates_down.
    - constructor.
    - apply paged_app.
    - intros op H. constructor; [exact H|constructor].
    - apply newPage_decorated. }
  subst doc. rewrite He in Hdec, Hsplit.
  destruct (Hl start Hdec) as (l & El & Pl).
  rewrite El in Hsplit.
  refine (paged_inv hf (start ++ l)%list Hhf _ a b Hsplit).
  apply paged_app; [|exact Pl].
  constructor; [reflexivity|constructor].
Qed.


(** *** Page labels *)

Section Plain.

Variable options : PDFOptions.
Variables pageWidth pageHeight : num N.

Lemma unselected_app (l1 l2 : list (Op N)) :
  Forall (fun op => is_setPage N op = false) l1 ->
  Forall (fun op => is_setPage N op = false) l2 ->
  Forall (fun op => is_setPage N op = false) (l1 ++ l2)%list.
Proof. intros H1 H2. apply Forall_app. now split. Qed.

Lemma unselected_op (op : Op N) :
  is_addPage N op = false -> is_setPage N op = false ->
  Forall (fun op => is_setPage N op = false) [op].
Proof. intros _ H. now repeat constructor. Qed.

Lemma newPage_unselected :
  lays N (fun _ => True) (Forall (fun op => is_setPage N op = false))
       (newPage N jsPDF options pageWidth pageHeight).
Proof.
  intros doc _.
  destruct (newPage_cases options pageWidth pageHeight doc)
    as [E|(h1 & rest & Ehf & E & _)]; rewrite E.
  - exists []. rewrite app_nil_r. split; [reflexivity|constructor].
  - exists (doc_addPage :: h1). split; [reflexivity|].
    constructor; [reflexivity|].
    pose proof (headerFooter_plain options pageWidth pageHeight) as H.
    rewrite Ehf in H. apply Forall_app in H. destruct H as [H _].
    eapply Forall_impl; [|exact H]. cbn. tauto.
Qed.

Lemma added_pages_grow (doc l : list (Op N)) :
  (added_pages N doc <= added_pages N (doc ++ l)%list)%nat.
Proof. rewrite added_pages_app. apply Nat.le_add_r. Qed.

Lemma newPage_Ok_adds (doc d : Doc N) (y : num N) :
  newPage N jsPDF options pageWidth pageHeight doc = (Ok y, d) ->
  (added_pages N doc + 1 <= added_pages N d)%nat.
Proof.
  intros H.
  destruct (newPage_cases options pageWidth pageHeight doc)
    as [E|(h1 & rest & _ & E & _)]; rewrite H in E; cbn [snd] in E.
  - exfalso. unfold newPage in H. apply bind_Ok in H.
    destruct H as (u & d1 & H1 & H2). apply emit_Ok in H1.
    apply bind_Ok in H2. destruct H2 as (v & d2 & H2 & H3).
    injection H3 as _ H3.
    rewrite addHeaderFooter_emit_all in H2.
    destruct (emit_all_prefix (headerFooter N options pageWidth pageHeight) d1)
      as (h1 & rest & _ & Hs & _).
    rewrite H2 in Hs. cbn [snd] in Hs.
    rewrite H3, E, H1 in Hs.
    apply (f_equal (@List.length (Op N))) in Hs.
    rewrite !length_app in Hs. cbn [List.length] in Hs. lia.
  - rewrite E, added_pages_app. unfold added_pages at 3.
    cbn [filter is_addPage List.length]. lia.
Qed.

Lemma chapterPages_Ok_adds (chapters : list Chapter) :
  forall (i : Z) (doc d : Doc N) (u : unit),
    chapterPages N jsPDF options pageWidth pageHeight chapters i doc = (Ok u, d) ->
    (added_pages N doc + List.length chapters <= added_pages N d)%nat.
Proof.
  induction chapters as [|c chapters IH]; intros i doc d u H;
    cbn [chapterPages List.length] in *.
  - injection H as _ <-. lia.
  - apply bind_Ok in H. destruct H as (v & d1 & H1 & H2).
    apply IH in H2.
    unfold chapterPage in H1. apply bind_Ok in H1.
    destruct H1 as (y & d0 & H0 & H1).
    apply newPage_Ok_adds in H0.
    destruct (chapterRest_lays (fun _ => True)
                (Forall (fun op => is_setPage N op = false))
                (fun _ _ _ => I) (Forall_nil _) unselected_app unselected_op
                options pageWidth pageHeight newPage_unselected c i y d0 I)
      as (l & El & _).
    rewrite H1 in El. cbn [snd] in El. subst d1.
    pose proof (added_pages_grow d0 l). lia.
Qed.

Lemma tableOfContents_Ok_adds (chapters : list Chapter) (doc d : Doc N)
      (u : unit) :
  tableOfContents N jsPDF options pageWidth pageHeight chapters doc = (Ok u, d) ->
  (added_pages N doc + 1 <= added_pages N d)%nat.
Proof.
  intros H. unfold tableOfContents in H. apply bind_Ok in H.
  destruct H as (y & d0 & H0 & H1). apply newPage_Ok_adds in H0.
  assert (Hrest : lays N (fun _ => True)
                       (Forall (fun op => is_setPage N op = false))
                       (bind (addText N jsPDF options pageWidth pageHeight
                                ("Table des mati" ++ cu 232 ++ "res") 24 true
                                align_left y (Some (primaryColor options)))
                          (fun currentY =>
                             bind (contents_entries N jsPDF options pageWidth
                                     pageHeight chapters 0
                                     (n_add N currentY (lit N 10)))
                               (fun _ => ret tt)))).
  { apply (l_bind _ _ (fun _ _ _ => I) unselected_app).
    - now apply addText_lays;
        auto using unselected_app, unselected_op, newPage_unselected.
    - intros y'. apply (l_bind _ _ (fun _ _ _ => I) unselected_app).
      + now apply contents_entries_lays;
          auto using unselected_app, unselected_op, newPage_unselected.
      + intros _. apply lays_ret. constructor. }
  destruct (Hrest d0 I) as (l & El & _). rewrite H1 in El. cbn [snd] in El.
  subst d. pose proof (added_pages_grow d0 l). lia.
Qed.

End Plain.

(** X25.  The page labels.  When [createPDF] returns, the calls it made
    end with the labelling of the pages and the output: for [i] from 1 to
    the number [totalPages] of pages that the library reports, page [i] is
    selected and the text [Page i sur totalPages] is put on it; no page is
    selected before.  Before the labels, at least one page was added for
    the table of contents and one for each chapter. *)
Theorem every_page_is_labelled
        (title : option string) (chapters : list Chapter) (options : PDFOptions)
        (size : Z) :
  let start :=
    [new_jsPDF (negb (noCompression options))
               (match quality options with ultra => 16 | _ => 2 end)] in
  let pageWidth := getWidth jsPDF start in
  let pageHeight := getHeight jsPDF start in
  fst (createPDF N jsPDF title chapters options []) = Ok size ->
  exists body : list (Op N),
    let totalPages := pages_length jsPDF body - 1 in
    snd (createPDF N jsPDF title chapters options [])
    = (body
       ++ flat_map (fun i => pageLabel N pageWidth pageHeight i totalPages)
                   (upto totalPages)
       ++ [doc_output])%list
    /\ Forall (fun op => is_setPage N op = false) body
    /\ (List.length chapters + 1 <= added_pages N body)%nat.
Proof.
  intros start pageWidth pageHeight Hok.
  destruct (createPDF_start title chapters options) as [[e He]|He];
    cbv zeta in He; fold start in He; fold pageWidth in He; fold pageHeight in He.
  { rewrite He in Hok. discriminate Hok. }
  rewrite He in Hok |- *.
  match type of Hok with fst (?m start) = _ =>
    destruct (m start) as [res d] eqn:E end.
  cbn [fst snd] in *. subst res.
  apply bind_Ok in E. destruct E as (u1 & d1 & E1 & E).
  apply bind_Ok in E. destruct E as (u2 & d2 & E2 & E).
  apply bind_Ok in E. destruct E as (u3 & d3 & E3 & E).
  apply bind_Ok in E. destruct E as (totalPages & d3' & Eq & E).
  unfold query in Eq. injection Eq as <- <-.
  apply bind_Ok in E. destruct E as (u4 & d4 & E4 & E).
  apply pageNumbers_Ok in E4.
  apply bind_Ok in E. destruct E as (u5 & d5 & E5 & E).
  apply emit_Ok in E5. unfold query in E. injection E as _ <-.
  exists d3. cbv zeta. subst d5 d4. rewrite <- app_assoc.
  split; [reflexivity|].
  destruct (titlePage_lays (fun _ => True)
              (Forall (fun op => is_setPage N op = false))
              (fun _ _ _ => I) (Forall_nil _) unselected_app unselected_op
              options pageWidth pageHeight title start I) as (l1 & El1 & P1).
  rewrite E1 in El1. cbn [snd] in El1.
  destruct (tableOfContents_lays (fun _ => True)
              (Forall (fun op => is_setPage N op = false))
              (fun _ _ _ => I) (Forall_nil _) unselected_app unselected_op
              options pageWidth pageHeight
              (newPage_unselected options pageWidth pageHeight)
              chapters d1 I) as (l2 & El2 & P2).
  rewrite E2 in El2. cbn [snd] in El2.
  destruct (chapterPages_lays (fun _ => True)
              (Forall (fun op => is_setPage N op = false))
              (fun _ _ _ => I) (Forall_nil _) unselected_app unselected_op
              options pageWidth pageHeight
              (newPage_unselected options pageWidth pageHeight)
              chapters 0 d2 I) as (l3 & El3 & P3).
  rewrite E3 in El3. cbn [snd] in El3.
  apply tableOfContents_Ok_adds in E2. apply chapterPages_Ok_adds in E3.
  split.
  - subst d3 d2 d1. repeat apply unselected_app; try assumption.
    now repeat constructor.
  - lia.
Qed.

(** ** The texts that are measured *)

Section Measured.

Variable title : option string.
Variable options : PDFOptions.
Variables pageWidth pageHeight : num N.

Ltac ap :=
  repeat lazymatch goal with
    | |- appends _ _ (bind _ _) => apply appends_bind; [|intros ?]
    | |- appends _ _ (try_catch _ _) => apply appends_try; [|intros ?]
    | |- appends _ _ (emit _ _ _) => apply appends_emit; try exact I
    | |- appends _ _ (ret _) => apply appends_ret
    | |- appends _ _ (query _ _) => apply appends_query
    | |- appends _ _ (if ?c then _ else _) => destruct c
    end.

Lemma truthy_app_r (a b : string) : truthy b = true -> truthy (a ++ b) = true.
Proof. intros H. destruct a; [exact H|reflexivity]. Qed.

Lemma addHeaderFooter_appends :
  appends N (Forall (measured_ok N title))
          (addHeaderFooter N jsPDF options pageWidth pageHeight).
Proof.
  unfold addHeaderFooter.
  destruct (headerText options) as [h|], (footerText options) as [f|],
    (watermark options) as [w|]; ap.
Qed.

Lemma newPage_appends :
  appends N (Forall (measured_ok N title))
          (newPage N jsPDF options pageWidth pageHeight).
Proof. unfold newPage. ap. apply addHeaderFooter_appends. Qed.

Lemma add_lines_appends (lines : list string) (align : Align) (currentY : num N) :
  appends N (Forall (measured_ok N title))
          (add_lines N jsPDF options pageWidth pageHeight lines align currentY).
Proof.
  revert currentY. induction lines as [|line lines IH]; intros currentY;
    cbn [add_lines]; ap; try apply newPage_appends; apply IH.
Qed.

Lemma addText_appends (text_ : string) (fontSize : Z) (isBold : bool)
      (align : Align) (startY : num N) (color : option string) :
  truthy text_ = true ->
  appends N (Forall (measured_ok N title))
          (addText N jsPDF options pageWidth pageHeight text_ fontSize isBold
                   align startY color).
Proof.
  intros H. unfold addText, splitTextToSize. ap.
  - right. now exists text_.
  - apply add_lines_appends.
Qed.

Lemma titlePage_appends :
  appends N (Forall (measured_ok N title))
          (titlePage N jsPDF options pageWidth pageHeight title).
Proof.
  unfold titlePage, splitTextToSize.
  destruct (logo options) as [l|]; ap; now left.
Qed.

Lemma contents_entries_appends (chapters : list Chapter) (index : Z)
      (currentY : num N) :
  appends N (Forall (measured_ok N title))
          (contents_entries N jsPDF options pageWidth pageHeight chapters index
                            currentY).
Proof.
  revert index currentY.
  induction chapters as [|c chapters IH]; intros index currentY;
    cbn [contents_entries]; ap; [|apply IH].
  apply addText_appends. now apply truthy_app_r.
Qed.

Lemma chapterContent_appends (paragraphs : list string) (currentY : num N) :
  appends N (Forall (measured_ok N title))
          (chapterContent N jsPDF options pageWidth pageHeight paragraphs
                          currentY).
Proof.
  revert currentY. induction paragraphs as [|p ps IH]; intros currentY;
    cbn [chapterContent]; [ap|].
  destruct (truthy (trim p)) eqn:Hp; cbn [negb]; [|apply IH].
  ap; [now apply addText_appends|apply IH].
Qed.

Lemma chartData_appends (data : list DataPoint) (currentY : num N) :
  appends N (Forall (measured_ok N title))
          (chartData N jsPDF options pageWidth pageHeight data currentY).
Proof.
  revert currentY. induction data as [|d data IH]; intros currentY;
    cbn [chartData]; ap; [|apply IH].
  apply addText_appends. now apply truthy_app_r.
Qed.

Lemma chapterPages_appends (chapters : list Chapter) (i : Z) :
  appends N (Forall (measured_ok N title))
          (chapterPages N jsPDF options pageWidth pageHeight chapters i).
Proof.
  revert i. induction chapters as [|c chapters IH]; intros i;
    cbn [chapterPages]; ap; [|apply IH].
  unfold chapterPage. ap.
  - apply newPage_appends.
  - now apply addText_appends.
  - unfold chapterImage. destruct (image c) as [img|]; ap.
    apply newPage_appends.
  - apply chapterContent_appends.
  - unfold chapterChart. destruct (chart c) as [g|]; ap.
    + apply newPage_appends.
    + now apply addText_appends.
    + apply chartData_appends.
Qed.

Lemma pageNumbers_appends (pages : list Z) (totalPages : Z) :
  appends N (Forall (measured_ok N title))
          (pageNumbers N jsPDF pageWidth pageHeight pages totalPages).
Proof.
  induction pages as [|i pages IH]; cbn [pageNumbers pageLabel emit_all]; ap.
  apply IH.
Qed.

End Measured.

(** X26.  [createPDF] never has an empty text measured, the title of the
    book apart: whatever the library does, every text that it hands to
    [splitTextToSize] is the title it was given or a string that is not
    empty; in particular a paragraph made of white space is skipped. *)
Theorem no_empty_text_is_measured
        (title : option string) (chapters : list Chapter) (options : PDFOptions) :
  Forall (measured_ok N title)
         (snd (createPDF N jsPDF title chapters options [])).
Proof.
  assert (H : appends N (Forall (measured_ok N title))
                      (createPDF N jsPDF title chapters options)).
  { unfold createPDF.
    apply appends_bind; [now apply appends_emit|]. intros _.
    apply appends_bind; [apply appends_query|]. intros pageWidth.
    apply appends_bind; [apply appends_query|]. intros pageHeight.
    apply appends_bind; [apply titlePage_appends|]. intros _.
    apply appends_bind.
    { unfold tableOfContents.
      apply appends_bind; [apply newPage_appends|]. intros y.
      apply appends_bind; [now apply addText_appends|]. intros y'.
      apply appends_bind; [apply contents_entries_appends|]. intros _.
      apply appends_ret. }
    intros _.
    apply appends_bind; [apply chapterPages_appends|]. intros _.
    apply appends_bind; [apply appends_query|]. intros totalPages.
    apply appends_bind; [apply pageNumbers_appends|]. intros _.
    apply appends_bind; [now apply appends_emit|]. intros _.
    apply appends_query. }
  destruct (H []) as (l & E & P). rewrite E. exact P.
Qed.

(** ** Blank paragraphs *)

Lemma bind_ext {A B : Type} (m m' : M (Doc N) A) (k k' : A -> M (Doc N) B)
      (doc : Doc N) :
  (forall d, m d = m' d) -> (forall a d, k a d = k' a d) ->
  bind m k doc = bind m' k' doc.
Proof.
  intros Hm Hk. unfold bind. rewrite Hm.
  destruct (m' doc) as [[a|e|] d]; [apply Hk|reflexivity|reflexivity].
Qed.

Section Blank.

Variable options : PDFOptions.
Variables pageWidth pageHeight : num N.

Lemma chapterContent_filter (ps : list string) (y : num N) (doc : Doc N) :
  chapterContent N jsPDF options pageWidth pageHeight ps y doc
  = chapterContent N jsPDF options pageWidth pageHeight
                   (filter (fun p => truthy (trim p)) ps) y doc.
Proof.
  revert y doc. induction ps as [|p ps IH]; intros y doc; [reflexivity|].
  cbn [chapterContent filter].
  destruct (truthy (trim p)) eqn:Hp; cbn [negb]; [|apply IH].
  cbn [chapterContent]. rewrite Hp. cbn [negb].
  apply bind_ext; [reflexivity|]. intros a d. apply IH.
Qed.

Lemma chapterContent_trim (qs qs' : list string) :
  Forall (fun p => truthy (trim p) = true) qs ->
  Forall (fun p => truthy (trim p) = true) qs' ->
  map trim qs = map trim qs' ->
  forall (y : num N) (doc : Doc N),
    chapterContent N jsPDF options pageWidth pageHeight qs y doc
    = chapterContent N jsPDF options pageWidth pageHeight qs' y doc.
Proof.
  intros H. revert qs'. induction H as [|p qs Hp H IH]; intros qs' H' E y doc.
  - destruct qs'; [reflexivity|discriminate E].
  - destruct H' as [|p' qs' Hp' H']; [discriminate E|].
    cbn [map] in E. injection E as Et E.
    cbn [chapterContent]. rewrite Hp, Hp', Et. cbn [negb].
    apply bind_ext; [reflexivity|]. intros a d. now apply IH.
Qed.

Lemma chapterContent_paragraphs (content content' : string) (y : num N)
      (doc : Doc N) :
  paragraphs content = paragraphs content' ->
  chapterContent N jsPDF options pageWidth pageHeight (split content) y doc
  = chapterContent N jsPDF options pageWidth pageHeight (split content') y doc.
Proof.
  intros E. rewrite (chapterContent_filter (split content)),
              (chapterContent_filter (split content')).
  apply chapterContent_trim; [| |exact E];
    apply Forall_forall; intros p Hin; apply filter_In in Hin; apply Hin.
Qed.

Lemma chapterPages_same (cs cs' : list Chapter) :
  Forall2 same_print cs cs' ->
  forall (i : Z) (doc : Doc N),
    chapterPages N jsPDF options pageWidth pageHeight cs i doc
    = chapterPages N jsPDF options pageWidth pageHeight cs' i doc.
Proof.
  induction 1 as [|c c' cs cs' (Ht & Hi & Hc & Hp) H IH]; intros i doc;
    [reflexivity|].
  cbn [chapterPages]. apply bind_ext; [|intros a d; apply IH].
  intros d. unfold chapterPage. rewrite Ht.
  apply bind_ext; [reflexivity|]. intros y1 d1.
  apply bind_ext; [reflexivity|]. intros y2 d2.
  apply bind_ext; [intros d'; unfold chapterImage; now rewrite Hi|].
  intros y3 d3.
  apply bind_ext; [intros d'; now apply chapterContent_paragraphs|].
  intros y4 d4.
  apply bind_ext; [intros d'; unfold chapterChart; now rewrite Hc|].
  reflexivity.
Qed.

Lemma contents_entries_same (cs cs' : list Chapter) :
  Forall2 same_print cs cs' ->
  forall (index : Z) (y : num N) (doc : Doc N),
    contents_entries N jsPDF options pageWidth pageHeight cs index y doc
    = contents_entries N jsPDF options pageWidth pageHeight cs' index y doc.
Proof.
  induction 1 as [|c c' cs cs' (Ht & _) H IH]; intros index y doc;
    [reflexivity|].
  cbn [contents_entries]. rewrite Ht.
  apply bind_ext; [reflexivity|]. intros a d. apply IH.
Qed.

End Blank.

(** X27.  The renderer draws a chapter from its title, its image, its chart
    and the paragraphs of its content that are not blank, each without the
    white space around it: two lists of chapters that agree on these make
    [createPDF] do the same calls and return the same result, however many
    blank paragraphs their contents hold. *)
Theorem blank_paragraphs_are_not_drawn
        (title : option string) (chapters chapters' : list Chapter)
        (options : PDFOptions) :
  Forall2 same_print chapters chapters' ->
  createPDF N jsPDF title chapters options []
  = createPDF N jsPDF title chapters' options [].
Proof.
  intros H. unfold createPDF.
  apply bind_ext; [reflexivity|]. intros _ d0.
  apply bind_ext; [reflexivity|]. intros pageWidth d1.
  apply bind_ext; [reflexivity|]. intros pageHeight d2.
  apply bind_ext; [reflexivity|]. intros _ d3.
  apply bind_ext.
  { intros d. unfold tableOfContents.
    apply bind_ext; [reflexivity|]. intros y d'.
    apply bind_ext; [reflexivity|]. intros y' d''.
    apply bind_ext; [|reflexivity]. intros d4.
    now apply contents_entries_same. }
  intros _ d4.
  apply bind_ext; [intros d; now apply chapterPages_same|].
  reflexivity.
Qed.

End AnyLibrary.

(** With a library that refuses every image and every colour that is not a
    number, a chapter with an image is rendered without the image, and a
    colour that is not hexadecimal makes the title page fail. *)
Lemma refused_image_is_never_fatal_witness :
  fst (createPDF exact strict (Some "T") [pictured] Samples.sample_options [])
  = Ok 52
  /\ filter (is_addImage exact)
            (snd (createPDF exact strict (Some "T") [pictured]
                            Samples.sample_options []))
     = []
  /\ createPDF exact strict (Some "T") [pictured] Samples.bad_color_options []
     = (Throw (Error "Invalid color"),
        [new_jsPDF false 2; doc_setFontSize 32; doc_setFont helvetica true])
  /\ exists op : Op exact,
       is_addImage exact op = false
       /\ throws strict
                 [new_jsPDF false 2; doc_setFontSize 32; doc_setFont helvetica true]
                 op
          = Some (Error "Invalid color").
Proof.
  split; [reflexivity|]. split; [reflexivity|].
  split; [reflexivity|].
  exact (proj1 (refused_image_is_never_fatal exact strict (Some "T") [pictured]
                  Samples.bad_color_options)).
Defined.

(** The page of the chapter, the second page added, in the same run. *)
Lemma every_page_break_is_decorated_witness :
  let doc := snd (createPDF exact strict (Some "T") [pictured]
                            Samples.sample_options []) in
  decorates exact strict (headerFooter exact Samples.sample_options 210%Q 297%Q) doc
  /\ doc = (firstn 24 doc ++ doc_addPage :: skipn 25 doc)%list
  /\ exists c : list (Op exact),
       skipn 25 doc
       = (headerFooter exact Samples.sample_options 210%Q 297%Q ++ c)%list.
Proof.
  cbv zeta.
  assert (Hd : decorates exact strict
                 (headerFooter exact Samples.sample_options 210%Q 297%Q)
                 (snd (createPDF exact strict (Some "T") [pictured]
                                 Samples.sample_options []))).
  { apply decorates_when_header_returns. vm_compute.
    repeat constructor. }
  split; [exact Hd|]. split; [reflexivity|].
  exact (every_page_break_is_decorated exact strict (Some "T") [pictured]
           Samples.sample_options
           (firstn 24 (snd (createPDF exact strict (Some "T") [pictured]
                                      Samples.sample_options [])))
           (skipn 25 (snd (createPDF exact strict (Some "T") [pictured]
                                     Samples.sample_options [])))
           Hd eq_refl).
Defined.

(** The three pages of the same run are labelled. *)
Lemma every_page_is_labelled_witness :
  fst (createPDF exact strict (Some "T") [pictured] Samples.sample_options [])
  = Ok 52
  /\ exists body : list (Op exact),
       snd (createPDF exact strict (Some "T") [pictured] Samples.sample_options [])
       = (body
          ++ flat_map (fun i => pageLabel exact 210%Q 297%Q i
                                          (pages_length strict body - 1))
                      (upto (pages_length strict body - 1))
          ++ [doc_output])%list
       /\ Forall (fun op => is_setPage exact op = false) body
       /\ (List.length [pictured] + 1 <= added_pages exact body)%nat.
Proof.
  split; [reflexivity|].
  exact (every_page_is_labelled exact strict (Some "T") [pictured]
           Samples.sample_options 52 eq_refl).
Defined.

(** The labels of that run. *)
Example labels_of_three_pages :
  skipn 40 (snd (createPDF exact strict (Some "T") [pictured]
                           Samples.sample_options []))
  = [doc_setFontSize 10; doc_setTextColor (Int 150, Int 150, Int 150);
     @doc_text exact "Page 1 sur 3" (210 # 2)%Q 287%Q align_center None;
     doc_setPage 2; doc_setFontSize 10;
     doc_setTextColor (Int 150, Int 150, Int 150);
     @doc_text exact "Page 2 sur 3" (210 # 2)%Q 287%Q align_center None;
     doc_setPage 3; doc_setFontSize 10;
     doc_setTextColor (Int 150, Int 150, Int 150);
     @doc_text exact "Page 3 sur 3" (210 # 2)%Q 287%Q align_center None; doc_output].
Proof. reflexivity. Qed.

(** A chapter of 43 blank-line separators is drawn like a chapter without
    content, and estimated one page longer. *)
Lemma blank_paragraphs_are_not_drawn_witness :
  Forall2 same_print [Samples.blank_chapter]
          [with_content Samples.blank_chapter EmptyString]
  /\ createPDF exact a4 (Some "T") [Samples.blank_chapter] Samples.sample_options []
     = createPDF exact a4 (Some "T")
                 [with_content Samples.blank_chapter EmptyString]
                 Samples.sample_options []
  /\ estimatePageCount [Samples.blank_chapter] Samples.sample_options = 4
  /\ estimatePageCount [with_content Samples.blank_chapter EmptyString]
                       Samples.sample_options = 3.
Proof.
  assert (H : Forall2 same_print [Samples.blank_chapter]
                      [with_content Samples.blank_chapter EmptyString]).
  { constructor; [|constructor]. repeat split. }
  split; [exact H|]. split.
  - exact (blank_paragraphs_are_not_drawn exact a4 (Some "T") _ _
             Samples.sample_options H).
  - split; reflexivity.
Defined.

End RenderExtras.
